(** * Range-breakout trading engine: backtest ledger and session state machine

    A shallow embedding of [backtest_nas.py] (the historical simulator) and of
    the scale-in routine of [trading_bot.py] (the live poller), followed by
    the properties of the ledger, of the per-candle session state machine and
    of the range calculation.

    Numbers.  Prices, lot sizes and money amounts are Python floats in the
    source; they are embedded as exact rationals [Q].  The properties proved
    over [Q] are facts of order and structure: which comparison holds, which
    trades are opened and closed and with which fields, in which order
    amounts are added.  Where an equation between computed amounts is stated
    up to [==], it is one between rationals.  Module [Binary64] repeats the
    arithmetic of the ledger on binary64 numbers, for the one claim that is
    decided by rounding.  Timestamps are
    whole seconds since the epoch ([pd.to_datetime(..., unit='s')]), embedded
    as [Z]; the derived columns [date] and [time_only] are the quotient and
    the remainder by 86400.

    Objects.  [Trade] instances are mutable objects shared by reference
    between [all_trades], [closed_trades] and a session's [open_trades].
    [all_trades] is append-only and receives every trade at creation, so the
    position of a trade in [all_trades] is its identity: [all_trades] is the
    store, and the other two lists hold positions in it. *)

From Stdlib Require Import QArith Qminmax Qabs ZArith Lia Lqa Bool Sorted Floats.
From stdpp Require Import base list.

#[local] Set Warnings "-inexact-float".

Local Open Scope Q_scope.

(** ** Configuration constants *)

Definition time_hm (h m : Z) : Z := (h * 3600 + m * 60)%Z.

Definition LOT_SIZE : Q := 1 # 100.
Definition TP_UNITS : Q := 580.

Definition MORNING_RANGE_START : Z := time_hm 10 0.
Definition MORNING_RANGE_END : Z := time_hm 10 15.
Definition AFTERNOON_RANGE_START : Z := time_hm 16 30.
Definition AFTERNOON_RANGE_END : Z := time_hm 16 45.

Definition MORNING_ENTRY_START : Z := time_hm 10 15.
Definition MORNING_ENTRY_CUTOFF : Z := time_hm 16 29.
Definition AFTERNOON_ENTRY_START : Z := time_hm 16 45.
Definition AFTERNOON_EXIT_TIME : Z := time_hm 23 55.

Definition SCALE_LEVELS : list Q := [75 # 100; 50 # 100; 25 # 100].

(** ** Enumerations *)

Inductive Direction := BUY | SELL.
Inductive TradeType := INITIAL | SCALE | REVERSAL_TRADE.
Inductive SessionType := MORNING | AFTERNOON.
Inductive ExitReason := TP | REVERSAL | TIME_EXIT | SESSION_END.

(** Reading an [Optional[float]] attribute where the source uses it as a
    number.  On [None] Python raises a TypeError; every state reached from
    [SessionState.reset] has the attribute set wherever it is read (lemma
    [session_candle_wired] below), so the value chosen here for [None] is
    never used on a run. *)
Definition num (o : option Q) : Q :=
  match o with Some x => x | None => 0 end.

(** ** Candles *)

Module Candle.
Record t := mk {
  time : Z;
  open : Q;
  high : Q;
  low : Q;
  close : Q
}.

Definition date (c : t) : Z := (time c / 86400)%Z.
Definition time_only (c : t) : Z := (time c mod 86400)%Z.
End Candle.

(** ** class Trade *)

Module Trade.
Record t := mk {
  direction : Direction;
  entry_price : Q;
  entry_time : Z;
  lot_size : Q;
  tp_price : Q;
  trade_type : TradeType;
  session : SessionType;
  exit_price : option Q;
  exit_time : option Z;
  exit_reason : option ExitReason;
  profit : option Q;
  pips : option Q
}.

Definition init (direction : Direction) (entry_price : Q) (entry_time : Z)
    (lot_size tp_price : Q) (trade_type : TradeType) (session : SessionType) : t :=
  mk direction entry_price entry_time lot_size tp_price trade_type session
     None None None None None.

Definition compute_pips (self : t) (price point : Q) : Q :=
  match direction self with
  | BUY => (price - entry_price self) / point / 10
  | SELL => (entry_price self - price) / point / 10
  end.

Definition close (self : t) (exit_price' : Q) (exit_time' : Z)
    (exit_reason' : ExitReason) (point : Q) : t :=
  let pips' := compute_pips self exit_price' point in
  let pip_value := lot_size self * 100 in
  mk (direction self) (entry_price self) (entry_time self) (lot_size self)
     (tp_price self) (trade_type self) (session self)
     (Some exit_price') (Some exit_time') (Some exit_reason')
     (Some (pips' * pip_value)) (Some pips').

(** The [realizedPnL] of a trade record: its [profit] once closed. *)
Definition realized (self : t) : Q := num (profit self).
End Trade.

(** ** class SessionState *)

Module SessionState.
Record t := mk {
  session_type : SessionType;
  range_high : option Q;
  range_low : option Q;
  breakout_direction : option Direction;
  breakout_price : option Q;
  tp_price : option Q;
  reversal_count : nat;
  scale_levels : list Q;
  executed_scales : list Q;
  open_trades : list nat;
  session_start_balance : Q;
  session_max_drawdown : Q;
  session_peak_balance : Q;
  initial_breakout_done : bool;
  breakout_candle_time : option Z
}.

Definition init (session_type : SessionType) : t :=
  mk session_type None None None None None 0 [] [] [] 0 0 0 false None.

Definition reset (self : t) : t :=
  mk (session_type self) None None None None None 0 [] [] [] 0 0 0 false None.

Definition set_open_trades (self : t) (l : list nat) : t :=
  mk (session_type self) (range_high self) (range_low self)
     (breakout_direction self) (breakout_price self) (tp_price self)
     (reversal_count self) (scale_levels self) (executed_scales self)
     l (session_start_balance self) (session_max_drawdown self)
     (session_peak_balance self) (initial_breakout_done self)
     (breakout_candle_time self).

Definition set_range (self : t) (hi lo : Q) : t :=
  mk (session_type self) (Some hi) (Some lo)
     (breakout_direction self) (breakout_price self) (tp_price self)
     (reversal_count self) (scale_levels self) (executed_scales self)
     (open_trades self) (session_start_balance self) (session_max_drawdown self)
     (session_peak_balance self) (initial_breakout_done self)
     (breakout_candle_time self).

(** [session_start_balance], [session_peak_balance] and
    [session_max_drawdown] as set at the top of a session. *)
Definition start_tracking (self : t) (balance : Q) : t :=
  mk (session_type self) (range_high self) (range_low self)
     (breakout_direction self) (breakout_price self) (tp_price self)
     (reversal_count self) (scale_levels self) (executed_scales self)
     (open_trades self) balance 0 balance (initial_breakout_done self)
     (breakout_candle_time self).

Definition set_drawdown (self : t) (peak dd : Q) : t :=
  mk (session_type self) (range_high self) (range_low self)
     (breakout_direction self) (breakout_price self) (tp_price self)
     (reversal_count self) (scale_levels self) (executed_scales self)
     (open_trades self) (session_start_balance self) dd peak
     (initial_breakout_done self) (breakout_candle_time self).

(** The assignments of the initial-breakout branch. *)
Definition arm (self : t) (d : Direction) (price tp : Q) (levels : list Q)
    (candle_time : Z) : t :=
  mk (session_type self) (range_high self) (range_low self)
     (Some d) (Some price) (Some tp)
     (reversal_count self) levels (executed_scales self)
     (open_trades self) (session_start_balance self) (session_max_drawdown self)
     (session_peak_balance self) true (Some candle_time).

(** [state.open_trades.append(trade); state.executed_scales.append(level)]. *)
Definition record_scale (self : t) (ref : nat) (level : Q) : t :=
  mk (session_type self) (range_high self) (range_low self)
     (breakout_direction self) (breakout_price self) (tp_price self)
     (reversal_count self) (scale_levels self) (executed_scales self ++ [level])
     (open_trades self ++ [ref]) (session_start_balance self)
     (session_max_drawdown self) (session_peak_balance self)
     (initial_breakout_done self) (breakout_candle_time self).

(** [state.breakout_direction = None]  (stop trading for this session). *)
Definition stop (self : t) : t :=
  mk (session_type self) (range_high self) (range_low self)
     None (breakout_price self) (tp_price self)
     (reversal_count self) (scale_levels self) (executed_scales self)
     (open_trades self) (session_start_balance self) (session_max_drawdown self)
     (session_peak_balance self) (initial_breakout_done self)
     (breakout_candle_time self).

(** The assignments of the first-reversal branch. *)
Definition reverse (self : t) (d : Direction) (price tp : Q) (levels : list Q) : t :=
  mk (session_type self) (range_high self) (range_low self)
     (Some d) (Some price) (Some tp)
     (S (reversal_count self)) levels []
     (open_trades self) (session_start_balance self) (session_max_drawdown self)
     (session_peak_balance self) (initial_breakout_done self)
     (breakout_candle_time self).

(** The assignments of the second-reversal branch. *)
Definition terminate (self : t) : t :=
  mk (session_type self) (range_high self) (range_low self)
     None (breakout_price self) (tp_price self)
     (S (reversal_count self)) (scale_levels self) (executed_scales self)
     (open_trades self) (session_start_balance self) (session_max_drawdown self)
     (session_peak_balance self) (initial_breakout_done self)
     (breakout_candle_time self).
End SessionState.

(** ** class Backtester *)

Module DailyEquity.
Record t := mk {
  date : Z;
  weekday : Z;
  balance : Q;
  daily_profit : Q;
  trades_closed : nat
}.
End DailyEquity.

Module Backtester.
Record t := mk {
  point : Q;
  morning_state : SessionState.t;
  afternoon_state : SessionState.t;
  all_trades : list Trade.t;
  closed_trades : list nat;
  daily_equity : list DailyEquity.t;
  balance : Q;
  morning_session_drawdowns : list Q;
  afternoon_session_drawdowns : list Q
}.

(** [Backtester.__init__], with the symbol's [point] and the initial
    balance ([INITIAL_BALANCE] in the source) as arguments. *)
Definition init (point initial_balance : Q) : t :=
  mk point (SessionState.init MORNING) (SessionState.init AFTERNOON)
     [] [] [] initial_balance [] [].

Definition set_ledger (self : t) (trades : list Trade.t) (closed : list nat)
    (bal : Q) : t :=
  mk (point self) (morning_state self) (afternoon_state self)
     trades closed (daily_equity self) bal
     (morning_session_drawdowns self) (afternoon_session_drawdowns self).

Definition set_morning_state (self : t) (st : SessionState.t) : t :=
  mk (point self) st (afternoon_state self)
     (all_trades self) (closed_trades self) (daily_equity self) (balance self)
     (morning_session_drawdowns self) (afternoon_session_drawdowns self).

Definition set_afternoon_state (self : t) (st : SessionState.t) : t :=
  mk (point self) (morning_state self) st
     (all_trades self) (closed_trades self) (daily_equity self) (balance self)
     (morning_session_drawdowns self) (afternoon_session_drawdowns self).

Definition push_morning_drawdown (self : t) (dd : Q) : t :=
  mk (point self) (morning_state self) (afternoon_state self)
     (all_trades self) (closed_trades self) (daily_equity self) (balance self)
     (morning_session_drawdowns self ++ [dd]) (afternoon_session_drawdowns self).

Definition push_afternoon_drawdown (self : t) (dd : Q) : t :=
  mk (point self) (morning_state self) (afternoon_state self)
     (all_trades self) (closed_trades self) (daily_equity self) (balance self)
     (morning_session_drawdowns self) (afternoon_session_drawdowns self ++ [dd]).

Definition push_daily_equity (self : t) (e : DailyEquity.t) : t :=
  mk (point self) (morning_state self) (afternoon_state self)
     (all_trades self) (closed_trades self) (daily_equity self ++ [e]) (balance self)
     (morning_session_drawdowns self) (afternoon_session_drawdowns self).
End Backtester.

(** ** Methods of [Backtester] *)

Definition Qlt_bool (x y : Q) : bool := negb (Qle_bool y x).

(** [Series.max()] and [Series.min()] of a non-empty column. *)
Definition series_max (l : list Q) : Q :=
  match l with [] => 0 | x :: xs => fold_left Qmax xs x end.
Definition series_min (l : list Q) : Q :=
  match l with [] => 0 | x :: xs => fold_left Qmin xs x end.

(** The row mask of [calculate_range]. *)
Definition range_mask (date start_time end_time : Z) (c : Candle.t) : bool :=
  (Candle.date c =? date)%Z
  && (start_time <=? Candle.time_only c)%Z
  && (Candle.time_only c <? end_time)%Z.

Definition calculate_range (df : list Candle.t) (date start_time end_time : Z)
    : option (Q * Q) :=
  let range_candles := List.filter (range_mask date start_time end_time) df in
  if (length range_candles <? 3)%nat then None
  else Some (series_max (map Candle.high range_candles),
             series_min (map Candle.low range_candles)).

Definition calculate_tp (self : Backtester.t) (breakout_price : Q)
    (direction : Direction) : Q :=
  let tp_distance := TP_UNITS * Backtester.point self in
  match direction with
  | BUY => breakout_price + tp_distance
  | SELL => breakout_price - tp_distance
  end.

Definition calculate_scale_levels (range_high range_low : Q)
    (direction : Direction) (is_reversal : bool) : list Q :=
  let range_size := range_high - range_low in
  let percentages := if is_reversal then [50 # 100] else SCALE_LEVELS in
  match direction with
  | BUY => map (fun p => range_high - p * range_size) percentages
  | SELL => map (fun p => range_low + p * range_size) percentages
  end.

Definition check_tp_hit (trade : Trade.t) (candle : Candle.t) : bool :=
  match Trade.direction trade with
  | BUY => Qle_bool (Trade.tp_price trade) (Candle.high candle)
  | SELL => Qle_bool (Candle.low candle) (Trade.tp_price trade)
  end.

(** [open_trade] returns the new trade; here, its position in [all_trades]. *)
Definition open_trade (self : Backtester.t) (direction : Direction)
    (entry_price : Q) (entry_time : Z) (tp_price : Q) (trade_type : TradeType)
    (session : SessionType) (lot_size : option Q) : Backtester.t * nat :=
  let lot_size := match lot_size with None => LOT_SIZE | Some l => l end in
  let trade := Trade.init direction entry_price entry_time lot_size tp_price
                          trade_type session in
  (Backtester.set_ledger self (Backtester.all_trades self ++ [trade])
     (Backtester.closed_trades self) (Backtester.balance self),
   length (Backtester.all_trades self)).

(** [close_trade]: the trade object is mutated in place, appended to
    [closed_trades], and its profit added to the balance.  A reference
    outside the store does not exist in the source; it is left alone. *)
Definition close_trade (self : Backtester.t) (trade : nat) (exit_price : Q)
    (exit_time : Z) (exit_reason : ExitReason) : Backtester.t :=
  match Backtester.all_trades self !! trade with
  | None => self
  | Some tr =>
      let tr' := Trade.close tr exit_price exit_time exit_reason
                             (Backtester.point self) in
      Backtester.set_ledger self
        (<[trade := tr']> (Backtester.all_trades self))
        (Backtester.closed_trades self ++ [trade])
        (Backtester.balance self + Trade.realized tr')
  end.

(** The loop of [close_all_session_trades]. *)
Definition close_each (self : Backtester.t) (trades : list nat) (exit_price : Q)
    (exit_time : Z) (exit_reason : ExitReason) : Backtester.t :=
  fold_left (fun b tr => close_trade b tr exit_price exit_time exit_reason)
            trades self.

Definition close_all_session_trades (self : Backtester.t) (state : SessionState.t)
    (exit_price : Q) (exit_time : Z) (exit_reason : ExitReason)
    : Backtester.t * SessionState.t :=
  (close_each self (SessionState.open_trades state) exit_price exit_time exit_reason,
   SessionState.set_open_trades state []).

Definition calculate_floating_pnl (self : Backtester.t) (state : SessionState.t)
    (current_price : Q) : Q :=
  fold_left
    (fun floating_pnl ref =>
       match Backtester.all_trades self !! ref with
       | None => floating_pnl
       | Some trade =>
           floating_pnl
           + Trade.compute_pips trade current_price (Backtester.point self)
             * (Trade.lot_size trade * 100)
       end)
    (SessionState.open_trades state) 0.

Definition update_session_drawdown (self : Backtester.t) (state : SessionState.t)
    (candle_high candle_low candle_close : Q) : SessionState.t :=
  fold_left
    (fun st price =>
       let current_equity := Backtester.balance self
                             + calculate_floating_pnl self st price in
       let peak :=
         if Qeq_bool price candle_close
            && Qlt_bool (SessionState.session_peak_balance st) current_equity
         then current_equity else SessionState.session_peak_balance st in
       let drawdown := current_equity - peak in
       let dd :=
         if Qlt_bool drawdown (SessionState.session_max_drawdown st)
         then drawdown else SessionState.session_max_drawdown st in
       SessionState.set_drawdown st peak dd)
    [candle_high; candle_low; candle_close] state.

(** ** The per-candle body of the session loops

    [process_morning_session] and [process_afternoon_session] run the same
    loop body up to three tests: the gate on the initial breakout
    ([can_enter_new] in the morning, none in the afternoon), and the gate on
    scale entries and on reversals ([not can_enter_new] in the morning,
    [current_time_only >= AFTERNOON_EXIT_TIME] in the afternoon).  The body
    is written once, with the session name and the two gates as arguments:
    [breakout_gate] is the condition under which a breakout may arm, and
    [can_enter] the condition under which entries and reversals are allowed. *)

(** [list.remove(x)]: drops the first occurrence. *)
Fixpoint list_remove (x : nat) (l : list nat) : list nat :=
  match l with
  | [] => []
  | y :: l' => if (x =? y)%nat then l' else y :: list_remove x l'
  end.

(** [enumerate(l)]. *)
Definition enumerate {A} (l : list A) : list (nat * A) :=
  combine (seq 0 (length l)) l.

Section Body.
Variable session : SessionType.
Variable breakout_gate can_enter : bool.
Variable candle : Candle.t.

(** Initial breakout (only once per session). *)
Definition check_initial_breakout (self : Backtester.t) (state : SessionState.t)
    : SessionState.t :=
  if negb (SessionState.initial_breakout_done state) && breakout_gate then
    if Qlt_bool (num (SessionState.range_high state)) (Candle.close candle) then
      SessionState.arm state BUY (Candle.close candle)
        (calculate_tp self (Candle.close candle) BUY)
        (calculate_scale_levels (num (SessionState.range_high state))
           (num (SessionState.range_low state)) BUY false)
        (Candle.time candle)
    else if Qlt_bool (Candle.close candle) (num (SessionState.range_low state)) then
      SessionState.arm state SELL (Candle.close candle)
        (calculate_tp self (Candle.close candle) SELL)
        (calculate_scale_levels (num (SessionState.range_high state))
           (num (SessionState.range_low state)) SELL false)
        (Candle.time candle)
    else state
  else state.

(** One iteration of [for trade in state.open_trades[:]]: the accumulator
    is the engine, the live [state.open_trades] and [tp_hit]. *)
Definition tp_iter (tp : Q) (acc : Backtester.t * list nat * bool) (trade : nat)
    : Backtester.t * list nat * bool :=
  let '(self, opens, tp_hit) := acc in
  match Backtester.all_trades self !! trade with
  | None => acc
  | Some tr =>
      if check_tp_hit tr candle then
        (close_trade self trade tp (Candle.time candle) TP,
         list_remove trade opens, true)
      else acc
  end.

(** Take-profit check (only if the session has open trades). *)
Definition check_take_profit (self : Backtester.t) (state : SessionState.t)
    : Backtester.t * SessionState.t :=
  match SessionState.open_trades state with
  | [] => (self, state)
  | _ :: _ =>
      let tp := num (SessionState.tp_price state) in
      let '(self1, opens, tp_hit) :=
        fold_left (tp_iter tp) (SessionState.open_trades state)
                  (self, SessionState.open_trades state, false) in
      let state1 := SessionState.set_open_trades state opens in
      if tp_hit then
        close_all_session_trades self1 state1 tp (Candle.time candle) TP
      else (self1, state1)
  end.

(** [can_check_scales]: only on a candle after the breakout candle. *)
Definition can_check_scales (state : SessionState.t) : bool :=
  match SessionState.breakout_candle_time state with
  | None => true
  | Some t => negb (Candle.time candle <=? t)%Z
  end.

Definition level_triggered (direction : Direction) (level : Q) : bool :=
  match direction with
  | BUY => Qle_bool (Candle.low candle) level
  | SELL => Qle_bool level (Candle.high candle)
  end.

(** Lot size by scale order: 4x on a reversal ladder, else
    [LOT_SIZE * (4 - level_index)]. *)
Definition scale_lot_size (state : SessionState.t) (level_index : nat) : Q :=
  if (1 <=? SessionState.reversal_count state)%nat then LOT_SIZE * 4
  else LOT_SIZE * (4 - inject_Z (Z.of_nat level_index)).

(** One iteration of [for level_index, level in enumerate(state.scale_levels)]. *)
Definition scale_iter (direction : Direction)
    (acc : Backtester.t * SessionState.t) (entry : nat * Q)
    : Backtester.t * SessionState.t :=
  let '(self, state) := acc in
  let '(level_index, level) := entry in
  if existsb (Qeq_bool level) (SessionState.executed_scales state) then acc
  else if level_triggered direction level then
    if negb can_enter then acc
    else
      let lot_size := scale_lot_size state level_index in
      let '(self1, trade) :=
        open_trade self direction level (Candle.time candle)
                   (num (SessionState.tp_price state)) SCALE session
                   (Some lot_size) in
      (self1, SessionState.record_scale state trade level)
  else acc.

Definition check_scaling (direction : Direction) (self : Backtester.t)
    (state : SessionState.t) : Backtester.t * SessionState.t :=
  if can_check_scales state then
    fold_left (scale_iter direction)
              (enumerate (SessionState.scale_levels state)) (self, state)
  else (self, state).

(** The reversal test: [Some new_direction] when [reversal] is set. *)
Definition reversal_direction (direction : Direction) (state : SessionState.t)
    : option Direction :=
  match direction with
  | BUY =>
      if Qlt_bool (Candle.close candle) (num (SessionState.range_low state))
      then Some SELL else None
  | SELL =>
      if Qlt_bool (num (SessionState.range_high state)) (Candle.close candle)
      then Some BUY else None
  end.

(** The [if reversal:] block; it always ends in [continue]. *)
Definition handle_reversal (new_direction : Direction) (self : Backtester.t)
    (state : SessionState.t) : Backtester.t * SessionState.t :=
  let '(self1, state1) :=
    match SessionState.open_trades state with
    | [] => (self, state)
    | _ :: _ =>
        close_all_session_trades self state (Candle.close candle)
                                 (Candle.time candle) REVERSAL
    end in
  if negb can_enter then (self1, SessionState.stop state1)
  else if (SessionState.reversal_count state1 =? 0)%nat then
    (self1,
     SessionState.reverse state1 new_direction (Candle.close candle)
       (calculate_tp self1 (Candle.close candle) new_direction)
       (calculate_scale_levels (num (SessionState.range_high state1))
          (num (SessionState.range_low state1)) new_direction true))
  else (self1, SessionState.terminate state1).

(** Drawdown tracking at the end of an iteration that did not [continue]. *)
Definition track_drawdown (self : Backtester.t) (state : SessionState.t)
    : SessionState.t :=
  match SessionState.open_trades state with
  | [] => state
  | _ :: _ =>
      update_session_drawdown self state (Candle.high candle)
                              (Candle.low candle) (Candle.close candle)
  end.

(** The whole loop body. *)
Definition session_candle (acc : Backtester.t * SessionState.t)
    : Backtester.t * SessionState.t :=
  let '(self, state0) := acc in
  let state := check_initial_breakout self state0 in
  match SessionState.breakout_direction state with
  | None => (self, track_drawdown self state)
  | Some direction =>
      let '(self1, state1) := check_take_profit self state in
      let '(self2, state2) := check_scaling direction self1 state1 in
      match reversal_direction direction state2 with
      | Some new_direction => handle_reversal new_direction self2 state2
      | None => (self2, track_drawdown self2 state2)
      end
  end.
End Body.

(** ** The two session procedures and the run *)

(** The part of both procedures before the loop: balance tracking and the
    range.  [None] is the early [return] on an undefined range. *)
Definition prepare_session (self : Backtester.t) (state : SessionState.t)
    (df_day : list Candle.t) (date range_start range_end : Z)
    : option SessionState.t :=
  let state := SessionState.start_tracking state (Backtester.balance self) in
  let state :=
    match SessionState.range_high state with
    | Some _ => state
    | None =>
        match calculate_range df_day date range_start range_end with
        | Some (hi, lo) => SessionState.set_range state hi lo
        | None => state
        end
    end in
  match SessionState.range_high state with
  | None => None
  | Some _ => Some state
  end.

Definition morning_candle (candle : Candle.t)
    (acc : Backtester.t * SessionState.t) : Backtester.t * SessionState.t :=
  let can_enter_new := (Candle.time_only candle <=? MORNING_ENTRY_CUTOFF)%Z in
  session_candle MORNING can_enter_new can_enter_new candle acc.

Definition morning_loop (entry_candles : list Candle.t)
    (acc : Backtester.t * SessionState.t) : Backtester.t * SessionState.t :=
  fold_left (fun a c => morning_candle c a) entry_candles acc.

Definition entry_candles_from (df_day : list Candle.t) (entry_start : Z)
    : list Candle.t :=
  List.filter (fun c => (entry_start <=? Candle.time_only c)%Z) df_day.

Definition process_morning_session (self : Backtester.t)
    (df_day : list Candle.t) (date : Z) : Backtester.t :=
  match prepare_session self (Backtester.morning_state self) df_day date
                        MORNING_RANGE_START MORNING_RANGE_END with
  | None =>
      Backtester.set_morning_state self
        (SessionState.start_tracking (Backtester.morning_state self)
                                     (Backtester.balance self))
  | Some state =>
      let entry_candles := entry_candles_from df_day MORNING_ENTRY_START in
      let '(self1, state1) := morning_loop entry_candles (self, state) in
      let self2 := Backtester.set_morning_state self1 state1 in
      if Qlt_bool (SessionState.session_max_drawdown state1) 0
      then Backtester.push_morning_drawdown self2
             (SessionState.session_max_drawdown state1)
      else self2
  end.

Definition afternoon_candle (candle : Candle.t)
    (acc : Backtester.t * SessionState.t) : Backtester.t * SessionState.t :=
  let past_exit := (AFTERNOON_EXIT_TIME <=? Candle.time_only candle)%Z in
  session_candle AFTERNOON true (negb past_exit) candle acc.

(** The afternoon loop, with its forced close and [break] at the exit time. *)
Fixpoint afternoon_loop (entry_candles : list Candle.t)
    (acc : Backtester.t * SessionState.t) : Backtester.t * SessionState.t :=
  match entry_candles with
  | [] => acc
  | candle :: rest =>
      if (AFTERNOON_EXIT_TIME <=? Candle.time_only candle)%Z then
        match SessionState.open_trades (snd acc) with
        | [] => acc
        | _ :: _ =>
            close_all_session_trades (fst acc) (snd acc) (Candle.close candle)
                                     (Candle.time candle) TIME_EXIT
        end
      else afternoon_loop rest (afternoon_candle candle acc)
  end.

(** The forced close after the loop, at [entry_candles.iloc[-1]].  With open
    trades the frame is not empty on a run (trades are only opened inside the
    loop); on an empty frame the source would raise, and nothing is done. *)
Definition close_at_session_end (entry_candles : list Candle.t)
    (acc : Backtester.t * SessionState.t) : Backtester.t * SessionState.t :=
  match SessionState.open_trades (snd acc), last entry_candles with
  | _ :: _, Some last_candle =>
      close_all_session_trades (fst acc) (snd acc) (Candle.close last_candle)
                               (Candle.time last_candle) SESSION_END
  | _, _ => acc
  end.

Definition process_afternoon_session (self : Backtester.t)
    (df_day : list Candle.t) (date : Z) : Backtester.t :=
  match prepare_session self (Backtester.afternoon_state self) df_day date
                        AFTERNOON_RANGE_START AFTERNOON_RANGE_END with
  | None =>
      Backtester.set_afternoon_state self
        (SessionState.start_tracking (Backtester.afternoon_state self)
                                     (Backtester.balance self))
  | Some state =>
      let entry_candles := entry_candles_from df_day AFTERNOON_ENTRY_START in
      let '(self1, state1) :=
        close_at_session_end entry_candles
          (afternoon_loop entry_candles (self, state)) in
      let self2 := Backtester.set_afternoon_state self1 state1 in
      if Qlt_bool (SessionState.session_max_drawdown state1) 0
      then Backtester.push_afternoon_drawdown self2
             (SessionState.session_max_drawdown state1)
      else self2
  end.

(** [sorted(df['date'].unique())]. *)
Fixpoint insert_unique (d : Z) (l : list Z) : list Z :=
  match l with
  | [] => [d]
  | x :: l' =>
      if (d <? x)%Z then d :: l
      else if (d =? x)%Z then l
      else x :: insert_unique d l'
  end.

Definition unique_dates (df : list Candle.t) : list Z :=
  fold_right insert_unique [] (map Candle.date df).

(** Day of the week of a date, Monday = 0; day 0 (1970-01-01) is a Thursday. *)
Definition weekday_of (date : Z) : Z := ((date + 3) mod 7)%Z.
Definition is_weekend (date : Z) : bool :=
  (weekday_of date =? 5)%Z || (weekday_of date =? 6)%Z.

Definition trades_closed_on (self : Backtester.t) (date : Z) : nat :=
  length
    (List.filter
       (fun ref =>
          match Backtester.all_trades self !! ref with
          | Some tr =>
              match Trade.exit_time tr with
              | Some t => (t / 86400 =? date)%Z
              | None => false
              end
          | None => false
          end)
       (Backtester.closed_trades self)).

Definition reset_daily_state (self : Backtester.t) : Backtester.t :=
  Backtester.set_afternoon_state
    (Backtester.set_morning_state self
       (SessionState.reset (Backtester.morning_state self)))
    (SessionState.reset (Backtester.afternoon_state self)).

(** One iteration of [for date in unique_dates]. *)
Definition process_day (df : list Candle.t) (self : Backtester.t) (date : Z)
    : Backtester.t :=
  if is_weekend date then self
  else
    let self := reset_daily_state self in
    let df_day := List.filter (fun c => (Candle.date c =? date)%Z) df in
    match df_day with
    | [] => self
    | _ :: _ =>
        let balance_start := Backtester.balance self in
        let self := process_morning_session self df_day date in
        let self := process_afternoon_session self df_day date in
        let daily_profit := Backtester.balance self - balance_start in
        Backtester.push_daily_equity self
          (DailyEquity.mk date (weekday_of date) (Backtester.balance self)
             daily_profit (trades_closed_on self date))
    end.

Definition run_dates (df : list Candle.t) (dates : list Z) (self : Backtester.t)
    : Backtester.t :=
  fold_left (process_day df) dates self.

(** [Backtester.run], up to the statistics report: the engine after the
    replay of the frame [df]. *)
Definition run (self : Backtester.t) (df : list Candle.t) : Backtester.t :=
  run_dates df (unique_dates df) self.

(** The balance as the code builds it: the profit of each closed trade added
    to the initial balance, one by one in closing order. *)
Definition accrue (trades : list Trade.t) (closed : list nat) (b0 : Q) : Q :=
  fold_left
    (fun balance ref =>
       match trades !! ref with
       | Some tr => balance + Trade.realized tr
       | None => balance
       end)
    closed b0.

(** * The live poller ([trading_bot.py]): scale-in on the latest candle

    The order collaborator ([open_position], which wraps the broker call and
    turns every failure into [None]) and the symbol's [point] are taken as
    parameters: [Broker] is whatever state the platform keeps between
    orders.  The order comment [f"{session}_SCALE_{level:.5f}"] is carried as
    the pair of the session and the level. *)

Module Live.

Definition LOT_SIZE : Q := 1 # 10.
Definition TP_UNITS : Q := 58 # 10.

Record RangeInfo := mkRange {
  range_high : Q;
  range_low : Q;
  time_start : Z;
  time_end : Z;
  candles : nat
}.

Record BreakoutInfo := mkBreakout {
  direction : Direction;
  price : Q;
  time : Z;
  candle_high : Q;
  candle_low : Q
}.

(** class TradingState (the module-level [state] object). *)
Record TradingState := mkState {
  morning_range : option RangeInfo;
  afternoon_range : option RangeInfo;
  morning_breakout : option BreakoutInfo;
  afternoon_breakout : option BreakoutInfo;
  morning_reversal_count : nat;
  afternoon_reversal_count : nat;
  morning_scale_levels : list Q;
  afternoon_scale_levels : list Q;
  morning_positions : list Z;
  afternoon_positions : list Z
}.

Definition positions (session : SessionType) (state : TradingState) : list Z :=
  match session with
  | MORNING => morning_positions state
  | AFTERNOON => afternoon_positions state
  end.

Definition reversal_count (session : SessionType) (state : TradingState) : nat :=
  match session with
  | MORNING => morning_reversal_count state
  | AFTERNOON => afternoon_reversal_count state
  end.

(** [state.morning_positions.append(ticket)] or
    [state.afternoon_positions.append(ticket)]. *)
Definition append_position (session : SessionType) (ticket : Z)
    (state : TradingState) : TradingState :=
  match session with
  | MORNING =>
      mkState (morning_range state) (afternoon_range state)
        (morning_breakout state) (afternoon_breakout state)
        (morning_reversal_count state) (afternoon_reversal_count state)
        (morning_scale_levels state) (afternoon_scale_levels state)
        (morning_positions state ++ [ticket]) (afternoon_positions state)
  | AFTERNOON =>
      mkState (morning_range state) (afternoon_range state)
        (morning_breakout state) (afternoon_breakout state)
        (morning_reversal_count state) (afternoon_reversal_count state)
        (morning_scale_levels state) (afternoon_scale_levels state)
        (morning_positions state) (afternoon_positions state ++ [ticket])
  end.

(** [if ticket:] - an order number that is neither [None] nor 0. *)
Definition truthy (ticket : option Z) : bool :=
  match ticket with
  | Some t => negb (t =? 0)%Z
  | None => false
  end.

Section Collaborators.
Variable Broker : Type.
Variable open_position :
  Broker → Direction → Q → Q → SessionType * Q → option Z * Broker.
Variable point_value : Q.

Definition calculate_tp (breakout_info : BreakoutInfo) : Q :=
  let tp_distance := TP_UNITS * point_value in
  match direction breakout_info with
  | BUY => price breakout_info + tp_distance
  | SELL => price breakout_info - tp_distance
  end.

Definition triggered (latest_candle : Candle.t) (direction : Direction)
    (level : Q) : bool :=
  match direction with
  | BUY => Qle_bool (Candle.low latest_candle) level
  | SELL => Qle_bool level (Candle.high latest_candle)
  end.

(** One iteration of [for level in scale_levels]: the accumulator is
    [remaining_levels], the state object and the broker. *)
Definition scaling_iter (latest_candle : Candle.t) (breakout_info : BreakoutInfo)
    (lot_size tp_price : Q) (session : SessionType)
    (acc : list Q * TradingState * Broker) (level : Q)
    : list Q * TradingState * Broker :=
  let '(remaining_levels, state, broker) := acc in
  if triggered latest_candle (direction breakout_info) level then
    let '(ticket, broker1) :=
      open_position broker (direction breakout_info) lot_size tp_price
                    (session, level) in
    if truthy ticket then
      match ticket with
      | Some t => (remaining_levels, append_position session t state, broker1)
      | None => (remaining_levels, state, broker1)
      end
    else (remaining_levels, state, broker1)
  else (remaining_levels ++ [level], state, broker).

(** [check_and_execute_scaling]; the result is the returned list with the
    state object and the broker after the call.  The [except] branch is
    reached only from [candles[-1]] on an empty array. *)
Definition check_and_execute_scaling (candles : list Candle.t)
    (breakout_info : BreakoutInfo) (scale_levels : list Q) (session : SessionType)
    (state : TradingState) (broker : Broker) : list Q * TradingState * Broker :=
  match scale_levels with
  | [] => (scale_levels, state, broker)
  | _ :: _ =>
      match last candles with
      | None => (scale_levels, state, broker)
      | Some latest_candle =>
          let tp_price := calculate_tp breakout_info in
          let is_reversal_trade := (1 <=? reversal_count session state)%nat in
          let lot_size := if is_reversal_trade then LOT_SIZE * 2 else LOT_SIZE in
          fold_left (scaling_iter latest_candle breakout_info lot_size tp_price session)
                    scale_levels ([], state, broker)
      end
  end.

(** Successive polls of one epoch: each poll hands the levels returned by
    the previous one to [check_and_execute_scaling], as the session
    procedures do when no reversal is detected. *)
Definition scaling_polls (polls : list (list Candle.t))
    (breakout_info : BreakoutInfo) (session : SessionType)
    (start : list Q * TradingState * Broker) : list Q * TradingState * Broker :=
  fold_left
    (fun acc candles =>
       let '(scale_levels, state, broker) := acc in
       check_and_execute_scaling candles breakout_info scale_levels session
                                 state broker)
    polls start.
End Collaborators.

End Live.

(** * Vocabulary of the properties *)

(** Everything in the engine that is not the ledger: the trading steps leave
    it alone. *)
Definition engine_fields (self : Backtester.t) :=
  (Backtester.point self, Backtester.morning_state self,
   Backtester.afternoon_state self, Backtester.daily_equity self,
   Backtester.morning_session_drawdowns self,
   Backtester.afternoon_session_drawdowns self).

Definition Base (self : Backtester.t) (opens : list nat) : Prop :=
  NoDup opens ∧ ∀ i, i ∈ opens → (i < length (Backtester.all_trades self))%nat.

Definition same_ledger (a b : Backtester.t) : Prop :=
  Backtester.all_trades a = Backtester.all_trades b
  ∧ Backtester.closed_trades a = Backtester.closed_trades b
  ∧ Backtester.balance a = Backtester.balance b
  ∧ Backtester.point a = Backtester.point b.

(** [StableUnder allowed sess R]: the relation [R] between the engine and the
    open trades of the session [sess] survives what that session does to the
    ledger, when it closes trades only with the reasons in [allowed]. *)
Record StableUnder (allowed : ExitReason → Prop) (sess : SessionType)
    (R : Backtester.t → list nat → Prop) : Prop := {
  stable_ledger : ∀ a b o, same_ledger a b → R a o → R b o;
  stable_close : ∀ self o ref p t r,
    allowed r → Base self o → R self o → ref ∈ o →
    R (close_trade self ref p t r) (list_remove ref o);
  stable_open : ∀ self o d p t tp ty l,
    Base self o → R self o →
    R (open_trade self d p t tp ty sess l).1
      (o ++ [length (Backtester.all_trades self)]);
  stable_drop : ∀ self o, R self o → R self []
}.

(** [Stable R]: whatever the session and the exit reasons. *)
Definition Stable (R : Backtester.t → list nat → Prop) : Prop :=
  ∀ allowed sess, StableUnder allowed sess R.

(** [Accrued b0]: no open trade of the session is already closed, closed
    references are in the store, and the balance is [b0] with the profits of
    the closed trades added in closing order. *)
Definition Accrued (b0 : Q) (self : Backtester.t) (opens : list nat) : Prop :=
  (∀ i, i ∈ opens → i ∉ Backtester.closed_trades self)
  ∧ (∀ i, i ∈ Backtester.closed_trades self →
          (i < length (Backtester.all_trades self))%nat)
  ∧ Backtester.balance self
    = accrue (Backtester.all_trades self) (Backtester.closed_trades self) b0.


(** [Unclosed]: the open trades of the session are not in [closed_trades]
    and carry no exit field; closed references are in the store. *)
Definition Unclosed (self : Backtester.t) (opens : list nat) : Prop :=
  (∀ i, i ∈ opens →
        (i ∉ Backtester.closed_trades self)
        ∧ ∃ tr, Backtester.all_trades self !! i = Some tr
                ∧ Trade.exit_reason tr = None
                ∧ Trade.exit_price tr = None
                ∧ Trade.profit tr = None)
  ∧ (∀ j, j ∈ Backtester.closed_trades self →
          (j < length (Backtester.all_trades self))%nat).

(** [Dormant i tr]: the trade object [i] is [tr], is not closed, and no
    session holds it any more. *)
Definition Dormant (i : nat) (tr : Trade.t) (self : Backtester.t)
    (opens : list nat) : Prop :=
  Backtester.all_trades self !! i = Some tr
  ∧ (i ∉ Backtester.closed_trades self)
  ∧ (i ∉ opens).

(** [EndTagged]: every trade closed with reason SESSION_END is an afternoon
    trade; [Tagged sess] adds that the open trades of the session carry the
    session's name. *)
Definition EndTagged (self : Backtester.t) : Prop :=
  ∀ j tr, Backtester.all_trades self !! j = Some tr →
          Trade.exit_reason tr = Some SESSION_END →
          Trade.session tr = AFTERNOON.

Definition Tagged (sess : SessionType) (self : Backtester.t)
    (opens : list nat) : Prop :=
  (∀ i, i ∈ opens →
        ∃ tr, Backtester.all_trades self !! i = Some tr ∧ Trade.session tr = sess)
  ∧ EndTagged self.

(** The words of the range calculation: a candle falls in the window of a
    date, and a value is the maximum (minimum) of a column. *)
Definition in_window (date window_start window_end : Z) (c : Candle.t) : Prop :=
  Candle.date c = date
  ∧ (window_start ≤ Candle.time_only c)%Z
  ∧ (Candle.time_only c < window_end)%Z.

Definition is_maximum (m : Q) (column : list Q) : Prop :=
  m ∈ column ∧ ∀ x, x ∈ column → x <= m.

Definition is_minimum (m : Q) (column : list Q) : Prop :=
  m ∈ column ∧ ∀ x, x ∈ column → m <= x.

(** The attributes a trade gets when it is opened; closing never changes
    them. *)
Definition entry_fields (tr : Trade.t) :=
  (Trade.direction tr, Trade.entry_price tr, Trade.entry_time tr,
   Trade.lot_size tr, Trade.tp_price tr, Trade.trade_type tr, Trade.session tr).

(** The attributes of a session that steer the state machine (all but the
    open trades, the executed levels and the drawdown figures). *)
Definition control_fields (st : SessionState.t) :=
  (SessionState.session_type st, SessionState.range_high st,
   SessionState.range_low st, SessionState.breakout_direction st,
   SessionState.breakout_price st, SessionState.tp_price st,
   SessionState.reversal_count st, SessionState.scale_levels st,
   SessionState.initial_breakout_done st, SessionState.breakout_candle_time st).

(** The shape of every session state between [SessionState.reset] and the
    end of the day: the range is set; before the initial breakout the session
    is unarmed with no reversal; an armed session has its take-profit, its
    breakout price and its breakout candle recorded and at most one reversal
    behind it; an unarmed session holds no open trade; the ladder of an armed
    session is the initial one before a reversal and the reversal one after. *)
Definition Wired (st : SessionState.t) : Prop :=
  is_Some (SessionState.range_high st)
  ∧ is_Some (SessionState.range_low st)
  ∧ (SessionState.initial_breakout_done st = false →
     SessionState.breakout_direction st = None
     ∧ SessionState.reversal_count st = 0%nat)
  ∧ (is_Some (SessionState.breakout_direction st) →
     (SessionState.reversal_count st ≤ 1)%nat
     ∧ is_Some (SessionState.tp_price st)
     ∧ is_Some (SessionState.breakout_price st)
     ∧ is_Some (SessionState.breakout_candle_time st))
  ∧ (SessionState.reversal_count st ≤ 2)%nat
  ∧ (SessionState.breakout_direction st = None →
     SessionState.open_trades st = [])
  ∧ (∀ d, SessionState.breakout_direction st = Some d →
       SessionState.scale_levels st
       = calculate_scale_levels (num (SessionState.range_high st))
           (num (SessionState.range_low st)) d
           (1 <=? SessionState.reversal_count st)%nat).

(** A session that has stopped for the day. *)
Definition Stopped (st : SessionState.t) : Prop :=
  SessionState.initial_breakout_done st = true
  ∧ SessionState.breakout_direction st = None
  ∧ SessionState.open_trades st = [].

(** ** A trading day used in the examples

    Monday 2024-01-01 (day 19723), five-digit prices written in points.
    The morning range is 1.10000 - 1.10500; the 10:15 candle closes at
    1.10600 (long breakout), the 10:20 candle pulls back to 1.10100, the
    10:25 candle closes at 1.09900 (first reversal) and the 10:30 candle
    closes at 1.10700 (second reversal). *)
Definition example_day : Z := 19723.

Definition px (points : Z) : Q := points # 100000.

Definition bar (h m o hi lo cl : Z) : Candle.t :=
  Candle.mk (example_day * 86400 + time_hm h m) (px o) (px hi) (px lo) (px cl).

Definition range_bars : list Candle.t :=
  [bar 10 0 110200 110500 110100 110300;
   bar 10 5 110200 110400 110000 110300;
   bar 10 10 110200 110400 110100 110300].

Definition breakout_bar : Candle.t := bar 10 15 110300 110650 110300 110600.
Definition pullback_bar : Candle.t := bar 10 20 110600 110600 110100 110200.
Definition reversal_bar : Candle.t := bar 10 25 110200 110200 109900 109900.
Definition second_reversal_bar : Candle.t := bar 10 30 109900 110700 109900 110700.
Definition quiet_bar : Candle.t := bar 10 35 110700 110700 110600 110650.

Definition example_df : list Candle.t :=
  range_bars ++ [breakout_bar; pullback_bar; reversal_bar; second_reversal_bar;
                 quiet_bar].

Definition example_engine : Backtester.t := Backtester.init (px 1) 10000.

(** The morning session of the example day when its loop starts. *)
Definition example_session : SessionState.t :=
  SessionState.set_range
    (SessionState.start_tracking (SessionState.reset (SessionState.init MORNING))
                                 10000)
    (px 110500) (px 110000).

(** The morning session of the example day once the 10:15 candle has armed
    it long. *)
Definition example_armed : SessionState.t :=
  (morning_candle breakout_bar (example_engine, example_session)).2.

(** A shallower 10:20 candle (low 1.10300, which reaches the 25% level only),
    the engine and session after it, and a 10:25 candle that spikes through
    the take-profit before closing below the range. *)
Definition shallow_pullback_bar : Candle.t := bar 10 20 110600 110600 110300 110400.
Definition spike_bar : Candle.t := bar 10 25 110400 111200 109900 109900.

Definition example_scaled : Backtester.t * SessionState.t :=
  morning_loop [breakout_bar; shallow_pullback_bar] (example_engine, example_session).

(** A frame in which the morning of the example day ends with the scale
    trade of the shallow pullback still open. *)
Definition open_end_df : list Candle.t :=
  range_bars ++ [breakout_bar; shallow_pullback_bar].

(** The entry attributes of the scale trade that a candle opens at the level
    of index [idx] of the ladder. *)
Definition scale_entry (session : SessionType) (candle : Candle.t)
    (direction : Direction) (state : SessionState.t) (idx : nat) (level : Q) :=
  (direction, level, Candle.time candle, scale_lot_size state idx,
   num (SessionState.tp_price state), SCALE, session).

(** A broker on which every order fails. *)
Definition refusing_broker (b : unit) (d : Direction) (lot tp : Q)
    (comment : SessionType * Q) : option Z * unit := (None, tt).

Definition example_breakout : Live.BreakoutInfo :=
  Live.mkBreakout BUY (px 110600) (Candle.time breakout_bar) (px 110650) (px 110300).

Definition example_live_state : Live.TradingState :=
  Live.mkState None None (Some example_breakout) None 0 0
    (calculate_scale_levels (px 110500) (px 110000) BUY false) [] [7%Z] [].

(** * The statistics report ([Backtester.generate_statistics])

    The summary block of the report, computed from the profits of the closed
    trades, the daily equity records and the session drawdown lists.  The
    percentage drawdown, the mean of pips and the group-by tables (weekday,
    month, session, trade type, exit reason) are not modelled.  An infinite
    profit factor ([float('inf')]) is [None]. *)

Definition INITIAL_BALANCE : Q := 10000.

Module Statistics.

(** The [profit] column of [trades_df]. *)
Definition profits (self : Backtester.t) : list Q :=
  map (fun ref => match Backtester.all_trades self !! ref with
                  | Some tr => Trade.realized tr
                  | None => 0
                  end)
      (Backtester.closed_trades self).

Definition is_win (x : Q) : bool := Qlt_bool 0 x.
Definition is_loss (x : Q) : bool := Qlt_bool x 0.
Definition is_breakeven (x : Q) : bool := Qeq_bool x 0.

(** [Series.sum()] and Python's [sum]. *)
Definition total (l : list Q) : Q := fold_right Qplus 0 l.

(** [Series.mean()] and [sum(l) / len(l)]. *)
Definition mean (l : list Q) : Q := total l / inject_Z (Z.of_nat (length l)).

(** [Series.cummax()]. *)
Fixpoint cummax_from (m : Q) (l : list Q) : list Q :=
  match l with
  | [] => []
  | x :: l' => Qmax m x :: cummax_from (Qmax m x) l'
  end.

Definition cummax (l : list Q) : list Q :=
  match l with
  | [] => []
  | x :: l' => x :: cummax_from x l'
  end.

(** [equity_df['balance'] - equity_df['cumulative_max']]. *)
Definition equity_drawdowns (balances : list Q) : list Q :=
  map (fun bm => fst bm - snd bm) (combine balances (cummax balances)).

Record Summary := mkSummary {
  initial_balance : Q;
  final_balance : Q;
  total_profit : Q;
  return_pct : Q;
  total_trades : nat;
  winning_trades : nat;
  losing_trades : nat;
  breakeven_trades : nat;
  win_rate : Q;
  avg_win : Q;
  avg_loss : Q;
  profit_factor : option Q;
  gross_profit : Q;
  gross_loss : Q;
  max_drawdown : Q;
  morning_max_session_dd : Q;
  morning_avg_session_dd : Q;
  afternoon_max_session_dd : Q;
  afternoon_avg_session_dd : Q;
  worst_session_dd : Q;
  recommended_starting_balance : Q;
  safe_lot_size : Q
}.

(** [min(l) if l else 0] and [sum(l) / len(l) if l else 0]. *)
Definition min_or_zero (l : list Q) : Q :=
  match l with [] => 0 | _ :: _ => series_min l end.
Definition mean_or_zero (l : list Q) : Q :=
  match l with [] => 0 | _ :: _ => mean l end.

Definition recommended_balance (overall_session_max_dd : Q) : Q :=
  if Qlt_bool overall_session_max_dd 0 then Qabs overall_session_max_dd * 3
  else INITIAL_BALANCE.

Definition safe_lot_multiplier (recommended : Q) : Q :=
  if Qlt_bool 0 recommended then INITIAL_BALANCE / recommended else 1.

(** The outcome of [generate_statistics]: the
    [{'error': 'No trades executed'}] dictionary; a [KeyError], when there
    is no daily equity record (the equity frame then has no [balance]
    column); or the summary. *)
Inductive Report :=
| no_trades
| key_error
| summary (s : Summary).

Definition generate_statistics (self : Backtester.t) : Report :=
  match Backtester.closed_trades self, Backtester.daily_equity self with
  | [], _ => no_trades
  | _ :: _, [] => key_error
  | _ :: _, _ :: _ =>
      let profit := profits self in
      let total_trades := length (Backtester.closed_trades self) in
      let winning_trades := length (List.filter is_win profit) in
      let losing_trades := length (List.filter is_loss profit) in
      let breakeven_trades := length (List.filter is_breakeven profit) in
      let win_rate :=
        if (0 <? total_trades)%nat
        then inject_Z (Z.of_nat winning_trades) / inject_Z (Z.of_nat total_trades) * 100
        else 0 in
      let total_profit := total profit in
      let gross_profit := total (List.filter is_win profit) in
      let gross_loss := Qabs (total (List.filter is_loss profit)) in
      let avg_win :=
        if (0 <? winning_trades)%nat then mean (List.filter is_win profit) else 0 in
      let avg_loss :=
        if (0 <? losing_trades)%nat then mean (List.filter is_loss profit) else 0 in
      let profit_factor :=
        if Qlt_bool 0 gross_loss then Some (gross_profit / gross_loss) else None in
      let max_drawdown :=
        series_min (equity_drawdowns
                      (map DailyEquity.balance (Backtester.daily_equity self))) in
      let morning_max_dd := min_or_zero (Backtester.morning_session_drawdowns self) in
      let afternoon_max_dd := min_or_zero (Backtester.afternoon_session_drawdowns self) in
      let overall_session_max_dd := Qmin morning_max_dd afternoon_max_dd in
      let morning_avg_dd := mean_or_zero (Backtester.morning_session_drawdowns self) in
      let afternoon_avg_dd := mean_or_zero (Backtester.afternoon_session_drawdowns self) in
      let recommended := recommended_balance overall_session_max_dd in
      summary (mkSummary INITIAL_BALANCE (Backtester.balance self) total_profit
                 (total_profit / INITIAL_BALANCE * 100)
                 total_trades winning_trades losing_trades breakeven_trades
                 win_rate avg_win avg_loss profit_factor gross_profit gross_loss
                 max_drawdown morning_max_dd morning_avg_dd afternoon_max_dd
                 afternoon_avg_dd overall_session_max_dd recommended
                 (LOT_SIZE * safe_lot_multiplier recommended))
  end.

End Statistics.

(** * The live poller: range and breakout detection

    [get_range] and [check_breakout] of [trading_bot.py], on the frame of
    the latest candles.  [datetime.combine(date, time)] is the day's first
    second plus the time of day. *)

Module Poller.

Definition combine_dt (current_date time_of_day : Z) : Z :=
  (current_date * 86400 + time_of_day)%Z.

Definition get_range (candles : list Candle.t) (start_time end_time : Z)
    (current_date : Z) : option Live.RangeInfo :=
  let start_dt := combine_dt current_date start_time in
  let end_dt := combine_dt current_date end_time in
  let range_candles :=
    List.filter (fun c => (start_dt <=? Candle.time c)%Z
                          && (Candle.time c <? end_dt)%Z) candles in
  if (length range_candles <? 3)%nat then None
  else Some (Live.mkRange (series_max (map Candle.high range_candles))
                          (series_min (map Candle.low range_candles))
                          start_dt end_dt (length range_candles)).

Definition breakout_of (direction : Direction) (c : Candle.t) : Live.BreakoutInfo :=
  Live.mkBreakout direction (Candle.close c) (Candle.time c)
                  (Candle.high c) (Candle.low c).

Definition check_breakout (candles : list Candle.t) (range_info : Live.RangeInfo)
    (entry_start_time current_date : Z) : option Live.BreakoutInfo :=
  let entry_dt := combine_dt current_date entry_start_time in
  let entry_candles :=
    List.filter (fun c => (entry_dt <=? Candle.time c)%Z) candles in
  match entry_candles with
  | [] => None
  | _ :: _ =>
      let buy_breakouts :=
        List.filter (fun c => Qlt_bool (Live.range_high range_info) (Candle.close c))
                    entry_candles in
      let sell_breakouts :=
        List.filter (fun c => Qlt_bool (Candle.close c) (Live.range_low range_info))
                    entry_candles in
      match head buy_breakouts, head sell_breakouts with
      | Some first_buy, Some first_sell =>
          if (Candle.time first_buy <? Candle.time first_sell)%Z
          then Some (breakout_of BUY first_buy)
          else Some (breakout_of SELL first_sell)
      | Some first_buy, None => Some (breakout_of BUY first_buy)
      | None, Some first_sell => Some (breakout_of SELL first_sell)
      | None, None => None
      end
  end.

(** [check_reversal] on the latest candle; [None] also on an empty frame
    (the [except] branch). *)
Definition check_reversal (candles : list Candle.t) (range_info : Live.RangeInfo)
    (breakout_info : Live.BreakoutInfo) : option Direction :=
  match last candles with
  | None => None
  | Some latest_candle =>
      match Live.direction breakout_info with
      | BUY =>
          if Qlt_bool (Candle.close latest_candle) (Live.range_low range_info)
          then Some SELL else None
      | SELL =>
          if Qlt_bool (Live.range_high range_info) (Candle.close latest_candle)
          then Some BUY else None
      end
  end.

End Poller.

(** * The live session procedures ([trading_bot.py])

    [handle_reversal] and the two session procedures that [main_loop] calls
    on every poll.  The platform is a pair of collaborators over an abstract
    [Broker]: [open_position], which returns the ticket or [None], and
    [close_all_positions], which is given the tickets of the session (it
    reads them from the state object) and whose count is ignored by its
    callers.  The order comment is a value of [Comment].  The readings of
    the clock ([get_current_time], seconds of the day as a rational;
    [get_current_date]) are arguments, one for each call of a time
    predicate.  [handle_reversal] does not use its [range_info] argument; it
    is left out.  The breakout time of a reversal is the candle's time
    ([datetime.fromtimestamp]). *)

Module LiveSession.

Definition MORNING_RANGE_START : Z := time_hm 12 0.
Definition MORNING_RANGE_END : Z := time_hm 12 15.
Definition AFTERNOON_RANGE_START : Z := time_hm 18 30.
Definition AFTERNOON_RANGE_END : Z := time_hm 18 45.
Definition MORNING_ENTRY_START : Z := time_hm 12 15.
Definition MORNING_ENTRY_CUTOFF : Z := time_hm 18 29.
Definition AFTERNOON_ENTRY_START : Z := time_hm 18 45.
Definition AFTERNOON_EXIT_TIME : Z := time_hm 23 55.

(** [f"{session}_INITIAL"], [f"{session}_SCALE_{level:.5f}"] and
    [f"{session}_REVERSAL_{new_direction}"]. *)
Inductive Comment :=
| INITIAL_ORDER (session : SessionType)
| SCALE_ORDER (session : SessionType) (level : Q)
| REVERSAL_ORDER (session : SessionType) (direction : Direction).

Definition range (session : SessionType) (state : Live.TradingState)
    : option Live.RangeInfo :=
  match session with
  | MORNING => Live.morning_range state
  | AFTERNOON => Live.afternoon_range state
  end.

Definition breakout (session : SessionType) (state : Live.TradingState)
    : option Live.BreakoutInfo :=
  match session with
  | MORNING => Live.morning_breakout state
  | AFTERNOON => Live.afternoon_breakout state
  end.

Definition scale_levels (session : SessionType) (state : Live.TradingState)
    : list Q :=
  match session with
  | MORNING => Live.morning_scale_levels state
  | AFTERNOON => Live.afternoon_scale_levels state
  end.

Definition set_range (session : SessionType) (r : option Live.RangeInfo)
    (state : Live.TradingState) : Live.TradingState :=
  match session with
  | MORNING =>
      Live.mkState r (Live.afternoon_range state)
        (Live.morning_breakout state) (Live.afternoon_breakout state)
        (Live.morning_reversal_count state) (Live.afternoon_reversal_count state)
        (Live.morning_scale_levels state) (Live.afternoon_scale_levels state)
        (Live.morning_positions state) (Live.afternoon_positions state)
  | AFTERNOON =>
      Live.mkState (Live.morning_range state) r
        (Live.morning_breakout state) (Live.afternoon_breakout state)
        (Live.morning_reversal_count state) (Live.afternoon_reversal_count state)
        (Live.morning_scale_levels state) (Live.afternoon_scale_levels state)
        (Live.morning_positions state) (Live.afternoon_positions state)
  end.

Definition set_breakout (session : SessionType) (b : option Live.BreakoutInfo)
    (state : Live.TradingState) : Live.TradingState :=
  match session with
  | MORNING =>
      Live.mkState (Live.morning_range state) (Live.afternoon_range state)
        b (Live.afternoon_breakout state)
        (Live.morning_reversal_count state) (Live.afternoon_reversal_count state)
        (Live.morning_scale_levels state) (Live.afternoon_scale_levels state)
        (Live.morning_positions state) (Live.afternoon_positions state)
  | AFTERNOON =>
      Live.mkState (Live.morning_range state) (Live.afternoon_range state)
        (Live.morning_breakout state) b
        (Live.morning_reversal_count state) (Live.afternoon_reversal_count state)
        (Live.morning_scale_levels state) (Live.afternoon_scale_levels state)
        (Live.morning_positions state) (Live.afternoon_positions state)
  end.

Definition set_reversal_count (session : SessionType) (n : nat)
    (state : Live.TradingState) : Live.TradingState :=
  match session with
  | MORNING =>
      Live.mkState (Live.morning_range state) (Live.afternoon_range state)
        (Live.morning_breakout state) (Live.afternoon_breakout state)
        n (Live.afternoon_reversal_count state)
        (Live.morning_scale_levels state) (Live.afternoon_scale_levels state)
        (Live.morning_positions state) (Live.afternoon_positions state)
  | AFTERNOON =>
      Live.mkState (Live.morning_range state) (Live.afternoon_range state)
        (Live.morning_breakout state) (Live.afternoon_breakout state)
        (Live.morning_reversal_count state) n
        (Live.morning_scale_levels state) (Live.afternoon_scale_levels state)
        (Live.morning_positions state) (Live.afternoon_positions state)
  end.

Definition set_scale_levels (session : SessionType) (l : list Q)
    (state : Live.TradingState) : Live.TradingState :=
  match session with
  | MORNING =>
      Live.mkState (Live.morning_range state) (Live.afternoon_range state)
        (Live.morning_breakout state) (Live.afternoon_breakout state)
        (Live.morning_reversal_count state) (Live.afternoon_reversal_count state)
        l (Live.afternoon_scale_levels state)
        (Live.morning_positions state) (Live.afternoon_positions state)
  | AFTERNOON =>
      Live.mkState (Live.morning_range state) (Live.afternoon_range state)
        (Live.morning_breakout state) (Live.afternoon_breakout state)
        (Live.morning_reversal_count state) (Live.afternoon_reversal_count state)
        (Live.morning_scale_levels state) l
        (Live.morning_positions state) (Live.afternoon_positions state)
  end.

Definition set_positions (session : SessionType) (l : list Z)
    (state : Live.TradingState) : Live.TradingState :=
  match session with
  | MORNING =>
      Live.mkState (Live.morning_range state) (Live.afternoon_range state)
        (Live.morning_breakout state) (Live.afternoon_breakout state)
        (Live.morning_reversal_count state) (Live.afternoon_reversal_count state)
        (Live.morning_scale_levels state) (Live.afternoon_scale_levels state)
        l (Live.afternoon_positions state)
  | AFTERNOON =>
      Live.mkState (Live.morning_range state) (Live.afternoon_range state)
        (Live.morning_breakout state) (Live.afternoon_breakout state)
        (Live.morning_reversal_count state) (Live.afternoon_reversal_count state)
        (Live.morning_scale_levels state) (Live.afternoon_scale_levels state)
        (Live.morning_positions state) l
  end.

(** The module-level [calculate_scale_levels]. *)
Definition calculate_scale_levels (range_info : Live.RangeInfo)
    (direction : Direction) (is_reversal : bool) : list Q :=
  let range_high := Live.range_high range_info in
  let range_low := Live.range_low range_info in
  let range_size := range_high - range_low in
  let percentages := if is_reversal then [50 # 100] else SCALE_LEVELS in
  match direction with
  | BUY => map (fun p => range_high - p * range_size) percentages
  | SELL => map (fun p => range_low + p * range_size) percentages
  end.

(** The time predicates, on a reading [current_time] of the clock. *)
Definition should_calculate_morning_range (current_time : Q)
    (state : Live.TradingState) : bool :=
  Qle_bool (inject_Z MORNING_RANGE_END) current_time
  && Qlt_bool current_time (inject_Z (time_hm 23 59))
  && negb (bool_decide (is_Some (Live.morning_range state))).

Definition should_calculate_afternoon_range (current_time : Q)
    (state : Live.TradingState) : bool :=
  Qle_bool (inject_Z AFTERNOON_RANGE_END) current_time
  && Qlt_bool current_time (inject_Z (time_hm 23 59))
  && negb (bool_decide (is_Some (Live.afternoon_range state))).

Definition can_enter_morning_trade (current_time : Q)
    (state : Live.TradingState) : bool :=
  Qle_bool (inject_Z MORNING_ENTRY_START) current_time
  && Qle_bool current_time (inject_Z MORNING_ENTRY_CUTOFF)
  && (Live.morning_reversal_count state <? 2)%nat.

Definition can_enter_afternoon_trade (current_time : Q)
    (state : Live.TradingState) : bool :=
  Qle_bool (inject_Z AFTERNOON_ENTRY_START) current_time
  && Qlt_bool current_time (inject_Z AFTERNOON_EXIT_TIME)
  && (Live.afternoon_reversal_count state <? 2)%nat.

Definition should_force_close_afternoon (current_time : Q) : bool :=
  Qle_bool (inject_Z AFTERNOON_EXIT_TIME) current_time.

Section Platform.
Variable Broker : Type.
Variable open_position :
  Broker → Direction → Q → Q → Comment → option Z * Broker.
Variable close_all_positions : Broker → SessionType → list Z → Broker.
Variable point_value : Q.

(** [handle_reversal]; the result is the returned breakout (or [None]) with
    the state object and the broker after the call.  [candles[-1]] on an
    empty array ends in the [except] branch, after the count and the
    positions have been updated. *)
Definition handle_reversal (new_direction : Direction) (candles : list Candle.t)
    (session : SessionType) (state : Live.TradingState) (broker : Broker)
    : option Live.BreakoutInfo * Live.TradingState * Broker :=
  let state :=
    set_reversal_count session (S (Live.reversal_count session state)) state in
  let reversal_count := Live.reversal_count session state in
  let broker := close_all_positions broker session (Live.positions session state) in
  let state := set_positions session [] state in
  if (2 <=? reversal_count)%nat then (None, state, broker)
  else
    match last candles with
    | None => (None, state, broker)
    | Some latest_candle =>
        let breakout_info :=
          Live.mkBreakout new_direction (Candle.close latest_candle)
            (Candle.time latest_candle) (Candle.high latest_candle)
            (Candle.low latest_candle) in
        let tp_price := Live.calculate_tp point_value breakout_info in
        let '(ticket, broker1) :=
          open_position broker new_direction (Live.LOT_SIZE * 2) tp_price
                        (REVERSAL_ORDER session new_direction) in
        if Live.truthy ticket then
          match ticket with
          | Some t => (Some breakout_info, Live.append_position session t state, broker1)
          | None => (None, state, broker1)
          end
        else (None, state, broker1)
    end.

(** The body that [process_morning_session] and [process_afternoon_session]
    share, with the window of the session, the value of
    [state.<session>_range is None and should_calculate_<session>_range()]
    and the value of [can_enter_<session>_trade()].  Without a range
    [check_reversal] ends in its [except] branch and returns [None]. *)
Definition session_poll (session : SessionType)
    (range_start range_end entry_start : Z) (calculate_range can_enter : bool)
    (candles : list Candle.t) (current_date : Z)
    (state : Live.TradingState) (broker : Broker) : Live.TradingState * Broker :=
  let state :=
    if calculate_range
    then set_range session
           (Poller.get_range candles range_start range_end current_date) state
    else state in
  let '(state, broker) :=
    match range session state, breakout session state with
    | Some range_info, None =>
        if can_enter then
          match Poller.check_breakout candles range_info entry_start current_date with
          | Some breakout =>
              let tp_price := Live.calculate_tp point_value breakout in
              let '(ticket, broker1) :=
                open_position broker (Live.direction breakout) Live.LOT_SIZE tp_price
                              (INITIAL_ORDER session) in
              if Live.truthy ticket then
                match ticket with
                | Some t =>
                    (set_scale_levels session
                       (calculate_scale_levels range_info (Live.direction breakout)
                                               false)
                       (Live.append_position session t
                          (set_breakout session (Some breakout) state)),
                     broker1)
                | None => (state, broker1)
                end
              else (state, broker1)
          | None => (state, broker)
          end
        else (state, broker)
    | _, _ => (state, broker)
    end in
  match breakout session state with
  | None => (state, broker)
  | Some breakout_info =>
      let scaling :=
        let '(levels, state1, broker1) :=
          Live.check_and_execute_scaling Broker
            (fun b d lot tp c => open_position b d lot tp (SCALE_ORDER c.1 c.2))
            point_value candles breakout_info (scale_levels session state)
            session state broker in
        (set_scale_levels session levels state1, broker1) in
      match range session state with
      | None => scaling
      | Some range_info =>
          match Poller.check_reversal candles range_info breakout_info with
          | Some new_direction =>
              let '(new_breakout, state1, broker1) :=
                handle_reversal new_direction candles session state broker in
              match new_breakout with
              | Some nb =>
                  (set_scale_levels session
                     (calculate_scale_levels range_info (Live.direction nb) true)
                     (set_breakout session (Some nb) state1),
                   broker1)
              | None => (state1, broker1)
              end
          | None => scaling
          end
      end
  end.

Definition process_morning_session (candles : list Candle.t) (current_date : Z)
    (range_clock entry_clock : Q) (state : Live.TradingState) (broker : Broker)
    : Live.TradingState * Broker :=
  session_poll MORNING MORNING_RANGE_START MORNING_RANGE_END MORNING_ENTRY_START
    (negb (bool_decide (is_Some (Live.morning_range state)))
     && should_calculate_morning_range range_clock state)
    (can_enter_morning_trade entry_clock state)
    candles current_date state broker.

Definition process_afternoon_session (candles : list Candle.t) (current_date : Z)
    (exit_clock range_clock entry_clock : Q) (state : Live.TradingState)
    (broker : Broker) : Live.TradingState * Broker :=
  if should_force_close_afternoon exit_clock then
    match Live.afternoon_positions state with
    | [] => (state, broker)
    | _ :: _ =>
        (set_positions AFTERNOON [] state,
         close_all_positions broker AFTERNOON (Live.afternoon_positions state))
    end
  else
    session_poll AFTERNOON AFTERNOON_RANGE_START AFTERNOON_RANGE_END
      AFTERNOON_ENTRY_START
      (negb (bool_decide (is_Some (Live.afternoon_range state)))
       && should_calculate_afternoon_range range_clock state)
      (can_enter_afternoon_trade entry_clock state)
      candles current_date state broker.

(** Successive polls of the morning session: one call of
    [process_morning_session] for each iteration of [main_loop], each with
    its candles and its readings of the calendar and the clock. *)
Definition morning_polls (polls : list (list Candle.t * Z * Q * Q))
    (start : Live.TradingState * Broker) : Live.TradingState * Broker :=
  fold_left
    (fun acc poll =>
       let '(candles, current_date, range_clock, entry_clock) := poll in
       process_morning_session candles current_date range_clock entry_clock
                               acc.1 acc.2)
    polls start.
End Platform.

End LiveSession.

(** * Vocabulary of the further properties *)

(** A trade record with all its exit fields set, and one with none. *)
Definition closed_record (tr : Trade.t) : Prop :=
  is_Some (Trade.exit_price tr) ∧ is_Some (Trade.exit_time tr)
  ∧ is_Some (Trade.exit_reason tr) ∧ is_Some (Trade.profit tr)
  ∧ is_Some (Trade.pips tr).

Definition open_record (tr : Trade.t) : Prop :=
  Trade.exit_price tr = None ∧ Trade.exit_time tr = None
  ∧ Trade.exit_reason tr = None ∧ Trade.profit tr = None
  ∧ Trade.pips tr = None.

(** [Once]: [closed_trades] lists distinct trades of the store, none of them
    open in the session, and a trade of the store has its exit fields exactly
    when it is listed. *)
Definition Once (self : Backtester.t) (opens : list nat) : Prop :=
  NoDup (Backtester.closed_trades self)
  ∧ (∀ i, i ∈ opens → i ∉ Backtester.closed_trades self)
  ∧ (∀ j, j ∈ Backtester.closed_trades self →
          (j < length (Backtester.all_trades self))%nat)
  ∧ (∀ j tr, Backtester.all_trades self !! j = Some tr →
             (j ∈ Backtester.closed_trades self ∧ closed_record tr)
             ∨ ((j ∉ Backtester.closed_trades self) ∧ open_record tr)).

(** [MorningExits sess]: the open trades of the session carry its name, and
    a morning trade of the store that has an exit reason has TP or
    REVERSAL. *)
Definition MorningExits (sess : SessionType) (self : Backtester.t)
    (opens : list nat) : Prop :=
  (∀ i, i ∈ opens →
        ∃ tr, Backtester.all_trades self !! i = Some tr ∧ Trade.session tr = sess)
  ∧ (∀ j tr r, Backtester.all_trades self !! j = Some tr →
               Trade.session tr = MORNING →
               Trade.exit_reason tr = Some r →
               r = TP ∨ r = REVERSAL).

(** The entry window of a session, for a timestamp. *)
Definition window_time (session : SessionType) (t : Z) : Prop :=
  match session with
  | MORNING =>
      (MORNING_ENTRY_START ≤ t mod 86400)%Z ∧ (t mod 86400 ≤ MORNING_ENTRY_CUTOFF)%Z
  | AFTERNOON =>
      (AFTERNOON_ENTRY_START ≤ t mod 86400)%Z ∧ (t mod 86400 < AFTERNOON_EXIT_TIME)%Z
  end.

(** A trade that is a scale entry made inside the entry window of its
    session. *)
Definition opened_in_window (tr : Trade.t) : Prop :=
  Trade.trade_type tr = SCALE
  ∧ window_time (Trade.session tr) (Trade.entry_time tr).

(** [Geared]: a reachable session state whose range has its low at or below
    its high and whose take-profit, when armed, lies beyond the range on the
    side of the breakout. *)
Definition Geared (st : SessionState.t) : Prop :=
  Wired st
  ∧ num (SessionState.range_low st) <= num (SessionState.range_high st)
  ∧ (∀ d, SessionState.breakout_direction st = Some d →
          match d with
          | BUY => num (SessionState.range_high st) < num (SessionState.tp_price st)
          | SELL => num (SessionState.tp_price st) < num (SessionState.range_low st)
          end).

(** [OpenOK st store i]: trade [i] of the store goes the way of the session,
    aims at the session's take-profit, entered at a level of its ladder and
    has a positive size. *)
Definition OpenOK (st : SessionState.t) (store : list Trade.t) (i : nat) : Prop :=
  ∃ tr, store !! i = Some tr
        ∧ SessionState.breakout_direction st = Some (Trade.direction tr)
        ∧ Trade.tp_price tr = num (SessionState.tp_price st)
        ∧ Trade.entry_price tr ∈ SessionState.scale_levels st
        ∧ 0 < Trade.lot_size tr.

(** [TPWin store]: every trade closed by its take-profit exited at its own
    take-profit price with a positive profit. *)
Definition TPWin (store : list Trade.t) : Prop :=
  ∀ j tr, store !! j = Some tr →
          Trade.exit_reason tr = Some TP →
          0 < Trade.realized tr ∧ Trade.exit_price tr = Some (Trade.tp_price tr).

Definition Winning (acc : Backtester.t * SessionState.t) : Prop :=
  0 < Backtester.point acc.1
  ∧ Geared acc.2
  ∧ (∀ i, i ∈ SessionState.open_trades acc.2 →
          OpenOK acc.2 (Backtester.all_trades acc.1) i)
  ∧ TPWin (Backtester.all_trades acc.1).

(** A frame in which the scale trade of the shallow pullback is closed by
    its take-profit (1.10600 + 580 points = 1.11180). *)
Definition take_profit_bar : Candle.t := bar 10 25 110400 111300 110400 111200.
Definition take_profit_df : list Candle.t :=
  range_bars ++ [breakout_bar; shallow_pullback_bar; take_profit_bar].

(** [Drawn self]: every recorded session drawdown is negative. *)
Definition Drawn (self : Backtester.t) : Prop :=
  Forall (λ x, x < 0) (Backtester.morning_session_drawdowns self)
  ∧ Forall (λ x, x < 0) (Backtester.afternoon_session_drawdowns self).

(** A platform for the examples: every order is accepted and gets the next
    ticket number; closing changes nothing that the bot can see. *)
Definition ticket_broker (n : nat) (d : Direction) (lot tp : Q)
    (c : LiveSession.Comment) : option Z * nat :=
  (Some (Z.of_nat (S n)), S n).
Definition idle_close (n : nat) (session : SessionType) (tickets : list Z) : nat := n.

Definition example_range : Live.RangeInfo :=
  Live.mkRange (px 110500) (px 110000) 0 0 3.

(** The live state after a first morning reversal to SELL. *)
Definition example_reversed_state : Live.TradingState :=
  Live.mkState (Some example_range) None
    (Some (Poller.breakout_of SELL reversal_bar)) None 1 0 [] [] [7%Z] [].

(** The entries of a ladder that a candle reaching every level turns into
    trades: an entry is skipped when its level is among the executed ones,
    which each opened entry joins. *)
Fixpoint pending (executed : list Q) (entries : list (nat * Q)) : list (nat * Q) :=
  match entries with
  | [] => []
  | (level_index, level) :: rest =>
      if existsb (Qeq_bool level) executed then pending executed rest
      else (level_index, level) :: pending (executed ++ [level]) rest
  end.

(** [Settled j tr]: the trade object [j] is [tr], is closed, and no session
    holds it any more. *)
Definition Settled (j : nat) (tr : Trade.t) (self : Backtester.t)
    (opens : list nat) : Prop :=
  Backtester.all_trades self !! j = Some tr
  ∧ j ∈ Backtester.closed_trades self
  ∧ (j ∉ opens).

(** A frame for the example day whose data end at 16:50: the morning holds
    the scale trade of the shallow pullback, the afternoon (range 1.10600 -
    1.10700, armed long at 16:45) holds the scale trade of the 16:50
    candle. *)
Definition day_end_df : list Candle.t :=
  open_end_df
  ++ [bar 16 30 110650 110700 110600 110650;
      bar 16 35 110650 110700 110600 110650;
      bar 16 40 110650 110700 110600 110650;
      bar 16 45 110650 110750 110650 110750;
      bar 16 50 110750 110750 110670 110700].

(** * The arithmetic of the ledger in binary64

    The engine computes in Python floats.  This module repeats, on the
    kernel's binary64 numbers, the arithmetic of [calculate_scale_levels],
    of the lot size of a scale entry, of [Trade.close] and of the balance
    update of [close_trade], and Python's [sum] over the profits. *)

Module Binary64.
Local Open Scope float_scope.

Definition LOT_SIZE : float := 0.01.
Definition SCALE_LEVELS : list float := [0.75; 0.5; 0.25].

Definition calculate_scale_levels (range_high range_low : float)
    (direction : Direction) (is_reversal : bool) : list float :=
  let range_size := range_high - range_low in
  let percentages := if is_reversal then [0.5] else SCALE_LEVELS in
  match direction with
  | BUY => map (fun p => range_high - p * range_size) percentages
  | SELL => map (fun p => range_low + p * range_size) percentages
  end.

(** [LOT_SIZE * 4] and [LOT_SIZE * (4 - level_index)]. *)
Definition scale_lot_size (reversal_count level_index : nat) : float :=
  if (1 <=? reversal_count)%nat then LOT_SIZE * 4
  else LOT_SIZE * of_uint63 (Uint63.of_Z (4 - Z.of_nat level_index)).

(** A trade at the moment it is closed: direction, entry price, lot size and
    exit price. *)
Record Closing := mkClosing {
  direction : Direction;
  entry_price : float;
  lot_size : float;
  exit_price : float
}.

(** [Trade.close]: the profit it stores. *)
Definition profit (point : float) (c : Closing) : float :=
  let pips :=
    match direction c with
    | BUY => (exit_price c - entry_price c) / point / 10
    | SELL => (entry_price c - exit_price c) / point / 10
    end in
  let pip_value := lot_size c * 100 in
  pips * pip_value.




End Binary64.

(** * Properties *)

(** ** Elementary facts on the list primitives *)

Lemma list_remove_elem_of (x y : nat) (l : list nat) :
  y ∈ list_remove x l → y ∈ l.
Proof.
  induction l as [|z l IH]; simpl; [done|].
  destruct (x =? z)%nat; intros H.
  - by apply elem_of_cons; right.
  - apply elem_of_cons in H as [->|H]; [by left|].
    apply elem_of_cons; right; auto.
Qed.

Lemma list_remove_keeps (x y : nat) (l : list nat) :
  y ≠ x → y ∈ l → y ∈ list_remove x l.
Proof.
  intros Hne. induction l as [|z l IH]; simpl; [done|].
  intros H. apply elem_of_cons in H as [->|H].
  - destruct (Nat.eqb_spec x z); [congruence|by left].
  - destruct (x =? z)%nat; [done|]. apply elem_of_cons; right; auto.
Qed.

Lemma list_remove_NoDup (x : nat) (l : list nat) :
  NoDup l → NoDup (list_remove x l).
Proof.
  induction 1 as [|z l Hz Hl IH]; simpl; [constructor|].
  destruct (x =? z)%nat; [done|].
  constructor; [|done]. intros H. by apply Hz, (list_remove_elem_of x).
Qed.

Lemma list_remove_head (x : nat) (l : list nat) : list_remove x (x :: l) = l.
Proof. simpl. by rewrite Nat.eqb_refl. Qed.

Lemma Qlt_bool_iff (x y : Q) : Qlt_bool x y = true ↔ x < y.
Proof.
  unfold Qlt_bool. rewrite negb_true_iff.
  split.
  - intros H. apply Qnot_le_lt. intros Hle. apply Qle_bool_iff in Hle. congruence.
  - intros H. destruct (Qle_bool y x) eqn:E; [|done].
    apply Qle_bool_iff in E. exfalso. by apply (Qlt_not_le x y).
Qed.

(** ** Ledger primitives *)

Lemma open_trade_all_trades self d p t tp ty s l :
  Backtester.all_trades (open_trade self d p t tp ty s l).1
  = Backtester.all_trades self
      ++ [Trade.init d p t (match l with None => LOT_SIZE | Some x => x end) tp ty s].
Proof. done. Qed.

Lemma close_trade_length self ref p t r :
  length (Backtester.all_trades (close_trade self ref p t r))
  = length (Backtester.all_trades self).
Proof.
  unfold close_trade. destruct (_ !! ref); simpl; [|done].
  by rewrite length_insert.
Qed.

Lemma close_each_length self l p t r :
  length (Backtester.all_trades (close_each self l p t r))
  = length (Backtester.all_trades self).
Proof.
  unfold close_each. revert self.
  induction l as [|x l IH]; intros self; simpl; [done|].
  by rewrite IH, close_trade_length.
Qed.

Lemma update_session_drawdown_open_trades self state h l c :
  SessionState.open_trades (update_session_drawdown self state h l c)
  = SessionState.open_trades state.
Proof. done. Qed.

Lemma track_drawdown_open_trades candle self state :
  SessionState.open_trades (track_drawdown candle self state)
  = SessionState.open_trades state.
Proof.
  unfold track_drawdown.
  destruct (SessionState.open_trades state) eqn:E; simpl; exact E.
Qed.

Lemma check_initial_breakout_open_trades gate candle self state :
  SessionState.open_trades (check_initial_breakout gate candle self state)
  = SessionState.open_trades state.
Proof.
  unfold check_initial_breakout.
  destruct (_ && _); [|done]. destruct (Qlt_bool _ _); [done|].
  by destruct (Qlt_bool _ _).
Qed.

Lemma close_trade_fields self ref p t r :
  engine_fields (close_trade self ref p t r) = engine_fields self.
Proof. unfold close_trade. by destruct (_ !! ref). Qed.

Lemma close_each_fields self l p t r :
  engine_fields (close_each self l p t r) = engine_fields self.
Proof.
  unfold close_each. revert self.
  induction l as [|x l IH]; intros self; simpl; [done|].
  by rewrite IH, close_trade_fields.
Qed.

Lemma tp_fold_fields candle tp l acc :
  engine_fields (fold_left (tp_iter candle tp) l acc).1.1 = engine_fields acc.1.1.
Proof.
  revert acc. induction l as [|x l IH]; intros [[self live] hit]; simpl; [done|].
  rewrite IH. destruct (_ !! x) as [tr|]; [|done].
  destruct (check_tp_hit tr candle); [|done]. simpl. apply close_trade_fields.
Qed.

Lemma check_take_profit_fields candle self state :
  engine_fields (check_take_profit candle self state).1 = engine_fields self.
Proof.
  unfold check_take_profit. destruct (SessionState.open_trades state) as [|x o]; [done|].
  pose proof (tp_fold_fields candle (num (SessionState.tp_price state)) (x :: o)
                (self, x :: o, false)) as HF.
  destruct (fold_left _ _ _) as [[self1 opens] tp_hit]. simpl in HF.
  destruct tp_hit; [|done]. simpl. by rewrite close_each_fields.
Qed.

Lemma scale_fold_fields session can_enter candle direction entries acc :
  engine_fields (fold_left (scale_iter session can_enter candle direction) entries acc).1
  = engine_fields acc.1.
Proof.
  revert acc. induction entries as [|[i level] entries IH]; intros [self state];
    simpl; [done|].
  rewrite IH. destruct (existsb _ _); [done|].
  destruct (level_triggered _ _ _); [|done]. by destruct can_enter.
Qed.

Lemma check_scaling_fields session can_enter candle direction self state :
  engine_fields (check_scaling session can_enter candle direction self state).1
  = engine_fields self.
Proof.
  unfold check_scaling. destruct (can_check_scales _ _); [|done].
  apply (scale_fold_fields _ _ _ _ _ (self, state)).
Qed.

Lemma handle_reversal_fields can_enter candle new_direction self state :
  engine_fields (handle_reversal can_enter candle new_direction self state).1
  = engine_fields self.
Proof.
  unfold handle_reversal.
  assert (H : engine_fields
                (match SessionState.open_trades state with
                 | [] => (self, state)
                 | _ :: _ => close_all_session_trades self state (Candle.close candle)
                               (Candle.time candle) REVERSAL
                 end).1 = engine_fields self).
  { destruct (SessionState.open_trades state); [done|]. apply close_each_fields. }
  destruct (match SessionState.open_trades state with [] => _ | _ => _ end)
    as [self1 state1].
  destruct can_enter; simpl; [|done]. by destruct (_ =? 0)%nat.
Qed.

Lemma session_candle_fields session gate can_enter candle acc :
  engine_fields (session_candle session gate can_enter candle acc).1
  = engine_fields acc.1.
Proof.
  destruct acc as [self state0]. unfold session_candle.
  set (state := check_initial_breakout gate candle self state0).
  destruct (SessionState.breakout_direction state) as [direction|]; [|done].
  pose proof (check_take_profit_fields candle self state) as H1.
  destruct (check_take_profit candle self state) as [self1 state1].
  pose proof (check_scaling_fields session can_enter candle direction self1 state1) as H2.
  destruct (check_scaling _ _ _ _ _ _) as [self2 state2].
  simpl in *. rewrite <- H1, <- H2.
  destruct (reversal_direction candle direction state2); [|done].
  apply handle_reversal_fields.
Qed.

Lemma morning_loop_fields entry_candles acc :
  engine_fields (morning_loop entry_candles acc).1 = engine_fields acc.1.
Proof.
  unfold morning_loop. revert acc.
  induction entry_candles as [|c cs IH]; intros acc; simpl; [done|].
  rewrite IH. apply session_candle_fields.
Qed.

Lemma afternoon_loop_fields entry_candles acc :
  engine_fields (afternoon_loop entry_candles acc).1 = engine_fields acc.1.
Proof.
  revert acc. induction entry_candles as [|c cs IH]; intros acc; simpl; [done|].
  destruct (_ <=? _)%Z.
  - destruct (SessionState.open_trades acc.2); [done|]. apply close_each_fields.
  - rewrite IH. apply session_candle_fields.
Qed.

Lemma close_at_session_end_fields entry_candles acc :
  engine_fields (close_at_session_end entry_candles acc).1 = engine_fields acc.1.
Proof.
  unfold close_at_session_end. destruct (SessionState.open_trades acc.2); [done|].
  destruct (last entry_candles); [|done]. apply close_each_fields.
Qed.

Lemma process_morning_session_afternoon_state self df date :
  Backtester.afternoon_state (process_morning_session self df date)
  = Backtester.afternoon_state self.
Proof.
  unfold process_morning_session.
  destruct (prepare_session _ _ _ _ _ _) as [state|]; [|done].
  pose proof (morning_loop_fields (entry_candles_from df MORNING_ENTRY_START)
                (self, state)) as H.
  destruct (morning_loop _ _) as [self1 state1]. simpl in H.
  injection H as _ _ H _ _ _. by destruct (Qlt_bool _ _).
Qed.

Lemma process_afternoon_session_morning_state self df date :
  Backtester.morning_state (process_afternoon_session self df date)
  = Backtester.morning_state self.
Proof.
  unfold process_afternoon_session.
  destruct (prepare_session _ _ _ _ _ _) as [state|]; [|done].
  pose proof (close_at_session_end_fields
                (entry_candles_from df AFTERNOON_ENTRY_START)
                (afternoon_loop (entry_candles_from df AFTERNOON_ENTRY_START)
                                (self, state))) as H.
  rewrite afternoon_loop_fields in H.
  destruct (close_at_session_end _ _) as [self1 state1]. simpl in H.
  injection H as _ H _ _ _ _. by destruct (Qlt_bool _ _).
Qed.

(** ** Invariants that every trading step preserves

    A relation [R self opens] between the engine and the open trades of the
    session being processed is [Stable] when it survives the three things a
    session does to the ledger: closing one of its open trades, opening a
    new trade, and forgetting its open trades.  [Base] is the shape of
    [opens] that makes aliasing harmless: distinct references into the
    store. *)

Lemma Base_close self o ref p t r :
  Base self o → Base (close_trade self ref p t r) (list_remove ref o).
Proof.
  intros [Hnd Hlt]. split; [by apply list_remove_NoDup|].
  intros i Hi. rewrite close_trade_length. by apply Hlt, (list_remove_elem_of ref).
Qed.

Lemma Base_open self o d p t tp ty s l :
  Base self o →
  Base (open_trade self d p t tp ty s l).1 (o ++ [length (Backtester.all_trades self)]).
Proof.
  intros [Hnd Hlt]. split.
  - apply NoDup_app. split; [done|]. split; [|apply NoDup_singleton].
    intros i Hi Hi'. apply list_elem_of_singleton in Hi'. apply Hlt in Hi. lia.
  - intros i Hi. rewrite open_trade_all_trades, length_app. simpl.
    apply elem_of_app in Hi as [Hi|Hi].
    + apply Hlt in Hi. lia.
    + apply list_elem_of_singleton in Hi. lia.
Qed.

Lemma Base_nil self : Base self [].
Proof. split; [constructor|]. intros i Hi. by apply elem_of_nil in Hi. Qed.

Lemma prepare_session_open_trades self state df date rs re state' :
  prepare_session self state df date rs re = Some state' →
  SessionState.open_trades state' = SessionState.open_trades state.
Proof.
  unfold prepare_session. simpl.
  destruct (SessionState.range_high state) eqn:E; simpl; rewrite ?E;
    [by intros [= <-]|].
  destruct (calculate_range _ _ _ _) as [[hi lo]|]; simpl; rewrite ?E; [|done].
  by intros [= <-].
Qed.

Section StableSteps.
Context (allowed : ExitReason → Prop) (sess : SessionType)
  (R : Backtester.t → list nat → Prop) (HR : StableUnder allowed sess R).

Let Good (self : Backtester.t) (o : list nat) : Prop := Base self o ∧ R self o.

Lemma close_each_good self o p t r :
  allowed r → Good self o → Good (close_each self o p t r) [].
Proof.
  intros Hr. unfold close_each. revert self.
  induction o as [|x o IH]; intros self [HB HRo]; simpl; [done|].
  apply IH. rewrite <- (list_remove_head x o). split.
  - by apply Base_close.
  - apply (stable_close allowed sess R HR); [done|done|done|by left].
Qed.

Lemma close_all_good self state p t r :
  allowed r →
  Good self (SessionState.open_trades state) →
  Good (close_all_session_trades self state p t r).1
       (SessionState.open_trades (close_all_session_trades self state p t r).2).
Proof. intros Hr H. simpl. by apply close_each_good. Qed.

Lemma tp_fold_good candle tp l self live hit :
  allowed TP →
  Good self live → NoDup l → (∀ x, x ∈ l → x ∈ live) →
  Good (fold_left (tp_iter candle tp) l (self, live, hit)).1.1
       (fold_left (tp_iter candle tp) l (self, live, hit)).1.2.
Proof.
  intros Hr. revert self live hit.
  induction l as [|x l IH]; intros self live hit HG Hnd Hsub; simpl; [done|].
  apply NoDup_cons in Hnd as [Hx Hnd].
  assert (Hrest : ∀ y, y ∈ l → y ∈ live) by (intros y Hy; apply Hsub; by right).
  destruct (Backtester.all_trades self !! x) as [tr|]; [|by apply IH].
  destruct (check_tp_hit tr candle); [|by apply IH].
  destruct HG as [HB HRo]. apply IH; [split| done |].
  - by apply Base_close.
  - apply (stable_close allowed sess R HR); [done|done|done|]. apply Hsub. by left.
  - intros y Hy. apply list_remove_keeps; [|by apply Hrest].
    intros ->. done.
Qed.

Lemma check_take_profit_good candle self state :
  allowed TP →
  Good self (SessionState.open_trades state) →
  Good (check_take_profit candle self state).1
       (SessionState.open_trades (check_take_profit candle self state).2).
Proof.
  intros Hr HG. unfold check_take_profit.
  destruct (SessionState.open_trades state) as [|x o] eqn:Ho;
    [simpl; by rewrite Ho|].
  pose proof (tp_fold_good candle (num (SessionState.tp_price state)) (x :: o)
                self (x :: o) false Hr HG (proj1 (proj1 HG)) (fun _ H => H)) as HF.
  destruct (fold_left _ _ _) as [[self1 opens] tp_hit]. simpl in HF.
  destruct tp_hit; [|done].
  by apply (close_all_good self1 (SessionState.set_open_trades state opens)).
Qed.

Lemma scale_iter_good can_enter candle direction self state entry :
  Good self (SessionState.open_trades state) →
  Good (scale_iter sess can_enter candle direction (self, state) entry).1
       (SessionState.open_trades
          (scale_iter sess can_enter candle direction (self, state) entry).2).
Proof.
  intros HG. unfold scale_iter. destruct entry as [level_index level].
  destruct (existsb _ _); [done|].
  destruct (level_triggered _ _ _); [|done].
  destruct can_enter; simpl; [|done].
  destruct HG as [HB HRo]. split.
  - by apply (Base_open self _ direction level (Candle.time candle)
                (num (SessionState.tp_price state)) SCALE sess (Some _)).
  - by apply (stable_open allowed sess R HR self _ direction level (Candle.time candle)
                (num (SessionState.tp_price state)) SCALE (Some _)).
Qed.

Lemma scale_fold_good can_enter candle direction entries acc :
  Good acc.1 (SessionState.open_trades acc.2) →
  Good (fold_left (scale_iter sess can_enter candle direction) entries acc).1
       (SessionState.open_trades
          (fold_left (scale_iter sess can_enter candle direction) entries acc).2).
Proof.
  revert acc. induction entries as [|e entries IH]; intros [self state] HG;
    simpl; [done|].
  apply IH. by apply scale_iter_good.
Qed.

Lemma check_scaling_good can_enter candle direction self state :
  Good self (SessionState.open_trades state) →
  Good (check_scaling sess can_enter candle direction self state).1
       (SessionState.open_trades
          (check_scaling sess can_enter candle direction self state).2).
Proof.
  intros HG. unfold check_scaling. destruct (can_check_scales _ _); [|done].
  by apply (scale_fold_good _ _ _ _ (self, state)).
Qed.

Lemma handle_reversal_good can_enter candle new_direction self state :
  allowed REVERSAL →
  Good self (SessionState.open_trades state) →
  Good (handle_reversal can_enter candle new_direction self state).1
       (SessionState.open_trades
          (handle_reversal can_enter candle new_direction self state).2).
Proof.
  intros Hr HG. unfold handle_reversal.
  pose proof (close_all_good self state (Candle.close candle)
                (Candle.time candle) REVERSAL Hr HG) as HC.
  destruct (SessionState.open_trades state) as [|x o] eqn:Ho.
  - destruct can_enter; simpl; [|by rewrite Ho].
    destruct (_ =? 0)%nat; simpl; by rewrite Ho.
  - destruct (close_all_session_trades _ _ _ _ _) as [self1 state1].
    destruct can_enter; simpl; [|done].
    by destruct (_ =? 0)%nat.
Qed.

Lemma session_candle_good gate can_enter candle acc :
  allowed TP → allowed REVERSAL →
  Good acc.1 (SessionState.open_trades acc.2) →
  Good (session_candle sess gate can_enter candle acc).1
       (SessionState.open_trades
          (session_candle sess gate can_enter candle acc).2).
Proof.
  intros Htp Hrev. destruct acc as [self state0]. simpl. intros HG.
  unfold session_candle.
  rewrite <- (check_initial_breakout_open_trades gate candle self state0) in HG.
  set (state := check_initial_breakout gate candle self state0) in *.
  destruct (SessionState.breakout_direction state) as [direction|]; simpl;
    [|by rewrite track_drawdown_open_trades].
  apply (check_take_profit_good candle _ _ Htp) in HG.
  destruct (check_take_profit candle self state) as [self1 state1].
  apply (check_scaling_good can_enter candle direction) in HG.
  destruct (check_scaling _ _ _ _ _ _) as [self2 state2].
  destruct (reversal_direction candle direction state2) as [new_direction|].
  - by apply handle_reversal_good.
  - simpl. by rewrite track_drawdown_open_trades.
Qed.

Lemma morning_loop_good entry_candles acc :
  sess = MORNING → allowed TP → allowed REVERSAL →
  Good acc.1 (SessionState.open_trades acc.2) →
  Good (morning_loop entry_candles acc).1
       (SessionState.open_trades (morning_loop entry_candles acc).2).
Proof.
  intros Hs Htp Hrev. unfold morning_loop, morning_candle. rewrite <- Hs. revert acc.
  induction entry_candles as [|c cs IH]; intros acc HG; simpl; [done|].
  apply IH. by apply session_candle_good.
Qed.

Lemma afternoon_loop_good entry_candles acc :
  sess = AFTERNOON → allowed TP → allowed REVERSAL → allowed TIME_EXIT →
  Good acc.1 (SessionState.open_trades acc.2) →
  Good (afternoon_loop entry_candles acc).1
       (SessionState.open_trades (afternoon_loop entry_candles acc).2).
Proof.
  intros Hs Htp Hrev Hexit. revert acc.
  induction entry_candles as [|c cs IH]; intros acc HG; simpl; [done|].
  destruct (_ <=? _)%Z.
  - destruct (SessionState.open_trades acc.2) eqn:Ho; [by rewrite Ho|].
    rewrite <- Ho in *. by apply close_all_good.
  - apply IH. unfold afternoon_candle. rewrite <- Hs. by apply session_candle_good.
Qed.

Lemma close_at_session_end_good entry_candles acc :
  allowed SESSION_END →
  Good acc.1 (SessionState.open_trades acc.2) →
  Good (close_at_session_end entry_candles acc).1
       (SessionState.open_trades (close_at_session_end entry_candles acc).2).
Proof.
  intros Hend HG. unfold close_at_session_end.
  destruct (SessionState.open_trades acc.2) eqn:Ho; [by rewrite Ho|].
  destruct (last entry_candles); [|by rewrite Ho].
  rewrite <- Ho in *. by apply close_all_good.
Qed.

(** A session procedure leaves the relation in place for its own state. *)
Lemma process_morning_session_good self df date :
  sess = MORNING → allowed TP → allowed REVERSAL →
  Good self (SessionState.open_trades (Backtester.morning_state self)) →
  Good (process_morning_session self df date)
       (SessionState.open_trades
          (Backtester.morning_state (process_morning_session self df date))).
Proof.
  intros Hs Htp Hrev HG. unfold process_morning_session.
  destruct (prepare_session _ _ _ _ _ _) as [state|] eqn:Hp.
  - apply prepare_session_open_trades in Hp. rewrite <- Hp in HG.
    apply (morning_loop_good (entry_candles_from df MORNING_ENTRY_START)
             (self, state) Hs Htp Hrev) in HG.
    destruct (morning_loop _ _) as [self1 state1]. simpl in HG.
    destruct HG as [HB HRo].
    destruct (Qlt_bool _ _); simpl; (split; [exact HB|]);
      by apply (stable_ledger allowed sess R HR self1).
  - simpl. destruct HG as [HB HRo]. split; [exact HB|].
    by apply (stable_ledger allowed sess R HR self).
Qed.

Lemma process_afternoon_session_good self df date :
  sess = AFTERNOON →
  allowed TP → allowed REVERSAL → allowed TIME_EXIT → allowed SESSION_END →
  Good self (SessionState.open_trades (Backtester.afternoon_state self)) →
  Good (process_afternoon_session self df date)
       (SessionState.open_trades
          (Backtester.afternoon_state (process_afternoon_session self df date))).
Proof.
  intros Hs Htp Hrev Hexit Hend HG. unfold process_afternoon_session.
  destruct (prepare_session _ _ _ _ _ _) as [state|] eqn:Hp.
  - apply prepare_session_open_trades in Hp. rewrite <- Hp in HG.
    apply (afternoon_loop_good (entry_candles_from df AFTERNOON_ENTRY_START)
             (self, state) Hs Htp Hrev Hexit) in HG.
    apply (close_at_session_end_good
             (entry_candles_from df AFTERNOON_ENTRY_START) _ Hend) in HG.
    destruct (close_at_session_end _ _) as [self1 state1]. simpl in HG.
    destruct HG as [HB HRo].
    destruct (Qlt_bool _ _); simpl; (split; [exact HB|]);
      by apply (stable_ledger allowed sess R HR self1).
  - simpl. destruct HG as [HB HRo]. split; [exact HB|].
    by apply (stable_ledger allowed sess R HR self).
Qed.
End StableSteps.

Section StableRun.
Context (R : Backtester.t → list nat → Prop) (HR : Stable R).

(** Between sessions only the ledger matters. *)
Lemma process_day_stable df self date :
  R self [] → R (process_day df self date) [].
Proof.
  intros HRo. unfold process_day. destruct (is_weekend date); [done|].
  pose proof (HR (λ _, True) MORNING) as HRm.
  pose proof (HR (λ _, True) AFTERNOON) as HRa.
  assert (H0 : R (reset_daily_state self) [])
    by (by apply (stable_ledger _ _ R HRm self)).
  destruct (List.filter _ df) as [|c df_day]; [done|].
  set (df' := c :: df_day).
  pose proof (process_morning_session_good _ _ R HRm (reset_daily_state self) df' date
                eq_refl I I (conj (Base_nil _) H0)) as [_ H1].
  apply (stable_drop _ _ R HRm) in H1.
  set (self1 := process_morning_session _ _ _) in *.
  assert (Ho : SessionState.open_trades (Backtester.afternoon_state self1) = []).
  { unfold self1. by rewrite process_morning_session_afternoon_state. }
  pose proof (process_afternoon_session_good _ _ R HRa self1 df' date
                eq_refl I I I I) as H2.
  rewrite Ho in H2. destruct (H2 (conj (Base_nil _) H1)) as [_ H3].
  apply (stable_drop _ _ R HRa) in H3.
  by apply (stable_ledger _ _ R HRa (process_afternoon_session self1 df' date)).
Qed.

Lemma run_dates_stable df dates self :
  R self [] → R (run_dates df dates self) [].
Proof.
  unfold run_dates. revert self.
  induction dates as [|d dates IH]; intros self HRo; simpl; [done|].
  apply IH. by apply process_day_stable.
Qed.
End StableRun.


(** ** The ledger: the balance accrues the profits of the closed trades *)

Lemma list_remove_not_elem_of (x : nat) (l : list nat) :
  NoDup l → x ∉ list_remove x l.
Proof.
  induction 1 as [|z l Hz Hl IH]; simpl; [apply not_elem_of_nil|].
  destruct (Nat.eqb_spec x z) as [->|Hne]; [done|].
  intros H. apply elem_of_cons in H as [H|H]; [done|]. by apply IH.
Qed.

Lemma accrue_insert (trades : list Trade.t) (closed : list nat) (b0 : Q)
    (ref : nat) (tr : Trade.t) :
  ref ∉ closed → accrue (<[ref := tr]> trades) closed b0 = accrue trades closed b0.
Proof.
  unfold accrue. revert b0. induction closed as [|x closed IH]; intros b0 Hn; [done|].
  apply not_elem_of_cons in Hn as [Hne Hn]. simpl.
  rewrite list_lookup_insert_ne by done. by apply IH.
Qed.

Lemma accrue_snoc_store (trades : list Trade.t) (closed : list nat) (b0 : Q)
    (tr : Trade.t) :
  (∀ i, i ∈ closed → (i < length trades)%nat) →
  accrue (trades ++ [tr]) closed b0 = accrue trades closed b0.
Proof.
  unfold accrue. revert b0. induction closed as [|x closed IH]; intros b0 Hlt; [done|].
  simpl. rewrite lookup_app_l by (apply Hlt; by left).
  apply IH. intros i Hi. apply Hlt. by right.
Qed.

Lemma Accrued_stable b0 : Stable (Accrued b0).
Proof.
  intros allowed sess. split.
  - intros a b o (Ht & Hc & Hb & _) (H1 & H2 & H3). unfold Accrued.
    rewrite <- Ht, <- Hc, <- Hb. done.
  - intros self o ref p t r _ [Hnd Hlt] (H1 & H2 & H3) Hin.
    unfold close_trade.
    destruct (Backtester.all_trades self !! ref) as [tr|] eqn:Hl.
    2:{ apply lookup_ge_None in Hl. apply Hlt in Hin. lia. }
    unfold Accrued. simpl. split; [|split].
    + intros i Hi Hc. apply elem_of_app in Hc as [Hc|Hc].
      * apply (H1 i); [|done]. by apply (list_remove_elem_of ref).
      * apply list_elem_of_singleton in Hc. subst i.
        by apply (list_remove_not_elem_of ref o).
    + intros i Hi. rewrite length_insert. apply elem_of_app in Hi as [Hi|Hi].
      * by apply H2.
      * apply list_elem_of_singleton in Hi. subst i. by apply Hlt.
    + unfold accrue. rewrite fold_left_app. simpl.
      rewrite list_lookup_insert_eq by (by apply Hlt).
      fold (accrue (<[ref:=Trade.close tr p t r (Backtester.point self)]>
                      (Backtester.all_trades self))
                   (Backtester.closed_trades self) b0).
      rewrite accrue_insert by (by apply H1). by rewrite <- H3.
  - intros self o d p t tp ty l [Hnd Hlt] (H1 & H2 & H3).
    unfold Accrued. simpl. split; [|split].
    + intros i Hi Hc. apply elem_of_app in Hi as [Hi|Hi].
      * by apply (H1 i).
      * apply list_elem_of_singleton in Hi. subst i. apply H2 in Hc. lia.
    + intros i Hi. rewrite length_app. apply H2 in Hi. lia.
    + by rewrite accrue_snoc_store.
  - intros self o (H1 & H2 & H3). split; [|done].
    intros i Hi. by apply elem_of_nil in Hi.
Qed.






(** ** The range calculation *)

Lemma range_mask_in_window date s e c :
  range_mask date s e c = true ↔ in_window date s e c.
Proof.
  unfold range_mask, in_window.
  rewrite !andb_true_iff, Z.eqb_eq, Z.leb_le, Z.ltb_lt. tauto.
Qed.

Lemma fold_max_is_maximum (xs : list Q) (x : Q) :
  is_maximum (fold_left Qmax xs x) (x :: xs).
Proof.
  revert x. induction xs as [|y xs IH]; intros x; simpl.
  - split; [by left|]. intros z Hz. apply list_elem_of_singleton in Hz.
    subst z. apply Qle_refl.
  - destruct (IH (Qmax x y)) as [Hin Hub]. split.
    + apply elem_of_cons in Hin as [Hin|Hin]; [|by do 2 right].
      rewrite Hin. unfold Qmax, GenericMinMax.gmax.
      destruct (x ?= y); [by left|right; by left|by left].
    + intros z Hz.
      assert (Hm : Qmax x y <= fold_left Qmax xs (Qmax x y)) by (apply Hub; by left).
      apply elem_of_cons in Hz as [->|Hz].
      * eapply Qle_trans; [apply Q.le_max_l|exact Hm].
      * apply elem_of_cons in Hz as [->|Hz].
        -- eapply Qle_trans; [apply Q.le_max_r|exact Hm].
        -- apply Hub. by right.
Qed.

Lemma fold_min_is_minimum (xs : list Q) (x : Q) :
  is_minimum (fold_left Qmin xs x) (x :: xs).
Proof.
  revert x. induction xs as [|y xs IH]; intros x; simpl.
  - split; [by left|]. intros z Hz. apply list_elem_of_singleton in Hz.
    subst z. apply Qle_refl.
  - destruct (IH (Qmin x y)) as [Hin Hlb]. split.
    + apply elem_of_cons in Hin as [Hin|Hin]; [|by do 2 right].
      rewrite Hin. unfold Qmin, GenericMinMax.gmin.
      destruct (x ?= y); [by left|by left|right; by left].
    + intros z Hz.
      assert (Hm : fold_left Qmin xs (Qmin x y) <= Qmin x y) by (apply Hlb; by left).
      apply elem_of_cons in Hz as [->|Hz].
      * eapply Qle_trans; [exact Hm|apply Q.le_min_l].
      * apply elem_of_cons in Hz as [->|Hz].
        -- eapply Qle_trans; [exact Hm|apply Q.le_min_r].
        -- apply Hlb. by right.
Qed.

(** C7.  The range calculation returns [None] exactly when fewer than three
    candles of the frame fall in the window of the date, and then the session
    is skipped (the early return of the session procedure); otherwise it
    returns the maximum of the highs and the minimum of the lows over the
    window. *)
Theorem calculate_range_spec :
  ∀ (df : list Candle.t) (date window_start window_end : Z),
    let window := List.filter (range_mask date window_start window_end) df in
    (∀ c, c ∈ window ↔ c ∈ df ∧ in_window date window_start window_end c)
    ∧ (calculate_range df date window_start window_end = None
       ↔ (length window < 3)%nat)
    ∧ (∀ self state,
         calculate_range df date window_start window_end = None →
         prepare_session self (SessionState.reset state) df date
                         window_start window_end = None)
    ∧ ((3 ≤ length window)%nat →
       ∃ hi lo,
         calculate_range df date window_start window_end = Some (hi, lo)
         ∧ is_maximum hi (map Candle.high window)
         ∧ is_minimum lo (map Candle.low window)).
Proof.
  intros df date s e window. split; [|split; [|split]].
  - intros c. unfold window. rewrite !list_elem_of_In, filter_In.
    by rewrite range_mask_in_window.
  - unfold calculate_range. fold window.
    destruct (Nat.ltb_spec (length window) 3); split; try done. lia.
  - intros self state H. unfold prepare_session. simpl. by rewrite H.
  - intros Hlen. unfold calculate_range. fold window.
    destruct (Nat.ltb_spec (length window) 3); [lia|].
    eexists _, _. split; [reflexivity|].
    destruct window as [|c w]; [simpl in Hlen; lia|]. simpl. split.
    + apply fold_max_is_maximum.
    + apply fold_min_is_minimum.
Qed.

Lemma calculate_range_spec_witness :
  (∃ hi lo,
     calculate_range example_df example_day MORNING_RANGE_START MORNING_RANGE_END
     = Some (hi, lo)
     ∧ is_maximum hi (map Candle.high range_bars)
     ∧ is_minimum lo (map Candle.low range_bars))
  ∧ prepare_session example_engine (SessionState.reset (SessionState.init MORNING))
      [breakout_bar] example_day MORNING_RANGE_START MORNING_RANGE_END = None.
Proof.
  split.
  - apply (proj2 (proj2 (proj2
      (calculate_range_spec example_df example_day
         MORNING_RANGE_START MORNING_RANGE_END)))).
    vm_compute. lia.
  - apply (proj1 (proj2 (proj2
      (calculate_range_spec [breakout_bar] example_day
         MORNING_RANGE_START MORNING_RANGE_END)))).
    vm_compute. reflexivity.
Defined.

(** ** The session state machine: shape of the reachable states *)

Ltac wired_split :=
  unfold Wired; simpl; split; [|split; [|split; [|split; [|split; [|split]]]]].

Ltac wired_solve :=
  first
    [ done
    | by eexists
    | lia
    | by intros [? ?]
    | by intros ? [= <-]
    | intros; repeat split; first [done | by eexists | lia | congruence] ].

Lemma Wired_transfer st st' :
  control_fields st' = control_fields st →
  (SessionState.breakout_direction st = None →
   SessionState.open_trades st' = SessionState.open_trades st) →
  Wired st → Wired st'.
Proof.
  unfold control_fields, Wired. intros [= _ -> -> Hd -> -> -> -> -> ->] Ho.
  rewrite Hd. intros (H1 & H2 & H3 & H4 & H5 & H6 & H7).
  split; [|split; [|split; [|split; [|split; [|split]]]]]; try done.
  intros Hn. rewrite Ho by done. auto.
Qed.

Lemma prepare_session_wired self state0 df date rs re state :
  prepare_session self (SessionState.reset state0) df date rs re = Some state →
  Wired state ∧ SessionState.open_trades state = []
  ∧ SessionState.initial_breakout_done state = false.
Proof.
  unfold prepare_session. simpl.
  destruct (calculate_range df date rs re) as [[hi lo]|]; simpl; [|done].
  intros [= <-]. split; [|done]. wired_split; wired_solve.
Qed.

Lemma check_initial_breakout_wired gate candle self state :
  Wired state → Wired (check_initial_breakout gate candle self state).
Proof.
  intros HW. unfold check_initial_breakout.
  destruct (negb _ && gate) eqn:Hg; [|done].
  apply andb_true_iff in Hg as [Hg _]. apply negb_true_iff in Hg.
  destruct HW as (H1 & H2 & H3 & H4 & H5 & H6 & H7). destruct (H3 Hg) as [Hd Hc].
  destruct (Qlt_bool _ _); [|destruct (Qlt_bool _ _); [|done]].
  all: wired_split; rewrite ?Hc; wired_solve.
Qed.

Lemma tp_fold_control candle tp l self live hit st :
  control_fields
    (SessionState.set_open_trades st
       (fold_left (tp_iter candle tp) l (self, live, hit)).1.2)
  = control_fields st.
Proof. done. Qed.

Lemma check_take_profit_control candle self state :
  control_fields (check_take_profit candle self state).2 = control_fields state
  ∧ SessionState.executed_scales (check_take_profit candle self state).2
    = SessionState.executed_scales state.
Proof.
  unfold check_take_profit. destruct (SessionState.open_trades state); [done|].
  destruct (fold_left _ _ _) as [[self1 opens] tp_hit]. by destruct tp_hit.
Qed.

Lemma scale_fold_control session can_enter candle direction entries acc :
  control_fields
    (fold_left (scale_iter session can_enter candle direction) entries acc).2
  = control_fields acc.2.
Proof.
  revert acc. induction entries as [|[i level] entries IH]; intros [self state];
    simpl; [done|].
  rewrite IH. destruct (existsb _ _); [done|].
  destruct (level_triggered _ _ _); [|done]. by destruct can_enter.
Qed.

Lemma check_scaling_control session can_enter candle direction self state :
  control_fields (check_scaling session can_enter candle direction self state).2
  = control_fields state.
Proof.
  unfold check_scaling. destruct (can_check_scales _ _); [|done].
  apply (scale_fold_control _ _ _ _ _ (self, state)).
Qed.

Lemma track_drawdown_control candle self state :
  control_fields (track_drawdown candle self state) = control_fields state.
Proof. unfold track_drawdown. by destruct (SessionState.open_trades state). Qed.

Lemma handle_reversal_wired can_enter candle new_direction self state :
  Wired state → is_Some (SessionState.breakout_direction state) →
  Wired (handle_reversal can_enter candle new_direction self state).2.
Proof.
  intros (H1 & H2 & H3 & H4 & H5 & H6 & H7) Hd.
  destruct (H4 Hd) as (Hc & Htp & Hbp & Hbt).
  assert (Hibd : SessionState.initial_breakout_done state = true).
  { destruct (SessionState.initial_breakout_done state); [done|].
    destruct (H3 eq_refl) as [Hn _]. rewrite Hn in Hd. by destruct Hd. }
  unfold handle_reversal.
  set (closed := match SessionState.open_trades state with
                 | [] => (self, state)
                 | _ :: _ => close_all_session_trades self state (Candle.close candle)
                               (Candle.time candle) REVERSAL
                 end).
  assert (Hcl : control_fields closed.2 = control_fields state
                ∧ SessionState.open_trades closed.2 = []).
  { unfold closed. by destruct (SessionState.open_trades state) eqn:E. }
  destruct closed as [self1 state1]. simpl in Hcl. destruct Hcl as [Hcf Ho].
  unfold control_fields in Hcf.
  injection Hcf as _ Hrh Hrl _ Hbp' Htp' Hcnt _ Hibd' Hbt'.
  destruct can_enter; simpl.
  - destruct (Nat.eqb_spec (SessionState.reversal_count state1) 0) as [E|E];
      rewrite Hcnt in E; wired_split;
      rewrite ?Hrh, ?Hrl, ?Hbp', ?Htp', ?Hcnt, ?Hibd', ?Hbt'; wired_solve.
  - wired_split; rewrite ?Hrh, ?Hrl, ?Hbp', ?Htp', ?Hcnt, ?Hibd', ?Hbt';
      wired_solve.
Qed.

Lemma session_candle_wired session gate can_enter candle acc :
  Wired acc.2 → Wired (session_candle session gate can_enter candle acc).2.
Proof.
  destruct acc as [self state0]. simpl. intros HW. unfold session_candle.
  apply (check_initial_breakout_wired gate candle self) in HW.
  set (state := check_initial_breakout gate candle self state0) in *.
  destruct (SessionState.breakout_direction state) as [direction|] eqn:Hd; simpl.
  2:{ eapply Wired_transfer; [apply track_drawdown_control| |exact HW].
      intros _. apply track_drawdown_open_trades. }
  destruct (check_take_profit_control candle self state) as [H1 _].
  destruct (check_take_profit candle self state) as [self1 state1]. simpl in H1.
  pose proof (check_scaling_control session can_enter candle direction self1 state1) as H2.
  destruct (check_scaling _ _ _ _ _ _) as [self2 state2]. simpl in H2.
  rewrite H1 in H2.
  assert (HW2 : Wired state2).
  { eapply Wired_transfer; [exact H2| |exact HW]. rewrite Hd. done. }
  assert (Hd2 : SessionState.breakout_direction state2 = Some direction).
  { unfold control_fields in H2. injection H2 as _ _ _ H2 _ _ _ _ _ _. congruence. }
  destruct (reversal_direction candle direction state2) as [new_direction|].
  - apply handle_reversal_wired; [done|]. rewrite Hd2. by eexists.
  - simpl. eapply Wired_transfer; [apply track_drawdown_control| |exact HW2].
    intros _. apply track_drawdown_open_trades.
Qed.

(** A stopped session ignores every further candle. *)
Lemma session_candle_stopped session gate can_enter candle self state :
  Stopped state →
  session_candle session gate can_enter candle (self, state) = (self, state).
Proof.
  intros (Hibd & Hd & Ho). unfold session_candle, check_initial_breakout.
  rewrite Hibd. simpl. rewrite Hd. unfold track_drawdown. by rewrite Ho.
Qed.

Lemma Wired_two_stopped state :
  Wired state → SessionState.reversal_count state = 2%nat → Stopped state.
Proof.
  intros (H1 & H2 & H3 & H4 & H5 & H6 & H7) Hc.
  assert (Hd : SessionState.breakout_direction state = None).
  { destruct (SessionState.breakout_direction state) eqn:E; [|done].
    destruct H4 as [H4 _]; [by eexists|]. lia. }
  split; [|split]; [|done|by apply H6].
  destruct (SessionState.initial_breakout_done state); [done|].
  destruct (H3 eq_refl). lia.
Qed.

Lemma morning_loop_wired cs acc : Wired acc.2 → Wired (morning_loop cs acc).2.
Proof.
  unfold morning_loop. revert acc.
  induction cs as [|c cs IH]; intros acc HW; simpl; [done|].
  apply IH. by apply session_candle_wired.
Qed.

Lemma afternoon_loop_wired cs acc : Wired acc.2 → Wired (afternoon_loop cs acc).2.
Proof.
  revert acc. induction cs as [|c cs IH]; intros acc HW; simpl; [done|].
  destruct (_ <=? _)%Z.
  - destruct (SessionState.open_trades acc.2) eqn:E; [done|].
    eapply Wired_transfer; [| |exact HW]; [done|].
    intros Hn. destruct HW as (_ & _ & _ & _ & _ & H6 & _). rewrite (H6 Hn). done.
  - apply IH. by apply session_candle_wired.
Qed.

Lemma morning_loop_stopped cs self state :
  Stopped state → morning_loop cs (self, state) = (self, state).
Proof.
  intros HS. unfold morning_loop.
  induction cs as [|c cs IH]; cbn [fold_left]; [done|].
  unfold morning_candle at 2. by rewrite session_candle_stopped.
Qed.

Lemma afternoon_loop_stopped cs self state :
  Stopped state → afternoon_loop cs (self, state) = (self, state).
Proof.
  intros HS. induction cs as [|c cs IH]; cbn [afternoon_loop fst snd]; [done|].
  destruct (_ <=? _)%Z.
  - destruct HS as (? & ? & Ho). by rewrite Ho.
  - unfold afternoon_candle. by rewrite session_candle_stopped.
Qed.

(** C2.  In a session of a trading day (a state prepared from
    [SessionState.reset]), after any candles of the morning loop or of the
    afternoon loop the reversal count is at most 2; and once it is 2 every
    further candle, and the end-of-session close, leave the engine and the
    session exactly as they are: no trade is opened. *)
Theorem reversal_count_bounded :
  ∀ (self self' : Backtester.t) (state0 state : SessionState.t)
    (df : list Candle.t) (date range_start range_end : Z)
    (before after : list Candle.t),
    prepare_session self' (SessionState.reset state0) df date
                    range_start range_end = Some state →
    (let a := morning_loop before (self, state) in
     (SessionState.reversal_count a.2 ≤ 2)%nat
     ∧ (SessionState.reversal_count a.2 = 2%nat → morning_loop after a = a))
    ∧ (let a := afternoon_loop before (self, state) in
       (SessionState.reversal_count a.2 ≤ 2)%nat
       ∧ (SessionState.reversal_count a.2 = 2%nat →
          afternoon_loop after a = a ∧ close_at_session_end after a = a)).
Proof.
  intros self self' state0 state df date rs re before after Hp.
  apply prepare_session_wired in Hp as (HW & _ & _). split.
  - pose proof (morning_loop_wired before (self, state) HW) as HW'.
    destruct (morning_loop before (self, state)) as [self1 state1]. simpl in *.
    split; [apply HW'|]. intros Hc.
    by apply morning_loop_stopped, Wired_two_stopped.
  - pose proof (afternoon_loop_wired before (self, state) HW) as HW'.
    destruct (afternoon_loop before (self, state)) as [self1 state1]. simpl in *.
    split; [apply HW'|]. intros Hc.
    pose proof (Wired_two_stopped state1 HW' Hc) as HS. split.
    + by apply afternoon_loop_stopped.
    + unfold close_at_session_end. simpl. destruct HS as (_ & _ & Ho). by rewrite Ho.
Qed.

Lemma reversal_count_bounded_witness :
  let a := morning_loop [breakout_bar; pullback_bar; reversal_bar; second_reversal_bar]
                        (example_engine, example_session) in
  SessionState.reversal_count a.2 = 2%nat ∧ morning_loop [quiet_bar] a = a.
Proof.
  intros a.
  assert (Hp : prepare_session example_engine
                 (SessionState.reset (SessionState.init MORNING)) example_df
                 example_day MORNING_RANGE_START MORNING_RANGE_END
               = Some example_session) by (vm_compute; reflexivity).
  assert (Hc : SessionState.reversal_count a.2 = 2%nat) by (vm_compute; reflexivity).
  split; [exact Hc|].
  exact (proj2 (proj1 (reversal_count_bounded example_engine example_engine
                         (SessionState.init MORNING) example_session example_df
                         example_day MORNING_RANGE_START MORNING_RANGE_END
                         [breakout_bar; pullback_bar; reversal_bar; second_reversal_bar]
                         [quiet_bar] Hp)) Hc).
Defined.

(** ** What a candle adds to the store *)

Lemma enumerate_lookup {A} (l : list A) (i : nat) (x : A) :
  (i, x) ∈ enumerate l → l !! i = Some x.
Proof.
  unfold enumerate.
  assert (H : ∀ n, (i, x) ∈ combine (seq n (length l)) l →
                   (n ≤ i)%nat ∧ l !! (i - n)%nat = Some x).
  { induction l as [|y l IH]; intros n; simpl.
    - intros H. by apply elem_of_nil in H.
    - intros H. apply elem_of_cons in H as [[= -> ->]|H].
      + split; [lia|]. by rewrite Nat.sub_diag.
      + apply IH in H as [Hle Hl]. split; [lia|].
        replace (i - n)%nat with (S (i - S n)) by lia. done. }
  intros Hin. apply H in Hin as [_ Hin]. by rewrite Nat.sub_0_r in Hin.
Qed.

Lemma close_trade_entries self ref p t r :
  entry_fields <$> Backtester.all_trades (close_trade self ref p t r)
  = entry_fields <$> Backtester.all_trades self.
Proof.
  unfold close_trade. destruct (_ !! ref) as [tr|] eqn:Hl; [|done]. simpl.
  rewrite list_fmap_insert. apply list_insert_id.
  by rewrite list_lookup_fmap, Hl.
Qed.

Lemma close_each_entries self l p t r :
  entry_fields <$> Backtester.all_trades (close_each self l p t r)
  = entry_fields <$> Backtester.all_trades self.
Proof.
  unfold close_each. revert self.
  induction l as [|x l IH]; intros self; simpl; [done|].
  by rewrite IH, close_trade_entries.
Qed.

Lemma tp_fold_entries candle tp l acc :
  entry_fields <$> Backtester.all_trades (fold_left (tp_iter candle tp) l acc).1.1
  = entry_fields <$> Backtester.all_trades acc.1.1.
Proof.
  revert acc. induction l as [|x l IH]; intros [[self live] hit]; simpl; [done|].
  rewrite IH. destruct (_ !! x) as [tr|]; [|done].
  destruct (check_tp_hit tr candle); [|done]. simpl. apply close_trade_entries.
Qed.

Lemma check_take_profit_entries candle self state :
  entry_fields <$> Backtester.all_trades (check_take_profit candle self state).1
  = entry_fields <$> Backtester.all_trades self.
Proof.
  unfold check_take_profit. destruct (SessionState.open_trades state) as [|x o]; [done|].
  pose proof (tp_fold_entries candle (num (SessionState.tp_price state)) (x :: o)
                (self, x :: o, false)) as HF.
  destruct (fold_left _ _ _) as [[self1 opens] tp_hit]. simpl in HF.
  destruct tp_hit; [|done]. simpl. by rewrite close_each_entries.
Qed.

Lemma handle_reversal_entries can_enter candle new_direction self state :
  entry_fields
    <$> Backtester.all_trades (handle_reversal can_enter candle new_direction self state).1
  = entry_fields <$> Backtester.all_trades self.
Proof.
  unfold handle_reversal.
  assert (H : entry_fields <$> Backtester.all_trades
                (match SessionState.open_trades state with
                 | [] => (self, state)
                 | _ :: _ => close_all_session_trades self state (Candle.close candle)
                               (Candle.time candle) REVERSAL
                 end).1 = entry_fields <$> Backtester.all_trades self).
  { destruct (SessionState.open_trades state); [done|]. apply close_each_entries. }
  destruct (match SessionState.open_trades state with [] => _ | _ => _ end)
    as [self1 state1].
  destruct can_enter; simpl; [|done]. by destruct (_ =? 0)%nat.
Qed.

Lemma scale_entry_control session candle direction st st' idx level :
  control_fields st' = control_fields st →
  scale_entry session candle direction st' idx level
  = scale_entry session candle direction st idx level.
Proof.
  unfold control_fields, scale_entry, scale_lot_size.
  by intros [= _ _ _ _ _ -> -> _ _ _].
Qed.

Lemma scale_fold_entries session can_enter candle direction entries self state :
  ∃ news,
    entry_fields
      <$> Backtester.all_trades
            (fold_left (scale_iter session can_enter candle direction) entries
                       (self, state)).1
    = (entry_fields <$> Backtester.all_trades self) ++ news
    ∧ (can_enter = false → news = [])
    ∧ Forall (λ e, ∃ idx level, (idx, level) ∈ entries
                 ∧ e = scale_entry session candle direction state idx level) news.
Proof.
  revert self state.
  induction entries as [|[idx level] entries IH]; intros self state; simpl.
  { exists []. by rewrite app_nil_r. }
  assert (Hskip : ∃ news,
    entry_fields
      <$> Backtester.all_trades
            (fold_left (scale_iter session can_enter candle direction) entries
                       (self, state)).1
    = (entry_fields <$> Backtester.all_trades self) ++ news
    ∧ (can_enter = false → news = [])
    ∧ Forall (λ e, ∃ idx' level', (idx', level') ∈ (idx, level) :: entries
                 ∧ e = scale_entry session candle direction state idx' level') news).
  { destruct (IH self state) as (news & H1 & H2 & H3). exists news.
    split; [done|]. split; [done|].
    eapply Forall_impl; [exact H3|]. intros e (i & l & Hin & ->).
    exists i, l. split; [by right|done]. }
  destruct (existsb _ _); [exact Hskip|].
  destruct (level_triggered _ _ _); [|exact Hskip].
  destruct can_enter; simpl; [|exact Hskip]. clear Hskip.
  destruct (IH (open_trade self direction level (Candle.time candle)
                  (num (SessionState.tp_price state)) SCALE session
                  (Some (scale_lot_size state idx))).1
               (SessionState.record_scale state (length (Backtester.all_trades self)) level))
    as (news & H1 & H2 & H3).
  exists (scale_entry session candle direction state idx level :: news).
  split; [|split; [done|]].
  - etransitivity; [exact H1|]. simpl. rewrite fmap_app. simpl.
    by rewrite <- app_assoc.
  - constructor.
    + exists idx, level. split; [by left|done].
    + eapply Forall_impl; [exact H3|]. intros e (i & l & Hin & ->).
      exists i, l. split; [by right|]. by apply scale_entry_control.
Qed.

(** A candle appends to the store only scale entries of the ladder, opened
    at the candle's time, and only when the ladder is checked and entries
    are allowed; everything else it does to the store is closing trades. *)
Lemma session_candle_entries session gate can_enter candle self state0 :
  let state := check_initial_breakout gate candle self state0 in
  ∃ news,
    entry_fields
      <$> Backtester.all_trades
            (session_candle session gate can_enter candle (self, state0)).1
    = (entry_fields <$> Backtester.all_trades self) ++ news
    ∧ (news ≠ [] →
       can_check_scales candle state = true ∧ can_enter = true
       ∧ ∃ direction,
           SessionState.breakout_direction state = Some direction
           ∧ Forall (λ e, ∃ idx level,
                       SessionState.scale_levels state !! idx = Some level
                       ∧ e = scale_entry session candle direction state idx level)
                    news).
Proof.
  intros state. unfold session_candle. fold state.
  destruct (SessionState.breakout_direction state) as [direction|] eqn:Hd.
  2:{ exists []. simpl. by rewrite app_nil_r. }
  pose proof (check_take_profit_entries candle self state) as H1.
  destruct (check_take_profit_control candle self state) as [Hc1 _].
  destruct (check_take_profit candle self state) as [self1 state1]. simpl in H1, Hc1.
  assert (H2 : ∃ news,
    entry_fields
      <$> Backtester.all_trades
            (check_scaling session can_enter candle direction self1 state1).1
    = (entry_fields <$> Backtester.all_trades self) ++ news
    ∧ (news ≠ [] →
       can_check_scales candle state = true ∧ can_enter = true
       ∧ Forall (λ e, ∃ idx level,
                   SessionState.scale_levels state !! idx = Some level
                   ∧ e = scale_entry session candle direction state idx level)
                news)).
  { unfold check_scaling.
    assert (Hcc : can_check_scales candle state1 = can_check_scales candle state).
    { unfold can_check_scales, control_fields in *.
      by injection Hc1 as _ _ _ _ _ _ _ _ _ ->. }
    rewrite Hcc. destruct (can_check_scales candle state).
    2:{ exists []. simpl. rewrite app_nil_r. done. }
    destruct (scale_fold_entries session can_enter candle direction
                (enumerate (SessionState.scale_levels state1)) self1 state1)
      as (news & E1 & E2 & E3).
    exists news. rewrite E1, H1. split; [done|]. intros Hne.
    split; [done|]. split.
    { destruct can_enter; [done|]. by destruct Hne; apply E2. }
    eapply Forall_impl; [exact E3|]. intros e (i & l & Hin & ->).
    apply enumerate_lookup in Hin. exists i, l.
    rewrite (scale_entry_control _ _ _ state state1) by done.
    split; [|done]. unfold control_fields in Hc1.
    by injection Hc1 as _ _ _ _ _ _ _ <- _ _. }
  destruct (check_scaling _ _ _ _ _ _) as [self2 state2].
  destruct H2 as (news & E1 & E2). simpl in E1. exists news. split.
  - destruct (reversal_direction candle direction state2); [|done].
    by rewrite handle_reversal_entries.
  - intros Hne. destruct (E2 Hne) as (? & ? & ?). eauto.
Qed.

Lemma handle_reversal_breakout_mark can_enter candle new_direction self state :
  SessionState.breakout_candle_time
    (handle_reversal can_enter candle new_direction self state).2
  = SessionState.breakout_candle_time state
  ∧ SessionState.initial_breakout_done
      (handle_reversal can_enter candle new_direction self state).2
    = SessionState.initial_breakout_done state.
Proof.
  unfold handle_reversal.
  destruct (SessionState.open_trades state); simpl;
    (destruct can_enter; simpl; [|done]; by destruct (_ =? 0)%nat).
Qed.

Lemma session_candle_breakout_mark session gate can_enter candle self state0 :
  let state := check_initial_breakout gate candle self state0 in
  SessionState.breakout_candle_time
    (session_candle session gate can_enter candle (self, state0)).2
  = SessionState.breakout_candle_time state
  ∧ SessionState.initial_breakout_done
      (session_candle session gate can_enter candle (self, state0)).2
    = SessionState.initial_breakout_done state.
Proof.
  intros state. unfold session_candle. fold state.
  destruct (SessionState.breakout_direction state) as [direction|].
  2:{ simpl. pose proof (track_drawdown_control candle self state) as H.
      unfold control_fields in H. by injection H as _ _ _ _ _ _ _ _ -> ->. }
  destruct (check_take_profit_control candle self state) as [H1 _].
  destruct (check_take_profit candle self state) as [self1 state1]. simpl in H1.
  pose proof (check_scaling_control session can_enter candle direction self1 state1) as H2.
  destruct (check_scaling _ _ _ _ _ _) as [self2 state2]. simpl in H2.
  rewrite H1 in H2. unfold control_fields in H2.
  injection H2 as _ _ _ _ _ _ _ _ Hi Hb.
  destruct (reversal_direction candle direction state2).
  - destruct (handle_reversal_breakout_mark can_enter candle d self2 state2) as [-> ->].
    done.
  - simpl. pose proof (track_drawdown_control candle self2 state2) as H.
    unfold control_fields in H. injection H as _ _ _ _ _ _ _ _ -> ->. done.
Qed.

(** C3.  On the candle that arms the initial breakout the breakout candle's
    timestamp is recorded and no trade is added to the store; and whatever
    trade a candle adds to the store is a scale entry at that candle's time,
    strictly after the recorded breakout candle. *)
Theorem no_entry_on_breakout_candle :
  ∀ (session : SessionType) (gate can_enter : bool) (candle : Candle.t)
    (self : Backtester.t) (state : SessionState.t),
    let r := session_candle session gate can_enter candle (self, state) in
    (SessionState.initial_breakout_done state = false →
     SessionState.initial_breakout_done r.2 = true →
     SessionState.breakout_candle_time r.2 = Some (Candle.time candle)
     ∧ length (Backtester.all_trades r.1) = length (Backtester.all_trades self))
    ∧ (∀ (i : nat) (tr : Trade.t) (t : Z),
         (length (Backtester.all_trades self) ≤ i)%nat →
         Backtester.all_trades r.1 !! i = Some tr →
         SessionState.breakout_candle_time r.2 = Some t →
         Trade.trade_type tr = SCALE
         ∧ Trade.entry_time tr = Candle.time candle
         ∧ (t < Trade.entry_time tr)%Z).
Proof.
  intros session gate can_enter candle self state r.
  destruct (session_candle_breakout_mark session gate can_enter candle self state)
    as [Hb Hi].
  destruct (session_candle_entries session gate can_enter candle self state)
    as (news & E1 & E2).
  fold r in Hb, Hi, E1. cbv zeta in *.
  set (armed := check_initial_breakout gate candle self state) in *.
  assert (Hlen : length (Backtester.all_trades r.1)
                 = (length (Backtester.all_trades self) + length news)%nat).
  { rewrite <- (length_fmap entry_fields), E1, length_app, length_fmap. done. }
  split.
  - intros Hfalse Htrue. rewrite Hi in Htrue.
    assert (Hm : SessionState.breakout_candle_time armed = Some (Candle.time candle)).
    { unfold armed, check_initial_breakout in *. rewrite Hfalse in *. simpl in *.
      destruct gate; [|congruence].
      destruct (Qlt_bool _ _); [done|]. destruct (Qlt_bool _ _); [done|congruence]. }
    split; [congruence|].
    destruct news as [|e news]; [simpl in Hlen; lia|].
    destruct E2 as (Hc & _); [done|].
    unfold can_check_scales in Hc. rewrite Hm in Hc.
    rewrite Z.leb_refl in Hc. done.
  - intros i tr t Hge Hl Ht.
    assert (Hn : news !! (i - length (Backtester.all_trades self))%nat
                 = Some (entry_fields tr)).
    { assert (H : (entry_fields <$> Backtester.all_trades r.1) !! i
                  = Some (entry_fields tr)) by (by rewrite list_lookup_fmap, Hl).
      rewrite E1, lookup_app_r in H by (by rewrite length_fmap).
      by rewrite length_fmap in H. }
    destruct E2 as (Hc & _ & d & _ & HF).
    { intros ->. by rewrite lookup_nil in Hn. }
    rewrite Forall_lookup in HF. destruct (HF _ _ Hn) as (idx & level & _ & He).
    unfold entry_fields, scale_entry in He.
    injection He as _ _ Htime _ _ Hty _.
    split; [done|]. split; [done|].
    unfold can_check_scales in Hc. rewrite <- Hb, Ht in Hc.
    rewrite Htime. apply negb_true_iff, Z.leb_gt in Hc. done.
Qed.

Lemma no_entry_on_breakout_candle_witness :
  (let r := session_candle MORNING true true breakout_bar
                           (example_engine, example_session) in
   SessionState.breakout_candle_time r.2 = Some (Candle.time breakout_bar)
   ∧ length (Backtester.all_trades r.1) = 0%nat)
  ∧ (let a := session_candle MORNING true true breakout_bar
                             (example_engine, example_session) in
     let r := session_candle MORNING true true pullback_bar a in
     ∀ tr, Backtester.all_trades r.1 !! 0%nat = Some tr →
           Trade.trade_type tr = SCALE
           ∧ Trade.entry_time tr = Candle.time pullback_bar
           ∧ (Candle.time breakout_bar < Trade.entry_time tr)%Z).
Proof.
  split.
  - apply (proj1 (no_entry_on_breakout_candle MORNING true true breakout_bar
                    example_engine example_session)); vm_compute; reflexivity.
  - intros a r tr Hl.
    apply (proj2 (no_entry_on_breakout_candle MORNING true true pullback_bar
                    a.1 a.2) 0%nat tr (Candle.time breakout_bar)).
    + vm_compute. lia.
    + exact Hl.
    + vm_compute. reflexivity.
Defined.

(** ** Scenario B: a pullback through the ladder *)

Lemma track_drawdown_executed candle self state :
  SessionState.executed_scales (track_drawdown candle self state)
  = SessionState.executed_scales state.
Proof. unfold track_drawdown. by destruct (SessionState.open_trades state). Qed.

Lemma example_armed_spec :
  morning_candle breakout_bar (example_engine, example_session)
  = (example_engine, example_armed)
  ∧ SessionState.breakout_direction example_armed = Some BUY
  ∧ SessionState.reversal_count example_armed = 0%nat
  ∧ SessionState.executed_scales example_armed = []
  ∧ SessionState.open_trades example_armed = []
  ∧ SessionState.scale_levels example_armed
    = calculate_scale_levels (px 110500) (px 110000) BUY false.
Proof. vm_compute. done. Qed.

(** C4, as the code has it.  In the long session armed by the 10:15 candle
    (range 1.10000 - 1.10500, ladder 1.10125, 1.10250, 1.10375, nothing
    triggered), any later candle inside the entry window whose low is 1.10100
    triggers all three levels, each of them being at or above that low: the
    candle adds exactly one scale entry per level to the store, and, unless
    it also closes below the range, the three levels are the executed ones. *)
Theorem pullback_triggers_every_reached_level :
  ∀ (c : Candle.t),
    Candle.low c = px 110100 →
    (Candle.time breakout_bar < Candle.time c)%Z →
    (Candle.time_only c ≤ MORNING_ENTRY_CUTOFF)%Z →
    let ladder := calculate_scale_levels (px 110500) (px 110000) BUY false in
    let r := morning_candle c (example_engine, example_armed) in
    Forall2 Qeq ladder [px 110125; px 110250; px 110375]
    ∧ entry_fields <$> Backtester.all_trades r.1
      = (λ il, scale_entry MORNING c BUY example_armed il.1 il.2) <$> enumerate ladder
    ∧ (px 110000 <= Candle.close c → SessionState.executed_scales r.2 = ladder).
Proof.
  intros [t o h l cl]. simpl Candle.low. simpl Candle.time at 2. intros -> Ht Hw.
  intros ladder r. split; [by repeat constructor|].
  set (c := Candle.mk t o h (px 110100) cl) in *.
  subst r. unfold morning_candle.
  apply Z.leb_le in Hw. rewrite Hw. unfold session_candle.
  assert (Hi : check_initial_breakout true c example_engine example_armed
               = example_armed) by reflexivity.
  rewrite Hi.
  change (SessionState.breakout_direction example_armed) with (Some BUY).
  change (check_take_profit c example_engine example_armed)
    with (example_engine, example_armed).
  cbv iota beta. unfold check_scaling.
  assert (Hc : can_check_scales c example_armed = true).
  { unfold can_check_scales.
    change (SessionState.breakout_candle_time example_armed)
      with (Some (Candle.time breakout_bar)).
    apply negb_true_iff, Z.leb_gt. exact Ht. }
  rewrite Hc.
  set (scaled := fold_left _ _ _).
  assert (Hs : entry_fields <$> Backtester.all_trades scaled.1
               = (λ il, scale_entry MORNING c BUY example_armed il.1 il.2)
                   <$> enumerate ladder
               ∧ SessionState.executed_scales scaled.2 = ladder)
    by (vm_compute; done).
  assert (Hlow : num (SessionState.range_low scaled.2) = px 110000)
    by (vm_compute; done).
  destruct Hs as [Hs1 Hs2]. clearbody scaled.
  destruct scaled as [self2 state2]. simpl in Hs1, Hs2, Hlow.
  destruct (reversal_direction c BUY state2) as [new_direction|] eqn:Hr.
  - split; [by rewrite handle_reversal_entries|].
    intros Hcl. exfalso. unfold reversal_direction in Hr.
    rewrite Hlow in Hr. destruct (Qlt_bool _ _) eqn:E; [|done].
    apply Qlt_bool_iff in E. simpl in E. by apply (Qlt_not_le _ _ E).
  - simpl. split; [done|]. intros _. by rewrite track_drawdown_executed.
Qed.

Lemma pullback_triggers_every_reached_level_witness :
  let ladder := calculate_scale_levels (px 110500) (px 110000) BUY false in
  let r := morning_candle pullback_bar (example_engine, example_armed) in
  Forall2 Qeq ladder [px 110125; px 110250; px 110375]
  ∧ entry_fields <$> Backtester.all_trades r.1
    = (λ il, scale_entry MORNING pullback_bar BUY example_armed il.1 il.2)
        <$> enumerate ladder
  ∧ SessionState.executed_scales r.2 = ladder.
Proof.
  intros ladder r.
  destruct (pullback_triggers_every_reached_level pullback_bar)
    as (H1 & H2 & H3); [reflexivity|vm_compute; reflexivity|vm_compute; discriminate|].
  split; [exact H1|]. split; [exact H2|]. apply H3. vm_compute. discriminate.
Defined.

(** The claim of scenario B as written (only 1.10125 triggers) fails on the
    10:20 candle of the example day, whose low is 1.10100. *)
Lemma pullback_triggers_one_level_counterexample :
  let r := morning_candle pullback_bar (example_engine, example_armed) in
  Candle.low pullback_bar = px 110100
  ∧ length (Backtester.all_trades r.1) = 3%nat
  ∧ Forall2 Qeq (SessionState.executed_scales r.2) [px 110125; px 110250; px 110375]
  ∧ ¬ Forall2 Qeq (SessionState.executed_scales r.2) [px 110125].
Proof.
  vm_compute. split; [done|]. split; [done|]. split.
  - repeat constructor.
  - intros H. inversion H as [|? ? ? ? _ H']. inversion H'.
Qed.

(** ** The size schedule of scale entries *)

(** A trade that a candle adds to the store is the scale entry of some level
    of the ladder the session had when the candle arrived. *)
Lemma session_candle_opened session gate can_enter candle self state i tr :
  let r := session_candle session gate can_enter candle (self, state) in
  (length (Backtester.all_trades self) ≤ i)%nat →
  Backtester.all_trades r.1 !! i = Some tr →
  can_enter = true
  ∧ ∃ direction idx level,
      SessionState.breakout_direction state = Some direction
      ∧ SessionState.scale_levels state !! idx = Some level
      ∧ entry_fields tr = scale_entry session candle direction state idx level.
Proof.
  intros r Hge Hl.
  destruct (session_candle_entries session gate can_enter candle self state)
    as (news & E1 & E2).
  fold r in E1. cbv zeta in E2.
  assert (Hn : news !! (i - length (Backtester.all_trades self))%nat
               = Some (entry_fields tr)).
  { assert (H : (entry_fields <$> Backtester.all_trades r.1) !! i
                = Some (entry_fields tr)) by (by rewrite list_lookup_fmap, Hl).
    rewrite E1, lookup_app_r in H by (by rewrite length_fmap).
    by rewrite length_fmap in H. }
  destruct E2 as (Hc & He & d & Hd & HF).
  { intros ->. by rewrite lookup_nil in Hn. }
  assert (Hsame : check_initial_breakout gate candle self state = state).
  { unfold check_initial_breakout in *.
    destruct (negb _ && gate); [|done].
    destruct (Qlt_bool _ _).
    { unfold can_check_scales in Hc. simpl in Hc. by rewrite Z.leb_refl in Hc. }
    destruct (Qlt_bool _ _); [|done].
    unfold can_check_scales in Hc. simpl in Hc. by rewrite Z.leb_refl in Hc. }
  rewrite Hsame in *. split; [done|].
  rewrite Forall_lookup in HF. destruct (HF _ _ Hn) as (idx & level & Hlv & He').
  by exists d, idx, level.
Qed.

(** C5.  Every trade a candle opens is a scale entry at a level of the
    session's ladder, sized [LOT_SIZE * (4 - index)] by the position of the
    level in the ladder before any reversal and [LOT_SIZE * 4] after one.
    The initial ladder lists its three levels from the deepest pullback to
    the shallowest: for a long session from the lowest price (a quarter of
    the range above the range low, the 25% retracement of the specification; the
    source counts it as 75% from the broken high) up to the highest, for a
    short session the mirror image.  So the deepest level gets 4x, the
    largest size, the middle level 3x and the shallowest 2x, the smallest.
    The reversal ladder is the single middle level, at the fixed size 4x:
    larger than the lot size and than the 3x that level gets on the initial
    ladder. *)
Theorem scale_size_schedule :
  (∀ (session : SessionType) (gate can_enter : bool) (candle : Candle.t)
     (self : Backtester.t) (state : SessionState.t) (i : nat) (tr : Trade.t),
     let r := session_candle session gate can_enter candle (self, state) in
     (length (Backtester.all_trades self) ≤ i)%nat →
     Backtester.all_trades r.1 !! i = Some tr →
     Trade.trade_type tr = SCALE
     ∧ ∃ idx,
         SessionState.scale_levels state !! idx = Some (Trade.entry_price tr)
         ∧ Trade.lot_size tr
           = if (1 <=? SessionState.reversal_count state)%nat then LOT_SIZE * 4
             else LOT_SIZE * (4 - inject_Z (Z.of_nat idx)))
  ∧ (∀ rh rl : Q,
       calculate_scale_levels rh rl BUY false
       = [rh - (75 # 100) * (rh - rl); rh - (50 # 100) * (rh - rl);
          rh - (25 # 100) * (rh - rl)]
       ∧ calculate_scale_levels rh rl SELL false
         = [rl + (75 # 100) * (rh - rl); rl + (50 # 100) * (rh - rl);
            rl + (25 # 100) * (rh - rl)]
       ∧ calculate_scale_levels rh rl BUY true = [rh - (50 # 100) * (rh - rl)]
       ∧ calculate_scale_levels rh rl SELL true = [rl + (50 # 100) * (rh - rl)])
  ∧ (∀ rh rl : Q,
       rl < rh →
       (rl < rh - (75 # 100) * (rh - rl)
        ∧ rh - (75 # 100) * (rh - rl) < rh - (50 # 100) * (rh - rl)
        ∧ rh - (50 # 100) * (rh - rl) < rh - (25 # 100) * (rh - rl)
        ∧ rh - (25 # 100) * (rh - rl) < rh)
       ∧ (rl < rl + (25 # 100) * (rh - rl)
          ∧ rl + (25 # 100) * (rh - rl) < rl + (50 # 100) * (rh - rl)
          ∧ rl + (50 # 100) * (rh - rl) < rl + (75 # 100) * (rh - rl)
          ∧ rl + (75 # 100) * (rh - rl) < rh))
  ∧ (LOT_SIZE * (4 - inject_Z (Z.of_nat 0)) == 4 * LOT_SIZE
     ∧ LOT_SIZE * (4 - inject_Z (Z.of_nat 1)) == 3 * LOT_SIZE
     ∧ LOT_SIZE * (4 - inject_Z (Z.of_nat 2)) == 2 * LOT_SIZE
     ∧ LOT_SIZE * (4 - inject_Z (Z.of_nat 2)) < LOT_SIZE * (4 - inject_Z (Z.of_nat 1))
     ∧ LOT_SIZE * (4 - inject_Z (Z.of_nat 1)) < LOT_SIZE * (4 - inject_Z (Z.of_nat 0)))
  ∧ (LOT_SIZE * 4 == 4 * LOT_SIZE
     ∧ LOT_SIZE < LOT_SIZE * 4
     ∧ LOT_SIZE * (4 - inject_Z (Z.of_nat 1)) < LOT_SIZE * 4).
Proof.
  split; [|split; [|split; [|split]]].
  - intros session gate can_enter candle self state i tr r Hge Hl.
    destruct (session_candle_opened session gate can_enter candle self state i tr
                Hge Hl) as (_ & d & idx & level & _ & Hlv & He).
    unfold entry_fields, scale_entry, scale_lot_size in He.
    injection He as _ Hp _ Hlot _ Hty _.
    split; [done|]. exists idx. by rewrite Hp, Hlot.
  - intros rh rl. done.
  - intros rh rl H. repeat split; lra.
  - vm_compute. done.
  - vm_compute. done.
Qed.

Lemma scale_size_schedule_witness :
  let r := morning_candle pullback_bar (example_engine, example_armed) in
  (∃ tr, Backtester.all_trades r.1 !! 0%nat = Some tr
         ∧ Trade.trade_type tr = SCALE
         ∧ ∃ idx,
             SessionState.scale_levels example_armed !! idx
             = Some (Trade.entry_price tr)
             ∧ Trade.lot_size tr = LOT_SIZE * (4 - inject_Z (Z.of_nat idx)))
  ∧ px 110000 < px 110500 - (75 # 100) * (px 110500 - px 110000)
  ∧ px 110500 - (75 # 100) * (px 110500 - px 110000)
    < px 110500 - (50 # 100) * (px 110500 - px 110000).
Proof.
  intros r. split.
  - destruct (Backtester.all_trades r.1 !! 0%nat) as [tr|] eqn:Hl;
      [|vm_compute in Hl; discriminate].
    exists tr. split; [reflexivity|].
    apply (proj1 scale_size_schedule MORNING true true pullback_bar
             example_engine example_armed 0%nat tr).
    + vm_compute. lia.
    + exact Hl.
  - destruct (proj1 (proj1 (proj2 (proj2 scale_size_schedule))
                       (px 110500) (px 110000) eq_refl)) as (H1 & H2 & _).
    split; [exact H1|exact H2].
Defined.

(** ** The first reversal *)

Lemma tp_fold_no_hit candle tp l self live :
  (∀ i tr, i ∈ l → Backtester.all_trades self !! i = Some tr →
           check_tp_hit tr candle = false) →
  fold_left (tp_iter candle tp) l (self, live, false) = (self, live, false).
Proof.
  induction l as [|x l IH]; intros H; simpl; [done|].
  destruct (Backtester.all_trades self !! x) as [tr|] eqn:Hl.
  - rewrite (H x tr); [|by left|done]. apply IH. intros i tr' Hi. apply H. by right.
  - apply IH. intros i tr' Hi. apply H. by right.
Qed.

Lemma check_take_profit_no_hit candle self state :
  (∀ i tr, i ∈ SessionState.open_trades state →
           Backtester.all_trades self !! i = Some tr →
           check_tp_hit tr candle = false) →
  (check_take_profit candle self state).1 = self
  ∧ SessionState.open_trades (check_take_profit candle self state).2
    = SessionState.open_trades state.
Proof.
  intros H. unfold check_take_profit.
  destruct (SessionState.open_trades state) as [|x o] eqn:Ho; [done|].
  by rewrite tp_fold_no_hit.
Qed.

Lemma scale_fold_shape session can_enter candle direction entries self state :
  let r := fold_left (scale_iter session can_enter candle direction) entries
                     (self, state) in
  ∃ news : list Trade.t,
    Backtester.all_trades r.1 = Backtester.all_trades self ++ news
    ∧ Backtester.closed_trades r.1 = Backtester.closed_trades self
    ∧ SessionState.open_trades r.2
      = SessionState.open_trades state
          ++ seq (length (Backtester.all_trades self)) (length news).
Proof.
  revert self state.
  induction entries as [|[idx level] entries IH]; intros self state; simpl.
  { exists []. by rewrite !app_nil_r. }
  destruct (existsb _ _); [apply IH|].
  destruct (level_triggered _ _ _); [|apply IH].
  destruct can_enter; simpl; [|apply IH].
  destruct (IH (open_trade self direction level (Candle.time candle)
                  (num (SessionState.tp_price state)) SCALE session
                  (Some (scale_lot_size state idx))).1
               (SessionState.record_scale state (length (Backtester.all_trades self)) level))
    as (news & H1 & H2 & H3).
  exists (Trade.init direction level (Candle.time candle) (scale_lot_size state idx)
            (num (SessionState.tp_price state)) SCALE session :: news).
  split; [|split].
  - etransitivity; [exact H1|]. simpl. by rewrite <- app_assoc.
  - exact H2.
  - etransitivity; [exact H3|]. simpl. rewrite length_app. simpl.
    rewrite <- app_assoc. simpl. by rewrite Nat.add_1_r.
Qed.

Lemma check_scaling_shape session can_enter candle direction self state :
  let r := check_scaling session can_enter candle direction self state in
  ∃ news : list Trade.t,
    Backtester.all_trades r.1 = Backtester.all_trades self ++ news
    ∧ Backtester.closed_trades r.1 = Backtester.closed_trades self
    ∧ SessionState.open_trades r.2
      = SessionState.open_trades state
          ++ seq (length (Backtester.all_trades self)) (length news).
Proof.
  unfold check_scaling. destruct (can_check_scales candle state).
  - apply scale_fold_shape.
  - exists []. simpl. by rewrite !app_nil_r.
Qed.

Lemma scale_fold_all_executed session can_enter candle direction entries self state :
  (∀ il, il ∈ entries →
         existsb (Qeq_bool il.2) (SessionState.executed_scales state) = true) →
  fold_left (scale_iter session can_enter candle direction) entries (self, state)
  = (self, state).
Proof.
  induction entries as [|[idx level] entries IH]; intros H; simpl; [done|].
  pose proof (H (idx, level)) as Hx. simpl in Hx. rewrite Hx by (by left).
  apply IH. intros il Hil. apply H. by right.
Qed.

Lemma close_trade_other self ref p t r i :
  i ≠ ref →
  Backtester.all_trades (close_trade self ref p t r) !! i
  = Backtester.all_trades self !! i.
Proof.
  intros Hne. unfold close_trade. destruct (_ !! ref); [|done]. simpl.
  by rewrite list_lookup_insert_ne.
Qed.

Lemma close_each_other self l p t r i :
  i ∉ l →
  Backtester.all_trades (close_each self l p t r) !! i
  = Backtester.all_trades self !! i.
Proof.
  unfold close_each. revert self.
  induction l as [|x l IH]; intros self Hi; simpl; [done|].
  apply not_elem_of_cons in Hi as [Hne Hi].
  rewrite IH by done. by apply close_trade_other.
Qed.

Lemma close_each_point self l p t r :
  Backtester.point (close_each self l p t r) = Backtester.point self.
Proof.
  pose proof (close_each_fields self l p t r) as H. unfold engine_fields in H.
  by injection H as -> _ _ _ _ _.
Qed.

(** Closing a list of distinct references: they are appended to
    [closed_trades] in order and each trade object gets its exit fields. *)
Lemma close_each_spec self l p t r :
  Base self l →
  Backtester.closed_trades (close_each self l p t r)
  = Backtester.closed_trades self ++ l
  ∧ ∀ i, i ∈ l →
      Backtester.all_trades (close_each self l p t r) !! i
      = (λ tr, Trade.close tr p t r (Backtester.point self))
          <$> (Backtester.all_trades self !! i).
Proof.
  revert self. induction l as [|x l IH]; intros self HB.
  { split; [by rewrite app_nil_r|]. intros i Hi. by apply elem_of_nil in Hi. }
  pose proof (Base_close self (x :: l) x p t r HB) as HB'.
  rewrite list_remove_head in HB'.
  destruct HB as [Hnd Hlt]. apply NoDup_cons in Hnd as [Hx Hnd].
  destruct (IH _ HB') as [IH1 IH2].
  assert (Hxl : (x < length (Backtester.all_trades self))%nat)
    by (apply Hlt; by left).
  destruct (lookup_lt_is_Some_2 _ _ Hxl) as [tr Htr].
  change (close_each self (x :: l) p t r)
    with (close_each (close_trade self x p t r) l p t r).
  split.
  - rewrite IH1. unfold close_trade. rewrite Htr. simpl. by rewrite <- app_assoc.
  - intros i Hi. apply elem_of_cons in Hi as [->|Hi].
    + rewrite close_each_other by done. unfold close_trade. rewrite Htr. simpl.
      by rewrite list_lookup_insert_eq.
    + rewrite IH2 by done.
      assert (Hne : i ≠ x) by (by intros ->).
      rewrite close_trade_other by done.
      unfold close_trade at 1. rewrite Htr. done.
Qed.

Lemma True_stable : Stable (λ _ _, True).
Proof. intros allowed sess. by split. Qed.

Lemma handle_reversal_first candle new_direction self state :
  SessionState.reversal_count state = 0%nat →
  let r := handle_reversal true candle new_direction self state in
  r.1 = close_each self (SessionState.open_trades state) (Candle.close candle)
                   (Candle.time candle) REVERSAL
  ∧ SessionState.reversal_count r.2 = 1%nat
  ∧ SessionState.breakout_direction r.2 = Some new_direction
  ∧ SessionState.breakout_price r.2 = Some (Candle.close candle)
  ∧ SessionState.tp_price r.2
    = Some (calculate_tp self (Candle.close candle) new_direction)
  ∧ SessionState.scale_levels r.2
    = calculate_scale_levels (num (SessionState.range_high state))
        (num (SessionState.range_low state)) new_direction true
  ∧ SessionState.executed_scales r.2 = []
  ∧ SessionState.open_trades r.2 = [].
Proof.
  intros Hc. unfold handle_reversal.
  destruct (SessionState.open_trades state) as [|x o] eqn:Ho;
    cbn -[close_each calculate_scale_levels]; rewrite Hc;
    cbn -[close_each calculate_scale_levels]; rewrite ?Hc; repeat split; try done.
  - by rewrite Ho.
  - unfold calculate_tp. by rewrite close_each_point.
Qed.

Lemma scale_levels_bounds (rh rl : Q) (d : Direction) (b : bool) (level : Q) :
  rl <= rh → level ∈ calculate_scale_levels rh rl d b → rl <= level ∧ level <= rh.
Proof.
  intros Hle Hin.
  destruct d, b; simpl in Hin;
    repeat (apply elem_of_cons in Hin as [->|Hin]; [split; lra|]);
    by apply elem_of_nil in Hin.
Qed.

Lemma scale_fold_sweep session candle direction entries self state :
  (∀ il, il ∈ entries → level_triggered candle direction il.2 = true) →
  entry_fields
    <$> Backtester.all_trades
          (fold_left (scale_iter session true candle direction) entries
                     (self, state)).1
  = (entry_fields <$> Backtester.all_trades self)
      ++ ((λ il, scale_entry session candle direction state il.1 il.2)
            <$> pending (SessionState.executed_scales state) entries)
  ∧ SessionState.executed_scales
      (fold_left (scale_iter session true candle direction) entries
                 (self, state)).2
    = SessionState.executed_scales state
        ++ (snd <$> pending (SessionState.executed_scales state) entries).
Proof.
  revert self state.
  induction entries as [|[idx level] entries IH]; intros self state Hall;
    cbn [fold_left pending].
  { simpl. by rewrite !app_nil_r. }
  assert (Hrest : ∀ il, il ∈ entries → level_triggered candle direction il.2 = true)
    by (intros il Hil; apply Hall; by right).
  unfold scale_iter at 2 4.
  destruct (existsb (Qeq_bool level) (SessionState.executed_scales state));
    [by apply IH|].
  assert (Ht : level_triggered candle direction level = true)
    by (apply (Hall (idx, level)); by left).
  rewrite Ht. cbn [negb].
  destruct (IH (open_trade self direction level (Candle.time candle)
                  (num (SessionState.tp_price state)) SCALE session
                  (Some (scale_lot_size state idx))).1
               (SessionState.record_scale state
                  (length (Backtester.all_trades self)) level) Hrest)
    as [H1 H2].
  split.
  - etransitivity; [exact H1|]. simpl. rewrite fmap_app, <- app_assoc. done.
  - etransitivity; [exact H2|]. simpl. by rewrite <- app_assoc.
Qed.

(** C6, as the code has it.  A session armed long on an earlier candle, on
    its initial ladder and with no reversal so far, processes inside the
    entry window a candle that closes below the range and on which no open
    trade reaches its take-profit.  The scale ladder is checked first: the
    close being below every level, each level that is not yet executed opens
    a scale entry on the candle.  Then every trade of the session, those
    already open and those just opened, is closed at the close price with
    reason REVERSAL; the count becomes 1, the direction SELL, the take-profit
    is recomputed from the close, the ladder is the single middle level of
    the short side, the executed levels are cleared and no trade is left
    open.  No trade is opened on the candle when every level of the ladder
    had already been executed. *)
Theorem first_reversal :
  ∀ (session : SessionType) (gate : bool) (candle : Candle.t)
    (self : Backtester.t) (state : SessionState.t) (rh rl : Q) (armed_at : Z),
    Base self (SessionState.open_trades state) →
    SessionState.initial_breakout_done state = true →
    SessionState.breakout_direction state = Some BUY →
    SessionState.breakout_candle_time state = Some armed_at →
    (armed_at < Candle.time candle)%Z →
    SessionState.reversal_count state = 0%nat →
    SessionState.range_high state = Some rh →
    SessionState.range_low state = Some rl →
    rl <= rh →
    SessionState.scale_levels state = calculate_scale_levels rh rl BUY false →
    Candle.low candle <= Candle.close candle →
    Candle.close candle < rl →
    (∀ i tr, i ∈ SessionState.open_trades state →
             Backtester.all_trades self !! i = Some tr →
             check_tp_hit tr candle = false) →
    let r := session_candle session gate true candle (self, state) in
    (SessionState.reversal_count r.2 = 1%nat
     ∧ SessionState.breakout_direction r.2 = Some SELL
     ∧ SessionState.breakout_price r.2 = Some (Candle.close candle)
     ∧ SessionState.tp_price r.2
       = Some (Candle.close candle - TP_UNITS * Backtester.point self)
     ∧ SessionState.scale_levels r.2 = [rl + (50 # 100) * (rh - rl)]
     ∧ SessionState.executed_scales r.2 = []
     ∧ SessionState.open_trades r.2 = [])
    ∧ entry_fields <$> Backtester.all_trades r.1
      = (entry_fields <$> Backtester.all_trades self)
          ++ ((λ il, scale_entry session candle BUY state il.1 il.2)
                <$> pending (SessionState.executed_scales state)
                            (enumerate (SessionState.scale_levels state)))
    ∧ (∀ i,
         i ∈ SessionState.open_trades state
         ∨ (length (Backtester.all_trades self) ≤ i
            < length (Backtester.all_trades r.1))%nat →
         i ∈ Backtester.closed_trades r.1
         ∧ ∃ tr, Backtester.all_trades r.1 !! i = Some tr
                 ∧ Trade.exit_reason tr = Some REVERSAL
                 ∧ Trade.exit_price tr = Some (Candle.close candle)
                 ∧ Trade.exit_time tr = Some (Candle.time candle))
    ∧ ((∀ level, level ∈ SessionState.scale_levels state →
                 existsb (Qeq_bool level) (SessionState.executed_scales state) = true) →
       length (Backtester.all_trades r.1) = length (Backtester.all_trades self)).
Proof.
  intros session gate candle self state rh rl armed_at HB Hibd Hdir Hat Hafter Hcnt
    Hrh Hrl Hrange Hladder Hlow Hclose Hnohit r.
  subst r. unfold session_candle.
  assert (Hi : check_initial_breakout gate candle self state = state)
    by (unfold check_initial_breakout; by rewrite Hibd).
  rewrite Hi, Hdir.
  destruct (check_take_profit_no_hit candle self state Hnohit) as [E1 E2].
  destruct (check_take_profit_control candle self state) as [C1 X1].
  destruct (check_take_profit candle self state) as [self1 state1].
  simpl in E1, E2, C1, X1. subst self1.
  assert (HB1 : Base self (SessionState.open_trades state1)) by (by rewrite E2).
  assert (Hlv1 : SessionState.scale_levels state1 = SessionState.scale_levels state).
  { unfold control_fields in C1. by injection C1 as _ _ _ _ _ _ _ C1 _ _. }
  assert (Hse : ∀ idx level, scale_entry session candle BUY state1 idx level
                             = scale_entry session candle BUY state idx level).
  { intros idx level. unfold scale_entry, scale_lot_size.
    unfold control_fields in C1. injection C1 as _ _ _ _ _ Htp Hc _ _ _.
    by rewrite Htp, Hc. }
  assert (Hnone :
    (∀ level, level ∈ SessionState.scale_levels state →
              existsb (Qeq_bool level) (SessionState.executed_scales state) = true) →
    check_scaling session true candle BUY self state1 = (self, state1)).
  { intros Hall. unfold check_scaling. destruct (can_check_scales _ _); [|done].
    apply scale_fold_all_executed. intros [idx level] Hil. simpl. rewrite X1.
    apply Hall. apply enumerate_lookup in Hil.
    rewrite <- Hlv1. by apply list_elem_of_lookup_2 in Hil. }
  assert (Hsweep :
    entry_fields <$> Backtester.all_trades
                       (check_scaling session true candle BUY self state1).1
    = (entry_fields <$> Backtester.all_trades self)
        ++ ((λ il, scale_entry session candle BUY state il.1 il.2)
              <$> pending (SessionState.executed_scales state)
                          (enumerate (SessionState.scale_levels state)))).
  { unfold check_scaling.
    assert (Hcan : can_check_scales candle state1 = true).
    { unfold can_check_scales. unfold control_fields in C1.
      injection C1 as _ _ _ _ _ _ _ _ _ Hbt. rewrite Hbt, Hat.
      apply negb_true_iff, Z.leb_gt. exact Hafter. }
    rewrite Hcan.
    destruct (scale_fold_sweep session candle BUY
                (enumerate (SessionState.scale_levels state1)) self state1) as [H1 _].
    { intros [idx level] Hil. apply enumerate_lookup in Hil.
      apply list_elem_of_lookup_2 in Hil. rewrite Hlv1, Hladder in Hil.
      apply scale_levels_bounds in Hil as [Hge _]; [|done].
      simpl. apply Qle_bool_iff. lra. }
    rewrite H1, X1, Hlv1. f_equal. apply list_fmap_ext. intros j il _. apply Hse. }
  destruct (check_scaling_shape session true candle BUY self state1)
    as (news & S1 & S2 & S3).
  pose proof (check_scaling_control session true candle BUY self state1) as C2.
  pose proof (check_scaling_fields session true candle BUY self state1) as F2.
  destruct (check_scaling_good _ _ _ (True_stable (λ _, True) session) true candle
              BUY self state1 (conj HB1 I)) as [HB2 _].
  destruct (check_scaling session true candle BUY self state1) as [self2 state2].
  simpl in S1, S2, S3, C2, F2, HB2, Hnone, Hsweep.
  rewrite C1 in C2. unfold control_fields in C2.
  injection C2 as _ Hrh2 Hrl2 _ _ _ Hcnt2 _ _ _.
  assert (Hpt : Backtester.point self2 = Backtester.point self).
  { unfold engine_fields in F2. by injection F2 as -> _ _ _ _ _. }
  assert (Hrev : reversal_direction candle BUY state2 = Some SELL).
  { unfold reversal_direction. rewrite Hrl2, Hrl. simpl.
    apply Qlt_bool_iff in Hclose. by rewrite Hclose. }
  rewrite Hrev.
  pose proof (handle_reversal_entries true candle SELL self2 state2) as Hent.
  destruct (handle_reversal_first candle SELL self2 state2)
    as (R1 & R2 & R3 & R4 & R5 & R6 & R7 & R8); [congruence|].
  destruct (handle_reversal true candle SELL self2 state2) as [self3 state3].
  simpl in R1, R2, R3, R4, R5, R6, R7, R8, Hent |- *.
  destruct (close_each_spec self2 (SessionState.open_trades state2)
              (Candle.close candle) (Candle.time candle) REVERSAL HB2) as [K1 K2].
  rewrite <- R1 in K1, K2.
  assert (Hlen3 : length (Backtester.all_trades self3)
                  = (length (Backtester.all_trades self) + length news)%nat).
  { rewrite R1, close_each_length, S1, length_app. done. }
  split; [|split; [|split]].
  - repeat split; try done.
    + rewrite R5. unfold calculate_tp. by rewrite Hpt.
    + rewrite R6, Hrh2, Hrl2, Hrh, Hrl. done.
  - by rewrite Hent.
  - intros i Hi'.
    assert (Hin : i ∈ SessionState.open_trades state2).
    { rewrite S3, E2. apply elem_of_app. destruct Hi' as [Hi'|Hi']; [by left|].
      right. apply elem_of_seq. lia. }
    split; [rewrite K1; apply elem_of_app; by right|].
    rewrite (K2 i Hin).
    destruct HB2 as [_ Hlt]. apply Hlt in Hin.
    destruct (lookup_lt_is_Some_2 _ _ Hin) as [tr0 Htr0]. rewrite Htr0. simpl.
    eexists. split; [reflexivity|]. done.
  - intros Hall. rewrite Hlen3. specialize (Hnone Hall).
    injection Hnone as Hs _. rewrite Hs in S1.
    rewrite <- (app_nil_r (Backtester.all_trades self)) in S1 at 1.
    apply app_inv_head in S1. subst news. simpl. lia.
Qed.

Lemma first_reversal_witness :
  let r := session_candle MORNING true true reversal_bar example_scaled in
  (SessionState.reversal_count r.2 = 1%nat
   ∧ SessionState.breakout_direction r.2 = Some SELL
   ∧ SessionState.breakout_price r.2 = Some (px 109900)
   ∧ SessionState.tp_price r.2 = Some (px 109900 - TP_UNITS * px 1)
   ∧ SessionState.scale_levels r.2 = [px 110000 + (50 # 100) * (px 110500 - px 110000)]
   ∧ SessionState.executed_scales r.2 = []
   ∧ SessionState.open_trades r.2 = [])
  ∧ (entry_fields <$> Backtester.all_trades r.1
     = (entry_fields <$> Backtester.all_trades example_scaled.1)
         ++ ((λ il, scale_entry MORNING reversal_bar BUY example_scaled.2 il.1 il.2)
               <$> pending (SessionState.executed_scales example_scaled.2)
                           (enumerate (SessionState.scale_levels example_scaled.2)))
     ∧ length (pending (SessionState.executed_scales example_scaled.2)
                       (enumerate (SessionState.scale_levels example_scaled.2)))
       = 2%nat)
  ∧ (0%nat ∈ Backtester.closed_trades r.1
     ∧ ∃ tr, Backtester.all_trades r.1 !! 0%nat = Some tr
             ∧ Trade.exit_reason tr = Some REVERSAL
             ∧ Trade.exit_price tr = Some (px 109900)
             ∧ Trade.exit_time tr = Some (Candle.time reversal_bar)).
Proof.
  intros r.
  assert (HB : Base example_scaled.1 (SessionState.open_trades example_scaled.2)).
  { split.
    - apply (NoDup_singleton 0%nat).
    - intros i Hi. apply list_elem_of_singleton in Hi. subst i. vm_compute. lia. }
  assert (Hnohit : ∀ i tr, i ∈ SessionState.open_trades example_scaled.2 →
                           Backtester.all_trades example_scaled.1 !! i = Some tr →
                           check_tp_hit tr reversal_bar = false).
  { intros i tr Hi Hl. apply list_elem_of_singleton in Hi. subst i.
    vm_compute in Hl. injection Hl as <-. vm_compute. reflexivity. }
  assert (Hrange : px 110000 <= px 110500) by (vm_compute; discriminate).
  assert (Hlow : Candle.low reversal_bar <= Candle.close reversal_bar)
    by (vm_compute; discriminate).
  destruct (first_reversal MORNING true reversal_bar example_scaled.1 example_scaled.2
              (px 110500) (px 110000) (Candle.time breakout_bar)
              HB eq_refl eq_refl eq_refl eq_refl eq_refl eq_refl eq_refl Hrange
              eq_refl Hlow eq_refl Hnohit) as (H1 & Hsw & H2 & _).
  split; [exact H1|]. split.
  - split; [exact Hsw|reflexivity].
  - apply H2. left. apply list_elem_of_singleton. reflexivity.
Defined.

(** The claim of scenario C as written fails in two ways.  On the example
    day with the shallow pullback, one scale trade is open and two levels are
    untriggered when the 10:25 candle closes below the range: the candle
    opens two trades (closed at once by the reversal).  And when the candle
    spikes through the take-profit before closing below the range, the open
    trade is closed at the take-profit with reason TP, not REVERSAL. *)
Lemma reversal_opens_no_trade_counterexample :
  SessionState.breakout_direction example_scaled.2 = Some BUY
  ∧ SessionState.reversal_count example_scaled.2 = 0%nat
  ∧ SessionState.open_trades example_scaled.2 = [0%nat]
  ∧ Candle.close reversal_bar < px 110000
  ∧ length (Backtester.all_trades example_scaled.1) = 1%nat
  ∧ (let r := morning_candle reversal_bar example_scaled in
     SessionState.reversal_count r.2 = 1%nat
     ∧ length (Backtester.all_trades r.1) = 3%nat)
  ∧ (let r := morning_candle spike_bar example_scaled in
     SessionState.reversal_count r.2 = 1%nat
     ∧ Trade.exit_reason <$> (Backtester.all_trades r.1 !! 0%nat) = Some (Some TP)).
Proof. vm_compute. repeat split; done. Qed.

(** ** Trades left open by the morning session *)

Lemma Unclosed_stable : Stable Unclosed.
Proof.
  intros allowed sess. split.
  - intros a b o (Ht & Hc & _ & _) [H1 H2]. unfold Unclosed.
    rewrite <- Ht, <- Hc. done.
  - intros self o ref p t r _ [Hnd Hlt] [H1 H2] Hin.
    unfold close_trade.
    destruct (Backtester.all_trades self !! ref) as [tr|] eqn:Hl.
    2:{ apply lookup_ge_None in Hl. apply Hlt in Hin. lia. }
    unfold Unclosed. simpl. split.
    + intros i Hi.
      assert (Hne : i ≠ ref).
      { intros ->. by apply (list_remove_not_elem_of ref o). }
      apply list_remove_elem_of in Hi. destruct (H1 i Hi) as [Hc Htr]. split.
      * intros Hc'. apply elem_of_app in Hc' as [Hc'|Hc']; [done|].
        by apply list_elem_of_singleton in Hc'.
      * by rewrite list_lookup_insert_ne.
    + intros j Hj. rewrite length_insert. apply elem_of_app in Hj as [Hj|Hj].
      * by apply H2.
      * apply list_elem_of_singleton in Hj. subst j. by apply Hlt.
  - intros self o d p t tp ty l [Hnd Hlt] [H1 H2]. unfold Unclosed. simpl. split.
    + intros i Hi. apply elem_of_app in Hi as [Hi|Hi].
      * destruct (H1 i Hi) as [Hc Htr]. split; [done|].
        rewrite lookup_app_l by (by apply Hlt). done.
      * apply list_elem_of_singleton in Hi. subst i. split.
        -- intros Hc. apply H2 in Hc. lia.
        -- rewrite lookup_app_r by done. rewrite Nat.sub_diag. simpl. eauto.
    + intros j Hj. rewrite length_app. apply H2 in Hj. lia.
  - intros self o [H1 H2]. split; [|done]. intros i Hi. by apply elem_of_nil in Hi.
Qed.

Lemma Dormant_stable i tr : Stable (Dormant i tr).
Proof.
  intros allowed sess. split.
  - intros a b o (Ht & Hc & _ & _) H. unfold Dormant. by rewrite <- Ht, <- Hc.
  - intros self o ref p t r _ _ (H1 & H2 & H3) Hin.
    assert (Hne : i ≠ ref) by (by intros ->).
    unfold Dormant. split; [|split].
    + by rewrite close_trade_other.
    + unfold close_trade. destruct (_ !! ref); [|done]. simpl.
      intros Hc. apply elem_of_app in Hc as [Hc|Hc]; [done|].
      by apply list_elem_of_singleton in Hc.
    + intros Hi. by apply list_remove_elem_of in Hi.
  - intros self o d p t tp ty l _ (H1 & H2 & H3). unfold Dormant. simpl.
    split; [|split; [done|]].
    + rewrite lookup_app_l; [done|]. by apply lookup_lt_Some in H1.
    + intros Hi. apply elem_of_app in Hi as [Hi|Hi]; [done|].
      apply list_elem_of_singleton in Hi. apply lookup_lt_Some in H1. lia.
  - intros self o (H1 & H2 & H3). split; [done|]. split; [done|].
    apply not_elem_of_nil.
Qed.

Lemma Tagged_stable allowed sess :
  (allowed SESSION_END → sess = AFTERNOON) →
  StableUnder allowed sess (Tagged sess).
Proof.
  intros Hend. split.
  - intros a b o (Ht & _ & _ & _) H. unfold Tagged, EndTagged. by rewrite <- Ht.
  - intros self o ref p t r Hr [Hnd Hlt] [H1 H2] Hin.
    unfold close_trade.
    destruct (Backtester.all_trades self !! ref) as [tr0|] eqn:Hl.
    2:{ apply lookup_ge_None in Hl. apply Hlt in Hin. lia. }
    unfold Tagged, EndTagged. simpl. split.
    + intros i Hi. apply list_remove_elem_of in Hi.
      destruct (H1 i Hi) as (tr & Htr & Hs).
      destruct (decide (i = ref)) as [->|Hne].
      * rewrite list_lookup_insert_eq by (by apply Hlt). eexists. split; [done|].
        simpl. congruence.
      * rewrite list_lookup_insert_ne by done. eauto.
    + intros j tr Hj He. destruct (decide (j = ref)) as [->|Hne].
      * rewrite list_lookup_insert_eq in Hj by (by apply Hlt).
        injection Hj as <-. simpl in *. injection He as ->.
        destruct (H1 ref Hin) as (tr & Htr & Hs). rewrite Hl in Htr.
        injection Htr as ->. rewrite Hs. by apply Hend.
      * rewrite list_lookup_insert_ne in Hj by done. by apply (H2 j).
  - intros self o d p t tp ty l [Hnd Hlt] [H1 H2]. unfold Tagged, EndTagged. simpl.
    split.
    + intros i Hi. apply elem_of_app in Hi as [Hi|Hi].
      * destruct (H1 i Hi) as (tr & Htr & Hs). exists tr.
        rewrite lookup_app_l by (by apply Hlt). done.
      * apply list_elem_of_singleton in Hi. subst i.
        rewrite lookup_app_r by done. rewrite Nat.sub_diag. simpl. eauto.
    + intros j tr Hj He. destruct (decide (j < length (Backtester.all_trades self))%nat).
      * rewrite lookup_app_l in Hj by done. by apply (H2 j).
      * rewrite lookup_app_r in Hj by lia.
        destruct (j - length (Backtester.all_trades self))%nat; [|done].
        simpl in Hj. injection Hj as <-. done.
  - intros self o [H1 H2]. split; [|done]. intros i Hi. by apply elem_of_nil in Hi.
Qed.

Lemma process_day_end_tagged df self date :
  EndTagged self → EndTagged (process_day df self date).
Proof.
  intros HE. unfold process_day. destruct (is_weekend date); [done|].
  destruct (List.filter _ df) as [|c df_day]; [done|].
  set (df' := c :: df_day).
  assert (Hm : StableUnder (λ r, r ≠ SESSION_END) MORNING (Tagged MORNING))
    by (apply Tagged_stable; by intros []).
  assert (Ha : StableUnder (λ _, True) AFTERNOON (Tagged AFTERNOON))
    by (by apply Tagged_stable).
  assert (H0 : Tagged MORNING (reset_daily_state self) []).
  { split; [|done]. intros i Hi. by apply elem_of_nil in Hi. }
  pose proof (process_morning_session_good _ _ _ Hm (reset_daily_state self) df' date
                eq_refl ltac:(done) ltac:(done) (conj (Base_nil _) H0)) as [_ [_ H1]].
  set (self1 := process_morning_session _ _ _) in *.
  assert (Ho : SessionState.open_trades (Backtester.afternoon_state self1) = []).
  { unfold self1. by rewrite process_morning_session_afternoon_state. }
  pose proof (process_afternoon_session_good _ _ _ Ha self1 df' date
                eq_refl I I I I) as H2.
  rewrite Ho in H2. destruct H2 as [_ [_ H3]]; [|done].
  split; [apply Base_nil|]. split; [|done]. intros i Hi. by apply elem_of_nil in Hi.
Qed.

Lemma run_dates_end_tagged df dates self :
  EndTagged self → EndTagged (run_dates df dates self).
Proof.
  unfold run_dates. revert self.
  induction dates as [|d dates IH]; intros self H; simpl; [done|].
  apply IH. by apply process_day_end_tagged.
Qed.

(** The afternoon session never ends with an open trade. *)
Lemma process_afternoon_session_flat self df date :
  SessionState.open_trades (Backtester.afternoon_state self) = [] →
  SessionState.open_trades
    (Backtester.afternoon_state (process_afternoon_session self df date)) = [].
Proof.
  intros Ho. unfold process_afternoon_session.
  destruct (prepare_session _ _ _ _ _ _) as [state|] eqn:Hp; [|done].
  apply prepare_session_open_trades in Hp. rewrite Ho in Hp.
  set (cs := entry_candles_from df AFTERNOON_ENTRY_START).
  assert (H : SessionState.open_trades
                (close_at_session_end cs (afternoon_loop cs (self, state))).2 = []).
  { unfold close_at_session_end.
    destruct (SessionState.open_trades (afternoon_loop cs (self, state)).2) eqn:E;
      [done|].
    destruct cs as [|c cs']; [simpl in E; congruence|].
    destruct (last (c :: cs')) eqn:El; [done|].
    by rewrite last_cons in El; destruct (last cs'). }
  destruct (close_at_session_end _ _) as [self1 state1]. simpl in H.
  by destruct (Qlt_bool _ _).
Qed.

Lemma process_day_flat df self date :
  SessionState.open_trades (Backtester.afternoon_state self) = [] →
  SessionState.open_trades (Backtester.afternoon_state (process_day df self date)) = [].
Proof.
  intros Ho. unfold process_day. destruct (is_weekend date); [done|].
  destruct (List.filter _ df) as [|c df_day]; [done|]. simpl.
  apply process_afternoon_session_flat.
  by rewrite process_morning_session_afternoon_state.
Qed.

Lemma run_dates_flat df dates self :
  SessionState.open_trades (Backtester.afternoon_state self) = [] →
  SessionState.open_trades (Backtester.afternoon_state (run_dates df dates self)) = [].
Proof.
  unfold run_dates. revert self.
  induction dates as [|d dates IH]; intros self H; simpl; [done|].
  apply IH. by apply process_day_flat.
Qed.

Lemma run_dates_app df d1 d2 self :
  run_dates df (d1 ++ d2) self = run_dates df d2 (run_dates df d1 self).
Proof. unfold run_dates. apply fold_left_app. Qed.

Lemma Settled_stable j tr : Stable (Settled j tr).
Proof.
  intros allowed sess. split.
  - intros a b o (Ht & Hc & _ & _) H. unfold Settled. by rewrite <- Ht, <- Hc.
  - intros self o ref p t r _ _ (H1 & H2 & H3) Hin.
    assert (Hne : j ≠ ref) by (by intros ->).
    unfold Settled. split; [|split].
    + by rewrite close_trade_other.
    + unfold close_trade. destruct (_ !! ref); [|done]. simpl.
      apply elem_of_app. by left.
    + intros Hi. by apply list_remove_elem_of in Hi.
  - intros self o d p t tp ty l _ (H1 & H2 & H3). unfold Settled. simpl.
    split; [|split; [done|]].
    + rewrite lookup_app_l; [done|]. by apply lookup_lt_Some in H1.
    + intros Hi. apply elem_of_app in Hi as [Hi|Hi]; [done|].
      apply list_elem_of_singleton in Hi. apply lookup_lt_Some in H1. lia.
  - intros self o (H1 & H2 & H3). split; [done|]. split; [done|].
    apply not_elem_of_nil.
Qed.

(** The end of the afternoon procedure: the trades that its loop leaves open
    are closed at the last entry candle with reason SESSION_END. *)
Lemma process_afternoon_session_end_close self df date state j :
  SessionState.open_trades (Backtester.afternoon_state self) = [] →
  prepare_session self (Backtester.afternoon_state self) df date
                  AFTERNOON_RANGE_START AFTERNOON_RANGE_END = Some state →
  j ∈ SessionState.open_trades
        (afternoon_loop (entry_candles_from df AFTERNOON_ENTRY_START)
                        (self, state)).2 →
  ∃ c tr,
    last (entry_candles_from df AFTERNOON_ENTRY_START) = Some c
    ∧ Settled j tr (process_afternoon_session self df date) []
    ∧ Trade.exit_reason tr = Some SESSION_END
    ∧ Trade.exit_price tr = Some (Candle.close c)
    ∧ Trade.exit_time tr = Some (Candle.time c).
Proof.
  intros Ho Hprep Hj. unfold process_afternoon_session. rewrite Hprep.
  set (entry := entry_candles_from df AFTERNOON_ENTRY_START) in *.
  assert (Hos : SessionState.open_trades state = []).
  { apply prepare_session_open_trades in Hprep. by rewrite Hprep. }
  destruct (afternoon_loop_good (λ _, True) AFTERNOON (λ _ _, True)
              (True_stable (λ _, True) AFTERNOON) entry (self, state)
              eq_refl I I I) as [HB _].
  { simpl. rewrite Hos. split; [apply Base_nil|done]. }
  assert (Hlast : ∃ c, last entry = Some c).
  { destruct entry as [|c0 cs] eqn:He.
    - simpl in Hj. rewrite Hos in Hj. by apply elem_of_nil in Hj.
    - destruct (last (c0 :: cs)) as [c|] eqn:El; [by exists c|].
      apply last_None in El. done. }
  destruct Hlast as [c Hc].
  unfold close_at_session_end. rewrite Hc.
  set (held := afternoon_loop entry (self, state)) in *.
  destruct (SessionState.open_trades held.2) as [|x o] eqn:Hopen.
  { by apply elem_of_nil in Hj. }
  rewrite <- Hopen in *.
  destruct (close_each_spec held.1 (SessionState.open_trades held.2)
              (Candle.close c) (Candle.time c) SESSION_END HB) as [K1 K2].
  assert (Hlt : (j < length (Backtester.all_trades held.1))%nat)
    by (destruct HB as [_ Hlt]; by apply Hlt).
  destruct (lookup_lt_is_Some_2 _ _ Hlt) as [tr0 Htr0].
  exists c, (Trade.close tr0 (Candle.close c) (Candle.time c) SESSION_END
                         (Backtester.point held.1)).
  split; [done|].
  assert (HS : ∀ b, same_ledger
                      (close_each held.1 (SessionState.open_trades held.2)
                         (Candle.close c) (Candle.time c) SESSION_END) b →
                    Settled j (Trade.close tr0 (Candle.close c) (Candle.time c)
                                 SESSION_END (Backtester.point held.1)) b []).
  { intros b (Ht & Hcl & _ & _). unfold Settled. rewrite <- Ht, <- Hcl.
    split; [by rewrite (K2 j Hj), Htr0|]. split; [|apply not_elem_of_nil].
    rewrite K1. apply elem_of_app. by right. }
  split; [|done]. simpl.
  destruct (Qlt_bool _ _); apply HS; done.
Qed.

(** C10.  On a run of a fresh engine, a trade that the morning session of a
    trading day still holds open when its loop ends is never closed: at the
    end of the run it is not in [closed_trades] and the trade object is as
    the morning left it, without exit price, exit reason or profit; the
    balance is the initial balance with the profits of the trades of
    [closed_trades] added, so the trade contributes nothing to it.  The
    forced close with reason SESSION_END is the afternoon's alone: every
    trade that the afternoon loop of the day leaves open is closed at the
    last entry candle of the afternoon, at its close, with that reason, and
    stays so to the end of the run; every trade closed with that reason is an
    afternoon trade; and the afternoon session has no open trade left at the
    end of the run. *)
Theorem morning_trade_left_open :
  ∀ (point b0 : Q) (df : list Candle.t) (earlier later : list Z) (date : Z),
    let start := run_dates df earlier (Backtester.init point b0) in
    let df_day := List.filter (λ c, (Candle.date c =? date)%Z) df in
    let after_morning :=
      process_morning_session (reset_daily_state start) df_day date in
    let final := run_dates df (date :: later) start in
    is_weekend date = false →
    (∀ i, i ∈ SessionState.open_trades (Backtester.morning_state after_morning) →
          (i ∉ Backtester.closed_trades final)
          ∧ ∃ tr, Backtester.all_trades final !! i = Some tr
                  ∧ Backtester.all_trades after_morning !! i = Some tr
                  ∧ Trade.exit_reason tr = None
                  ∧ Trade.exit_price tr = None
                  ∧ Trade.profit tr = None)
    ∧ Backtester.balance final
      = accrue (Backtester.all_trades final) (Backtester.closed_trades final) b0
    ∧ (∀ state j,
         prepare_session after_morning (Backtester.afternoon_state after_morning)
                         df_day date AFTERNOON_RANGE_START AFTERNOON_RANGE_END
         = Some state →
         j ∈ SessionState.open_trades
               (afternoon_loop (entry_candles_from df_day AFTERNOON_ENTRY_START)
                               (after_morning, state)).2 →
         ∃ c tr,
           last (entry_candles_from df_day AFTERNOON_ENTRY_START) = Some c
           ∧ j ∈ Backtester.closed_trades final
           ∧ Backtester.all_trades final !! j = Some tr
           ∧ Trade.session tr = AFTERNOON
           ∧ Trade.exit_reason tr = Some SESSION_END
           ∧ Trade.exit_price tr = Some (Candle.close c)
           ∧ Trade.exit_time tr = Some (Candle.time c))
    ∧ EndTagged final
    ∧ SessionState.open_trades (Backtester.afternoon_state final) = [].
Proof.
  intros point b0 df earlier later date start df_day after_morning final Hwd.
  assert (Hstart : Unclosed start []).
  { apply (run_dates_stable _ Unclosed_stable). split.
    - intros j Hj. by apply elem_of_nil in Hj.
    - intros j Hj. by apply elem_of_nil in Hj. }
  assert (Hoa : SessionState.open_trades
                  (Backtester.afternoon_state after_morning) = []).
  { unfold after_morning. by rewrite process_morning_session_afternoon_state. }
  assert (Hend : EndTagged final).
  { unfold final, start. rewrite <- run_dates_app. apply run_dates_end_tagged.
    intros j tr Hj. simpl in Hj. by rewrite lookup_nil in Hj. }
  split; [|split; [|split; [|split]]].
  - intros i Hi.
    destruct (process_morning_session_good _ _ _ (Unclosed_stable (λ _, True) MORNING)
                (reset_daily_state start) df_day date eq_refl I I) as [_ [H1 _]].
    { split; [apply Base_nil|]. destruct Hstart as [_ H2]. split; [|exact H2].
      intros j Hj. by apply elem_of_nil in Hj. }
    fold after_morning in H1. destruct (H1 i Hi) as (Hnc & tr & Htr & He & Hp & Hpr).
    assert (HD : Dormant i tr final []).
    { unfold final. change (date :: later) with ([date] ++ later).
      rewrite run_dates_app. apply (run_dates_stable _ (Dormant_stable i tr)).
      unfold run_dates. simpl. unfold process_day. rewrite Hwd. fold df_day.
      destruct df_day as [|c df_day'] eqn:Hdf.
      { exfalso. unfold after_morning, process_morning_session, prepare_session in Hi.
        simpl in Hi. by apply elem_of_nil in Hi. }
      fold after_morning.
      pose proof (Dormant_stable i tr (λ _, True) AFTERNOON) as HS.
      apply (stable_ledger _ _ _ HS (process_afternoon_session after_morning
                                        (c :: df_day') date)); [done|].
      apply (stable_drop _ _ _ HS _
               (SessionState.open_trades
                  (Backtester.afternoon_state
                     (process_afternoon_session after_morning (c :: df_day') date)))).
      apply (process_afternoon_session_good _ _ _ HS after_morning (c :: df_day') date
               eq_refl I I I I).
      rewrite Hoa. split; [apply Base_nil|]. split; [done|]. split; [done|].
      apply not_elem_of_nil. }
    destruct HD as (HD1 & HD2 & _). split; [done|]. exists tr. done.
  - assert (H : Accrued b0 final []).
    { unfold final, start. rewrite <- run_dates_app.
      apply (run_dates_stable _ (Accrued_stable b0)). split; [|split]; simpl.
      - intros j Hj. by apply elem_of_nil in Hj.
      - intros j Hj. by apply elem_of_nil in Hj.
      - done. }
    by destruct H as (_ & _ & H).
  - intros state j Hprep Hj.
    destruct (process_afternoon_session_end_close after_morning df_day date state j
                Hoa Hprep Hj) as (c & tr & Hc & HS & Hr & Hp & Ht).
    assert (HF : Settled j tr final []).
    { unfold final. change (date :: later) with ([date] ++ later).
      rewrite run_dates_app. apply (run_dates_stable _ (Settled_stable j tr)).
      unfold run_dates. simpl. unfold process_day. rewrite Hwd. fold df_day.
      destruct df_day as [|c0 df_day'] eqn:Hdf.
      { simpl in Hc. done. }
      fold after_morning.
      pose proof (Settled_stable j tr (λ _, True) AFTERNOON) as HSt.
      by apply (stable_ledger _ _ _ HSt (process_afternoon_session after_morning
                                           (c0 :: df_day') date)). }
    destruct HF as (F1 & F2 & _). exists c, tr.
    split; [done|]. split; [done|]. split; [done|].
    split; [by apply (Hend j tr)|]. done.
  - exact Hend.
  - unfold final, start. rewrite <- run_dates_app. by apply run_dates_flat.
Qed.

Lemma morning_trade_left_open_witness :
  let final := run (Backtester.init (px 1) 10000) day_end_df in
  ((0%nat ∉ Backtester.closed_trades final)
   ∧ ∃ tr, Backtester.all_trades final !! 0%nat = Some tr
           ∧ Trade.session tr = MORNING
           ∧ Trade.exit_reason tr = None
           ∧ Trade.profit tr = None)
  ∧ (1%nat ∈ Backtester.closed_trades final
     ∧ ∃ tr, Backtester.all_trades final !! 1%nat = Some tr
             ∧ Trade.session tr = AFTERNOON
             ∧ Trade.exit_reason tr = Some SESSION_END
             ∧ Trade.exit_price tr = Some (px 110700)).
Proof.
  intros final.
  destruct (morning_trade_left_open (px 1) 10000 day_end_df [] [] example_day eq_refl)
    as (Hm & _ & Ha & _).
  split.
  - destruct (Hm 0%nat) as (H1 & tr & H2 & H3 & H4 & _ & H5).
    { apply list_elem_of_In. vm_compute. left. reflexivity. }
    split; [exact H1|]. exists tr. split; [exact H2|].
    split; [|split; [exact H4|exact H5]].
    vm_compute in H3. injection H3 as <-. reflexivity.
  - assert (Hp : ∃ state,
               prepare_session
                 (process_morning_session
                    (reset_daily_state
                       (run_dates day_end_df [] (Backtester.init (px 1) 10000)))
                    (List.filter (λ c, (Candle.date c =? example_day)%Z) day_end_df)
                    example_day)
                 (Backtester.afternoon_state
                    (process_morning_session
                       (reset_daily_state
                          (run_dates day_end_df [] (Backtester.init (px 1) 10000)))
                       (List.filter (λ c, (Candle.date c =? example_day)%Z) day_end_df)
                       example_day))
                 (List.filter (λ c, (Candle.date c =? example_day)%Z) day_end_df)
                 example_day AFTERNOON_RANGE_START AFTERNOON_RANGE_END
               = Some state)
      by (eexists; vm_compute; reflexivity).
    destruct Hp as [state Hp].
    destruct (Ha state 1%nat Hp) as (c & tr & Hc & H1 & H2 & H3 & H4 & H5 & _).
    { apply list_elem_of_In.
      vm_compute in Hp. injection Hp as <-. vm_compute. left. reflexivity. }
    split; [exact H1|]. exists tr. split; [exact H2|]. split; [exact H3|].
    split; [exact H4|]. rewrite H5. vm_compute in Hc. injection Hc as <-. reflexivity.
Defined.

(** ** Live mode: a failed order still consumes its level *)

Lemma scaling_fold_remaining Broker open_position latest breakout lot tp session
    levels (acc : list Q * Live.TradingState * Broker) :
  (fold_left (Live.scaling_iter Broker open_position latest breakout lot tp session)
             levels acc).1.1
  = acc.1.1
    ++ List.filter (λ l, negb (Live.triggered latest (Live.direction breakout) l))
                   levels.
Proof.
  revert acc. induction levels as [|level levels IH]; intros [[rem st] b]; simpl.
  { by rewrite app_nil_r. }
  rewrite IH. destruct (Live.triggered latest (Live.direction breakout) level); simpl.
  - destruct (open_position b (Live.direction breakout) lot tp (session, level))
      as [ticket b1].
    destruct (Live.truthy ticket); [destruct ticket|]; done.
  - by rewrite <- app_assoc.
Qed.

Lemma scaling_fold_refused Broker open_position latest breakout lot tp session
    levels (acc : list Q * Live.TradingState * Broker) :
  (∀ b d l t c, Live.truthy (open_position b d l t c).1 = false) →
  (fold_left (Live.scaling_iter Broker open_position latest breakout lot tp session)
             levels acc).1.2
  = acc.1.2.
Proof.
  intros Hfail. revert acc.
  induction levels as [|level levels IH]; intros [[rem st] b]; simpl; [done|].
  rewrite IH. destruct (Live.triggered latest (Live.direction breakout) level); [|done].
  pose proof (Hfail b (Live.direction breakout) lot tp (session, level)) as Hf.
  destruct (open_position b (Live.direction breakout) lot tp (session, level))
    as [ticket b1].
  simpl in Hf. by rewrite Hf.
Qed.

Lemma check_and_execute_scaling_subset Broker open_position point_value candles
    breakout levels session state broker (x : Q) :
  x ∈ (Live.check_and_execute_scaling Broker open_position point_value candles
         breakout levels session state broker).1.1 →
  x ∈ levels.
Proof.
  unfold Live.check_and_execute_scaling.
  destruct levels as [|l0 levels]; [done|].
  destruct (last candles) as [latest|]; [|done].
  intros H. rewrite scaling_fold_remaining in H. cbn [fst snd app] in H.
  apply list_elem_of_In, filter_In in H as [H _]. by apply list_elem_of_In.
Qed.

Lemma scaling_polls_subset Broker open_position point_value polls breakout session
    (start : list Q * Live.TradingState * Broker) (x : Q) :
  x ∈ (Live.scaling_polls Broker open_position point_value polls breakout session
         start).1.1 →
  x ∈ start.1.1.
Proof.
  unfold Live.scaling_polls. revert start.
  induction polls as [|candles polls IH]; intros [[levels st] b]; simpl; [done|].
  intros H. apply IH in H. by apply check_and_execute_scaling_subset in H.
Qed.

(** C8.  In live mode, on a poll whose latest candle reaches some scale
    levels, the levels handed back are exactly those not reached, whatever
    the order collaborator answers; a reached level is in no list of levels
    of any later poll of the epoch; and when the collaborator returns no
    ticket, the state object, and with it the session's position list, is
    unchanged. *)
Theorem failed_order_consumes_level :
  ∀ (Broker : Type)
    (open_position : Broker → Direction → Q → Q → SessionType * Q → option Z * Broker)
    (point_value : Q) (candles : list Candle.t) (latest : Candle.t)
    (breakout : Live.BreakoutInfo) (levels : list Q) (session : SessionType)
    (state : Live.TradingState) (broker : Broker),
    last candles = Some latest →
    let r := Live.check_and_execute_scaling Broker open_position point_value
               candles breakout levels session state broker in
    r.1.1 = List.filter
              (λ l, negb (Live.triggered latest (Live.direction breakout) l)) levels
    ∧ (∀ (level : Q) (polls : list (list Candle.t)),
         level ∈ levels →
         Live.triggered latest (Live.direction breakout) level = true →
         level ∉ (Live.scaling_polls Broker open_position point_value polls
                    breakout session r).1.1)
    ∧ ((∀ b d l t c, Live.truthy (open_position b d l t c).1 = false) →
       r.1.2 = state
       ∧ Live.positions session r.1.2 = Live.positions session state).
Proof.
  intros Broker open_position point_value candles latest breakout levels session
    state broker Hlast r.
  assert (Hrem : r.1.1 = List.filter
            (λ l, negb (Live.triggered latest (Live.direction breakout) l)) levels).
  { unfold r, Live.check_and_execute_scaling. destruct levels as [|l0 levels]; [done|].
    rewrite Hlast. by rewrite scaling_fold_remaining. }
  split; [exact Hrem|]. split.
  - intros level polls Hin Htrig Hbad.
    apply scaling_polls_subset in Hbad. rewrite Hrem in Hbad.
    apply list_elem_of_In, filter_In in Hbad as [_ Hbad]. by rewrite Htrig in Hbad.
  - intros Hfail.
    assert (Hst : r.1.2 = state).
    { unfold r, Live.check_and_execute_scaling. destruct levels as [|l0 levels]; [done|].
      rewrite Hlast. by rewrite scaling_fold_refused. }
    by rewrite Hst.
Qed.

Lemma failed_order_consumes_level_witness :
  let r := Live.check_and_execute_scaling unit refusing_broker (px 1) [pullback_bar]
             example_breakout (Live.morning_scale_levels example_live_state) MORNING
             example_live_state tt in
  r.1.1 = []
  ∧ Live.positions MORNING r.1.2 = [7%Z]
  ∧ (px 110500 - (75 # 100) * (px 110500 - px 110000)
     ∉ (Live.scaling_polls unit refusing_broker (px 1) [[pullback_bar]]
          example_breakout MORNING r).1.1).
Proof.
  intros r.
  destruct (failed_order_consumes_level unit refusing_broker (px 1) [pullback_bar]
              pullback_bar example_breakout
              (Live.morning_scale_levels example_live_state) MORNING
              example_live_state tt eq_refl) as (H1 & H2 & H3).
  split; [exact H1|]. split.
  - destruct H3 as [_ H3]; [intros; reflexivity|]. exact H3.
  - apply H2; [|reflexivity]. left.
Defined.

(** * Further properties of the backtest engine *)

(** ** Range and ladder geometry *)

Lemma calculate_range_ordered (df : list Candle.t) (date window_start window_end : Z)
    (hi lo : Q) :
  (∀ c, c ∈ df → in_window date window_start window_end c →
        Candle.low c <= Candle.high c) →
  calculate_range df date window_start window_end = Some (hi, lo) →
  lo <= hi.
Proof.
  revert window_start window_end; intros s e Hwf. unfold calculate_range.
  set (window := List.filter (range_mask date s e) df).
  destruct (length window <? 3)%nat; [done|].
  assert (Hin : ∀ c, c ∈ window → Candle.low c <= Candle.high c).
  { intros c Hc. apply list_elem_of_In, filter_In in Hc as [Hc Hm].
    apply Hwf; [by apply list_elem_of_In|by apply range_mask_in_window]. }
  destruct window as [|c w]; simpl.
  { intros [= <- <-]. apply Qle_refl. }
  intros [= <- <-].
  destruct (fold_max_is_maximum (map Candle.high w) (Candle.high c)) as [_ Hmax].
  destruct (fold_min_is_minimum (map Candle.low w) (Candle.low c)) as [_ Hmin].
  eapply Qle_trans; [apply Hmin; by left|].
  eapply Qle_trans; [apply Hin; by left|]. apply Hmax. by left.
Qed.

(** X1.  A defined range has its low at or below its high as soon as the
    candles of the window are well formed (low at or below high). *)
Theorem range_low_le_high :
  ∀ (df : list Candle.t) (date window_start window_end : Z) (hi lo : Q),
    (∀ c, c ∈ df → in_window date window_start window_end c →
          Candle.low c <= Candle.high c) →
    calculate_range df date window_start window_end = Some (hi, lo) →
    lo <= hi.
Proof. exact calculate_range_ordered. Qed.

Lemma range_low_le_high_witness :
  calculate_range example_df example_day MORNING_RANGE_START MORNING_RANGE_END
  = Some (px 110500, px 110000)
  ∧ px 110000 <= px 110500.
Proof.
  split; [vm_compute; reflexivity|].
  apply (range_low_le_high example_df example_day MORNING_RANGE_START
           MORNING_RANGE_END (px 110500) (px 110000)).
  - intros c Hc _. apply list_elem_of_In in Hc. vm_compute in Hc.
    repeat (destruct Hc as [<-|Hc]; [vm_compute; discriminate|]). destruct Hc.
  - vm_compute. reflexivity.
Defined.

(** X2.  On a range with low at or below high, every level of a ladder lies
    inside the range; the long ladder is the short ladder read backwards;
    and the reversal ladder is the middle of the range for both
    directions. *)
Theorem scale_levels_inside_range :
  ∀ (rh rl : Q),
    rl <= rh →
    (∀ (d : Direction) (is_reversal : bool) (level : Q),
       level ∈ calculate_scale_levels rh rl d is_reversal →
       rl <= level ∧ level <= rh)
    ∧ Forall2 Qeq (calculate_scale_levels rh rl BUY false)
                  (rev (calculate_scale_levels rh rl SELL false))
    ∧ Forall2 Qeq (calculate_scale_levels rh rl BUY true) [(rh + rl) / 2]
    ∧ Forall2 Qeq (calculate_scale_levels rh rl SELL true) [(rh + rl) / 2].
Proof.
  intros rh rl Hle. split; [|split; [|split]].
  - intros d is_reversal level Hin.
    destruct d, is_reversal; simpl in Hin;
      repeat (apply elem_of_cons in Hin as [->|Hin]; [split; lra|]);
      by apply elem_of_nil in Hin.
  - simpl. repeat constructor; lra.
  - simpl. repeat constructor. field.
  - simpl. repeat constructor. field.
Qed.

Lemma scale_levels_inside_range_witness :
  px 110000 <= px 110500 - (75 # 100) * (px 110500 - px 110000)
  ∧ px 110500 - (75 # 100) * (px 110500 - px 110000) <= px 110500.
Proof.
  apply (proj1 (scale_levels_inside_range (px 110500) (px 110000)
                  ltac:(vm_compute; discriminate)) BUY false).
  left.
Defined.

(** ** Profit of a closed trade and floating profit *)

Lemma close_realized_formula (tr : Trade.t) (price : Q) (t : Z) (r : ExitReason)
    (point : Q) :
  ¬ point == 0 →
  Trade.realized (Trade.close tr price t r point)
  == match Trade.direction tr with
     | BUY => price - Trade.entry_price tr
     | SELL => Trade.entry_price tr - price
     end * (10 * Trade.lot_size tr / point).
Proof.
  intros Hp. unfold Trade.realized, Trade.close, Trade.compute_pips. simpl.
  destruct (Trade.direction tr); field; done.
Qed.

Lemma Qmult_pos_sign (d k : Q) :
  0 < k → (0 < d * k ↔ 0 < d) ∧ (d * k < 0 ↔ d < 0).
Proof.
  intros Hk. split; split; intros H.
  - destruct (Qlt_le_dec 0 d) as [|Hle]; [done|]. exfalso.
    apply (Qlt_not_le _ _ H). rewrite Qmult_comm, <- (Qmult_0_r k).
    by apply Qmult_le_l.
  - rewrite Qmult_comm, <- (Qmult_0_r k). by apply Qmult_lt_l.
  - destruct (Qlt_le_dec d 0) as [|Hle]; [done|]. exfalso.
    apply (Qlt_not_le _ _ H). rewrite Qmult_comm, <- (Qmult_0_r k).
    by apply Qmult_le_l.
  - rewrite Qmult_comm, <- (Qmult_0_r k). by apply Qmult_lt_l.
Qed.

(** X3.  With a positive point and a positive lot size, a closed trade has a
    positive profit exactly when the exit price is on the winning side of the
    entry (above for a long, below for a short), a negative profit exactly
    when it is on the other side, and a zero profit when it exits at its
    entry price. *)
Theorem close_profit_sign :
  ∀ (tr : Trade.t) (price : Q) (t : Z) (r : ExitReason) (point : Q),
    0 < point → 0 < Trade.lot_size tr →
    let closed := Trade.close tr price t r point in
    (0 < Trade.realized closed
     ↔ match Trade.direction tr with
       | BUY => Trade.entry_price tr < price
       | SELL => price < Trade.entry_price tr
       end)
    ∧ (Trade.realized closed < 0
       ↔ match Trade.direction tr with
         | BUY => price < Trade.entry_price tr
         | SELL => Trade.entry_price tr < price
         end)
    ∧ (price == Trade.entry_price tr → Trade.realized closed == 0).
Proof.
  intros tr price t r point Hp Hl closed.
  assert (Hne : ¬ point == 0) by (intros E; rewrite E in Hp; by apply Qlt_irrefl in Hp).
  pose proof (close_realized_formula tr price t r point Hne) as Hf. fold closed in Hf.
  assert (Hk : 0 < 10 * Trade.lot_size tr / point).
  { apply Qlt_shift_div_l; [done|]. lra. }
  set (k := 10 * Trade.lot_size tr / point) in *.
  split; [|split].
  - rewrite Hf. destruct (Trade.direction tr);
      rewrite (proj1 (Qmult_pos_sign _ k Hk)); split; intros H; lra.
  - rewrite Hf. destruct (Trade.direction tr);
      rewrite (proj2 (Qmult_pos_sign _ k Hk)); split; intros H; lra.
  - intros E. rewrite Hf. destruct (Trade.direction tr); rewrite E; ring.
Qed.

Lemma close_profit_sign_witness :
  0 < Trade.realized
        (Trade.close (Trade.init BUY (px 110375) 0 (4 # 100) (px 111180) SCALE MORNING)
                     (px 111180) 0 TP (px 1)).
Proof.
  apply (proj1 (close_profit_sign
           (Trade.init BUY (px 110375) 0 (4 # 100) (px 111180) SCALE MORNING)
           (px 111180) 0%Z TP (px 1) eq_refl eq_refl)).
  reflexivity.
Defined.

Lemma close_trade_point self ref p t r :
  Backtester.point (close_trade self ref p t r) = Backtester.point self.
Proof.
  pose proof (close_trade_fields self ref p t r) as H. unfold engine_fields in H.
  by injection H as -> _ _ _ _ _.
Qed.

(** The balance after closing a list of trades, one addition per trade. *)
Lemma close_each_accrues self0 self l p t r :
  entry_fields <$> Backtester.all_trades self
  = entry_fields <$> Backtester.all_trades self0 →
  Backtester.point self = Backtester.point self0 →
  Backtester.balance (close_each self l p t r)
  = fold_left
      (fun balance ref =>
         match Backtester.all_trades self0 !! ref with
         | None => balance
         | Some trade =>
             balance
             + Trade.compute_pips trade p (Backtester.point self0)
               * (Trade.lot_size trade * 100)
         end) l (Backtester.balance self).
Proof.
  revert self. induction l as [|x l IH]; intros self He Hp; [done|].
  change (close_each self (x :: l) p t r)
    with (close_each (close_trade self x p t r) l p t r).
  cbn [fold_left].
  assert (Hx : (entry_fields <$> Backtester.all_trades self) !! x
               = (entry_fields <$> Backtester.all_trades self0) !! x) by (by rewrite He).
  rewrite !list_lookup_fmap in Hx.
  rewrite (IH (close_trade self x p t r))
    by (by rewrite ?close_trade_entries, ?close_trade_point).
  f_equal. unfold close_trade.
  destruct (Backtester.all_trades self0 !! x) as [tr0|] eqn:H0;
    destruct (Backtester.all_trades self !! x) as [tr|] eqn:H1; try done.
  simpl in Hx. unfold entry_fields in Hx.
  assert (Hd : Trade.direction tr = Trade.direction tr0) by congruence.
  assert (He1 : Trade.entry_price tr = Trade.entry_price tr0) by congruence.
  assert (He2 : Trade.lot_size tr = Trade.lot_size tr0) by congruence.
  simpl. unfold Trade.realized, Trade.close, Trade.compute_pips. simpl.
  by rewrite Hd, He1, He2, Hp.
Qed.

Lemma close_each_profit self0 self l p t r i tr0 :
  entry_fields <$> Backtester.all_trades self
  = entry_fields <$> Backtester.all_trades self0 →
  Backtester.point self = Backtester.point self0 →
  i ∈ l → Backtester.all_trades self0 !! i = Some tr0 →
  ∃ tr', Backtester.all_trades (close_each self l p t r) !! i = Some tr'
         ∧ Trade.exit_price tr' = Some p
         ∧ Trade.profit tr'
           = Some (Trade.compute_pips tr0 p (Backtester.point self0)
                   * (Trade.lot_size tr0 * 100)).
Proof.
  revert self. induction l as [|x l IH]; intros self He Hp Hi H0.
  { by apply elem_of_nil in Hi. }
  change (close_each self (x :: l) p t r)
    with (close_each (close_trade self x p t r) l p t r).
  destruct (decide (i ∈ l)) as [Hil|Hnl].
  { apply IH; try done; by rewrite ?close_trade_entries, ?close_trade_point. }
  apply elem_of_cons in Hi as [->|Hi]; [|done].
  rewrite close_each_other by done.
  assert (Hx : (entry_fields <$> Backtester.all_trades self) !! x
               = (entry_fields <$> Backtester.all_trades self0) !! x) by (by rewrite He).
  rewrite !list_lookup_fmap, H0 in Hx.
  destruct (Backtester.all_trades self !! x) as [tr|] eqn:H1; [|done].
  simpl in Hx. unfold entry_fields in Hx.
  assert (Hd : Trade.direction tr = Trade.direction tr0) by congruence.
  assert (He1 : Trade.entry_price tr = Trade.entry_price tr0) by congruence.
  assert (He2 : Trade.lot_size tr = Trade.lot_size tr0) by congruence.
  unfold close_trade. rewrite H1. simpl.
  rewrite list_lookup_insert_eq by (by apply lookup_lt_Some in H1).
  eexists. split; [reflexivity|]. split; [done|]. simpl. unfold Trade.compute_pips.
  by rewrite Hd, He1, He2, Hp.
Qed.

(** X4.  [close_all_session_trades] at a price gives every open trade of the
    session the profit that [calculate_floating_pnl] reports for that trade
    alone at that price, and adds these profits to the balance one by one,
    in the order of the open trades. *)
Theorem close_all_realizes_floating_pnl :
  ∀ (self : Backtester.t) (state : SessionState.t) (price : Q) (t : Z)
    (r : ExitReason),
    let closed := (close_all_session_trades self state price t r).1 in
    Backtester.balance closed
    = fold_left
        (fun balance ref =>
           match Backtester.all_trades self !! ref with
           | None => balance
           | Some trade =>
               balance
               + Trade.compute_pips trade price (Backtester.point self)
                 * (Trade.lot_size trade * 100)
           end)
        (SessionState.open_trades state) (Backtester.balance self)
    ∧ ∀ i tr, i ∈ SessionState.open_trades state →
              Backtester.all_trades self !! i = Some tr →
              ∃ tr', Backtester.all_trades closed !! i = Some tr'
                     ∧ Trade.exit_price tr' = Some price
                     ∧ calculate_floating_pnl self
                         (SessionState.set_open_trades state [i]) price
                       == Trade.realized tr'.
Proof.
  intros self state price t r closed. subst closed. simpl. split.
  - by apply close_each_accrues.
  - intros i tr Hi Htr.
    destruct (close_each_profit self self (SessionState.open_trades state) price t r
                i tr eq_refl eq_refl Hi Htr) as (tr' & Hl & He & Hp).
    exists tr'. split; [done|]. split; [done|].
    unfold calculate_floating_pnl, Trade.realized. simpl. rewrite Htr, Hp. simpl.
    ring.
Qed.

(** X5.  One update of the session drawdown never raises the recorded
    maximum drawdown and never lowers the recorded peak; afterwards the
    recorded drawdown is at or below the distance of the equity at the
    candle's close from the recorded peak, and it is still at or below zero
    if it was. *)
Theorem drawdown_update_monotone :
  ∀ (self : Backtester.t) (state : SessionState.t) (candle_high candle_low
     candle_close : Q),
    let state' := update_session_drawdown self state candle_high candle_low
                                          candle_close in
    SessionState.session_max_drawdown state'
    <= SessionState.session_max_drawdown state
    ∧ SessionState.session_peak_balance state
      <= SessionState.session_peak_balance state'
    ∧ SessionState.session_max_drawdown state'
      <= Backtester.balance self + calculate_floating_pnl self state candle_close
         - SessionState.session_peak_balance state'
    ∧ (SessionState.session_max_drawdown state <= 0 →
       SessionState.session_max_drawdown state' <= 0).
Proof.
  intros self state h l c state'.
  assert (Hstep : ∀ st price,
    let eq := Backtester.balance self + calculate_floating_pnl self st price in
    let peak := if Qeq_bool price c
                   && Qlt_bool (SessionState.session_peak_balance st) eq
                then eq else SessionState.session_peak_balance st in
    let dd := if Qlt_bool (eq - peak) (SessionState.session_max_drawdown st)
              then eq - peak else SessionState.session_max_drawdown st in
    SessionState.session_peak_balance st <= peak
    ∧ dd <= SessionState.session_max_drawdown st
    ∧ dd <= eq - peak).
  { intros st price eq peak dd. subst peak dd.
    destruct (Qeq_bool price c && Qlt_bool (SessionState.session_peak_balance st) eq)
      eqn:E1.
    - apply andb_true_iff in E1 as [_ E1]. apply Qlt_bool_iff in E1.
      destruct (Qlt_bool (eq - eq) (SessionState.session_max_drawdown st)) eqn:E2.
      + apply Qlt_bool_iff in E2. repeat split; lra.
      + assert (¬ eq - eq < SessionState.session_max_drawdown st)
          by (intros H; apply Qlt_bool_iff in H; congruence).
        repeat split; lra.
    - destruct (Qlt_bool (eq - SessionState.session_peak_balance st)
                         (SessionState.session_max_drawdown st)) eqn:E2.
      + apply Qlt_bool_iff in E2. repeat split; lra.
      + assert (¬ eq - SessionState.session_peak_balance st
                  < SessionState.session_max_drawdown st)
          by (intros H; apply Qlt_bool_iff in H; congruence).
        repeat split; lra. }
  unfold state', update_session_drawdown. cbn [fold_left].
  set (s1 := SessionState.set_drawdown state _ _).
  set (s2 := SessionState.set_drawdown s1 _ _).
  set (s3 := SessionState.set_drawdown s2 _ _).
  destruct (Hstep state h) as (P1 & D1 & _).
  destruct (Hstep s1 l) as (P2 & D2 & _).
  destruct (Hstep s2 c) as (P3 & D3 & E3).
  change (SessionState.session_peak_balance state
          <= SessionState.session_peak_balance s1) in P1.
  change (SessionState.session_max_drawdown s1
          <= SessionState.session_max_drawdown state) in D1.
  change (SessionState.session_peak_balance s1
          <= SessionState.session_peak_balance s2) in P2.
  change (SessionState.session_max_drawdown s2
          <= SessionState.session_max_drawdown s1) in D2.
  change (SessionState.session_peak_balance s2
          <= SessionState.session_peak_balance s3) in P3.
  change (SessionState.session_max_drawdown s3
          <= SessionState.session_max_drawdown s2) in D3.
  change (SessionState.session_max_drawdown s3
          <= Backtester.balance self + calculate_floating_pnl self s2 c
             - SessionState.session_peak_balance s3) in E3.
  change (calculate_floating_pnl self s2 c)
    with (calculate_floating_pnl self state c) in E3.
  repeat split; try lra.
Qed.

Lemma drawdown_update_monotone_witness :
  SessionState.session_max_drawdown
    (update_session_drawdown example_scaled.1 example_scaled.2
       (px 110600) (px 110300) (px 110400)) <= 0.
Proof.
  apply (proj2 (proj2 (proj2 (drawdown_update_monotone example_scaled.1
           example_scaled.2 (px 110600) (px 110300) (px 110400))))).
  vm_compute. discriminate.
Defined.

(** ** Closed exactly once *)

Lemma Once_stable : Stable Once.
Proof.
  intros allowed sess. split.
  - intros a b o (Ht & Hc & _ & _) H. unfold Once. by rewrite <- Ht, <- Hc.
  - intros self o ref p t r _ [Hnd Hlt] (H1 & H2 & H3 & H4) Hin.
    unfold close_trade.
    destruct (Backtester.all_trades self !! ref) as [tr0|] eqn:Hl.
    2:{ apply lookup_ge_None in Hl. apply Hlt in Hin. lia. }
    unfold Once. simpl. split; [|split; [|split]].
    + apply NoDup_app. split; [done|]. split; [|apply NoDup_singleton].
      intros j Hj Hj'. apply list_elem_of_singleton in Hj'. subst j.
      by apply (H2 ref).
    + intros i Hi Hc. apply elem_of_app in Hc as [Hc|Hc].
      * apply (H2 i); [|done]. by apply (list_remove_elem_of ref).
      * apply list_elem_of_singleton in Hc. subst i.
        by apply (list_remove_not_elem_of ref o).
    + intros j Hj. rewrite length_insert. apply elem_of_app in Hj as [Hj|Hj].
      * by apply H3.
      * apply list_elem_of_singleton in Hj. subst j. by apply Hlt.
    + intros j tr Hj. destruct (decide (j = ref)) as [->|Hne].
      * rewrite list_lookup_insert_eq in Hj by (by apply Hlt). injection Hj as <-.
        left. split; [apply elem_of_app; right; by left|].
        unfold closed_record. simpl. repeat split; by eexists.
      * rewrite list_lookup_insert_ne in Hj by done.
        destruct (H4 j tr Hj) as [[Hc Hr]|[Hc Hr]].
        -- left. split; [apply elem_of_app; by left|done].
        -- right. split; [|done]. intros Hc'.
           apply elem_of_app in Hc' as [Hc'|Hc']; [done|].
           by apply list_elem_of_singleton in Hc'.
  - intros self o d p t tp ty l [Hnd Hlt] (H1 & H2 & H3 & H4).
    unfold Once. simpl. split; [done|]. split; [|split].
    + intros i Hi Hc. apply elem_of_app in Hi as [Hi|Hi].
      * by apply (H2 i).
      * apply list_elem_of_singleton in Hi. subst i. apply H3 in Hc. lia.
    + intros j Hj. rewrite length_app. apply H3 in Hj. lia.
    + intros j tr Hj.
      destruct (decide (j < length (Backtester.all_trades self))%nat) as [Hlt'|Hge].
      * rewrite lookup_app_l in Hj by done. by apply H4.
      * rewrite lookup_app_r in Hj by lia.
        destruct (j - length (Backtester.all_trades self))%nat eqn:E; [|done].
        simpl in Hj. injection Hj as <-. right. split; [|done].
        intros Hc. apply H3 in Hc. lia.
  - intros self o (H1 & H2 & H3 & H4). split; [done|]. split; [|done].
    intros i Hi. by apply elem_of_nil in Hi.
Qed.

(** X6.  On a run of a fresh engine no trade is closed twice:
    [closed_trades] has no duplicate, every trade it lists has its exit
    price, exit time, exit reason, profit and pips set, and every other
    trade of the store has none of them. *)
Theorem closed_exactly_once :
  ∀ (point b0 : Q) (df : list Candle.t),
    let final := run (Backtester.init point b0) df in
    NoDup (Backtester.closed_trades final)
    ∧ (∀ j, j ∈ Backtester.closed_trades final →
            ∃ tr, Backtester.all_trades final !! j = Some tr ∧ closed_record tr)
    ∧ (∀ j tr, Backtester.all_trades final !! j = Some tr →
               (j ∉ Backtester.closed_trades final) → open_record tr).
Proof.
  intros point b0 df final.
  assert (H : Once final []).
  { apply (run_dates_stable _ Once_stable). split; [constructor|].
    split; [|split]; simpl.
    - intros i Hi. by apply elem_of_nil in Hi.
    - intros j Hj. by apply elem_of_nil in Hj.
    - intros j tr Hj. by rewrite lookup_nil in Hj. }
  destruct H as (H1 & _ & H3 & H4). split; [done|]. split.
  - intros j Hj. destruct (lookup_lt_is_Some_2 _ _ (H3 j Hj)) as [tr Htr].
    exists tr. split; [done|]. destruct (H4 j tr Htr) as [[_ Hr]|[Hc _]]; done.
  - intros j tr Hj Hc. destruct (H4 j tr Hj) as [[Hc' _]|[_ Hr]]; done.
Qed.

Lemma closed_exactly_once_witness :
  let final := run example_engine example_df in
  ∃ tr, Backtester.all_trades final !! 0%nat = Some tr ∧ closed_record tr.
Proof.
  intros final.
  apply (proj1 (proj2 (closed_exactly_once (px 1) 10000 example_df)) 0%nat).
  apply list_elem_of_In. vm_compute. left. reflexivity.
Defined.

(** ** Exit reasons by session *)

Section TwoPhase.
Context (Rm Ra : Backtester.t → list nat → Prop)
  (allowed : ExitReason → Prop)
  (Hm : StableUnder allowed MORNING Rm)
  (Ha : StableUnder (λ _, True) AFTERNOON Ra)
  (Htp : allowed TP) (Hrev : allowed REVERSAL)
  (Hma : ∀ self, Rm self [] → Ra self [])
  (Ham : ∀ self, Ra self [] → Rm self []).

Lemma process_day_two_phase df self date :
  Rm self [] → Rm (process_day df self date) [].
Proof.
  intros H. unfold process_day. destruct (is_weekend date); [done|].
  assert (H0 : Rm (reset_daily_state self) [])
    by (by apply (stable_ledger _ _ _ Hm self)).
  destruct (List.filter _ df) as [|c df_day]; [done|].
  set (df' := c :: df_day).
  pose proof (process_morning_session_good _ _ _ Hm (reset_daily_state self) df' date
                eq_refl Htp Hrev (conj (Base_nil _) H0)) as [_ H1].
  apply (stable_drop _ _ _ Hm), Hma in H1.
  set (self1 := process_morning_session _ _ _) in *.
  assert (Ho : SessionState.open_trades (Backtester.afternoon_state self1) = []).
  { unfold self1. by rewrite process_morning_session_afternoon_state. }
  pose proof (process_afternoon_session_good _ _ _ Ha self1 df' date
                eq_refl I I I I) as H2.
  rewrite Ho in H2. destruct (H2 (conj (Base_nil _) H1)) as [_ H3].
  apply (stable_drop _ _ _ Ha), Ham in H3.
  by apply (stable_ledger _ _ _ Hm (process_afternoon_session self1 df' date)).
Qed.

Lemma run_dates_two_phase df dates self :
  Rm self [] → Rm (run_dates df dates self) [].
Proof.
  unfold run_dates. revert self.
  induction dates as [|d dates IH]; intros self H; simpl; [done|].
  apply IH. by apply process_day_two_phase.
Qed.
End TwoPhase.

Lemma MorningExits_stable allowed sess :
  (sess = MORNING → ∀ r, allowed r → r = TP ∨ r = REVERSAL) →
  StableUnder allowed sess (MorningExits sess).
Proof.
  intros Hal. split.
  - intros a b o (Ht & _ & _ & _) H. unfold MorningExits. by rewrite <- Ht.
  - intros self o ref p t r Hr [Hnd Hlt] [H1 H2] Hin.
    unfold close_trade.
    destruct (Backtester.all_trades self !! ref) as [tr0|] eqn:Hl.
    2:{ apply lookup_ge_None in Hl. apply Hlt in Hin. lia. }
    unfold MorningExits. simpl. split.
    + intros i Hi. apply list_remove_elem_of in Hi.
      destruct (H1 i Hi) as (tr & Htr & Hs).
      destruct (decide (i = ref)) as [->|Hne].
      * rewrite list_lookup_insert_eq by (by apply Hlt). eexists. split; [done|].
        simpl. congruence.
      * rewrite list_lookup_insert_ne by done. eauto.
    + intros j tr r' Hj Hs He. destruct (decide (j = ref)) as [->|Hne].
      * rewrite list_lookup_insert_eq in Hj by (by apply Hlt).
        injection Hj as <-. simpl in *. injection He as <-.
        destruct (H1 ref Hin) as (tr & Htr & Hs'). rewrite Hl in Htr.
        injection Htr as ->. apply Hal; [congruence|done].
      * rewrite list_lookup_insert_ne in Hj by done. by apply (H2 j tr).
  - intros self o d p t tp ty l [Hnd Hlt] [H1 H2]. unfold MorningExits. simpl.
    split.
    + intros i Hi. apply elem_of_app in Hi as [Hi|Hi].
      * destruct (H1 i Hi) as (tr & Htr & Hs). exists tr.
        rewrite lookup_app_l by (by apply Hlt). done.
      * apply list_elem_of_singleton in Hi. subst i.
        rewrite lookup_app_r by done. rewrite Nat.sub_diag. simpl. eauto.
    + intros j tr r Hj Hs He.
      destruct (decide (j < length (Backtester.all_trades self))%nat).
      * rewrite lookup_app_l in Hj by done. by apply (H2 j tr).
      * rewrite lookup_app_r in Hj by lia.
        destruct (j - length (Backtester.all_trades self))%nat; [|done].
        simpl in Hj. injection Hj as <-. done.
  - intros self o [H1 H2]. split; [|done]. intros i Hi. by apply elem_of_nil in Hi.
Qed.

(** X7.  On a run of a fresh engine a morning trade is only ever closed by
    its take-profit or by a reversal: no trade named MORNING has the exit
    reason TIME_EXIT or SESSION_END. *)
Theorem morning_exit_reasons :
  ∀ (point b0 : Q) (df : list Candle.t) (j : nat) (tr : Trade.t) (r : ExitReason),
    Backtester.all_trades (run (Backtester.init point b0) df) !! j = Some tr →
    Trade.session tr = MORNING →
    Trade.exit_reason tr = Some r →
    r = TP ∨ r = REVERSAL.
Proof.
  intros point b0 df j tr r.
  assert (H : MorningExits MORNING (run (Backtester.init point b0) df) []).
  { apply (run_dates_two_phase (MorningExits MORNING) (MorningExits AFTERNOON)
             (λ r, r = TP ∨ r = REVERSAL)).
    - by apply MorningExits_stable.
    - by apply MorningExits_stable.
    - by left.
    - by right.
    - intros self [_ H]. split; [|done]. intros i Hi. by apply elem_of_nil in Hi.
    - intros self [_ H]. split; [|done]. intros i Hi. by apply elem_of_nil in Hi.
    - split.
      + intros i Hi. by apply elem_of_nil in Hi.
      + intros j' tr' r' Hj. simpl in Hj. by rewrite lookup_nil in Hj. }
  destruct H as [_ H]. apply H.
Qed.

Lemma morning_exit_reasons_witness :
  ∃ tr r, Backtester.all_trades (run example_engine example_df) !! 0%nat = Some tr
          ∧ Trade.session tr = MORNING
          ∧ Trade.exit_reason tr = Some r
          ∧ (r = TP ∨ r = REVERSAL).
Proof.
  assert (H : ∃ tr, Backtester.all_trades (run example_engine example_df) !! 0%nat
                    = Some tr
                    ∧ Trade.session tr = MORNING
                    ∧ Trade.exit_reason tr = Some REVERSAL)
    by (eexists; split; [vm_compute; reflexivity|split; reflexivity]).
  destruct H as (tr & Hl & Hs & Hr). exists tr, REVERSAL.
  split; [exact Hl|]. split; [exact Hs|]. split; [exact Hr|].
  exact (morning_exit_reasons (px 1) 10000 example_df 0%nat tr REVERSAL Hl Hs Hr).
Defined.

(** ** The trading days of a run *)

Lemma insert_unique_elem_of (d x : Z) (l : list Z) :
  x ∈ insert_unique d l ↔ x = d ∨ x ∈ l.
Proof.
  induction l as [|y l IH]; simpl.
  - rewrite list_elem_of_singleton. split; [by left|].
    intros [H|H]; [done|by apply elem_of_nil in H].
  - destruct (Z.ltb_spec d y).
    + rewrite elem_of_cons. tauto.
    + destruct (Z.eqb_spec d y) as [->|Hne].
      * rewrite elem_of_cons. tauto.
      * rewrite !elem_of_cons, IH. tauto.
Qed.

Lemma insert_unique_sorted (d : Z) (l : list Z) :
  StronglySorted Z.lt l → StronglySorted Z.lt (insert_unique d l).
Proof.
  induction 1 as [|y l Hs IH Hy]; simpl.
  - constructor; constructor.
  - destruct (Z.ltb_spec d y).
    + constructor; [by constructor|]. constructor; [done|].
      eapply Forall_impl; [exact Hy|]. intros z Hz. simpl in Hz. lia.
    + destruct (Z.eqb_spec d y) as [->|Hne]; [by constructor|].
      constructor; [done|]. apply List.Forall_forall. intros z Hz.
      apply (proj2 (list_elem_of_In _ _)), insert_unique_elem_of in Hz
        as [->|Hz]; [lia|].
      rewrite List.Forall_forall in Hy. by apply Hy, list_elem_of_In.
Qed.

Lemma unique_dates_elem_of (df : list Candle.t) (d : Z) :
  d ∈ unique_dates df ↔ ∃ c, c ∈ df ∧ Candle.date c = d.
Proof.
  unfold unique_dates. induction df as [|c df IH]; simpl.
  - split.
    + intros H. by apply elem_of_nil in H.
    + intros (c & Hc & _). by apply elem_of_nil in Hc.
  - rewrite insert_unique_elem_of, IH. split.
    + intros [->|(c' & Hc' & <-)].
      * exists c. split; [by left|done].
      * exists c'. split; [by right|done].
    + intros (c' & Hc' & <-). apply elem_of_cons in Hc' as [->|Hc'].
      * by left.
      * right. by exists c'.
Qed.

(** X8.  The trading days of a run are the dates of the frame's candles,
    each once, in strictly increasing order. *)
Theorem unique_dates_sorted :
  ∀ (df : list Candle.t),
    StronglySorted Z.lt (unique_dates df)
    ∧ ∀ d, d ∈ unique_dates df ↔ ∃ c, c ∈ df ∧ Candle.date c = d.
Proof.
  intros df. split; [|apply unique_dates_elem_of].
  unfold unique_dates. induction df as [|c df IH]; simpl; [constructor|].
  by apply insert_unique_sorted.
Qed.







(** ** Every trade is a scale entry inside the entry window *)

Lemma opened_in_window_entry (tr tr' : Trade.t) :
  entry_fields tr = entry_fields tr' → opened_in_window tr → opened_in_window tr'.
Proof.
  unfold entry_fields, opened_in_window. by intros [= _ _ -> _ _ -> ->].
Qed.

Lemma Forall_window_entries (a b : list Trade.t) :
  entry_fields <$> a = entry_fields <$> b →
  Forall opened_in_window a → Forall opened_in_window b.
Proof.
  revert b. induction a as [|x a IH]; intros [|y b] Heq HF; try done.
  rewrite !fmap_cons in Heq.
  assert (Hxy : entry_fields x = entry_fields y) by congruence.
  assert (Hab : entry_fields <$> a = entry_fields <$> b) by congruence.
  apply Forall_cons in HF as [Hx Ha]. constructor.
  - exact (opened_in_window_entry x y Hxy Hx).
  - by apply IH.
Qed.

Lemma session_candle_window session gate can_enter candle self state :
  (can_enter = true → window_time session (Candle.time candle)) →
  Forall opened_in_window (Backtester.all_trades self) →
  Forall opened_in_window
    (Backtester.all_trades (session_candle session gate can_enter candle (self, state)).1).
Proof.
  intros Hw HF. apply Forall_lookup. intros i tr Hl.
  destruct (decide (i < length (Backtester.all_trades self))%nat) as [Hlt|Hge].
  - destruct (session_candle_entries session gate can_enter candle self state)
      as (news & E1 & _).
    destruct (lookup_lt_is_Some_2 _ _ Hlt) as [tr0 Htr0].
    assert (He : (entry_fields <$> Backtester.all_trades
                    (session_candle session gate can_enter candle (self, state)).1)
                 !! i = Some (entry_fields tr)) by (by rewrite list_lookup_fmap, Hl).
    rewrite E1, lookup_app_l, list_lookup_fmap, Htr0 in He
      by (by rewrite length_fmap).
    simpl in He. assert (He' : entry_fields tr0 = entry_fields tr) by congruence.
    apply (opened_in_window_entry tr0); [done|].
    rewrite Forall_lookup in HF. by apply (HF i).
  - destruct (session_candle_opened session gate can_enter candle self state i tr)
      as (Hc & d & idx & level & _ & _ & He); [lia|done|].
    unfold entry_fields, scale_entry in He. injection He as _ _ Ht _ _ Hty Hs.
    split; [done|]. rewrite Hs, Ht. by apply Hw.
Qed.

Lemma morning_loop_window cs acc :
  Forall (λ c, (MORNING_ENTRY_START ≤ Candle.time_only c)%Z) cs →
  Forall opened_in_window (Backtester.all_trades acc.1) →
  Forall opened_in_window (Backtester.all_trades (morning_loop cs acc).1).
Proof.
  unfold morning_loop. revert acc.
  induction cs as [|c cs IH]; intros [self state] Hcs HF; simpl; [done|].
  apply Forall_cons in Hcs as [Hc Hcs]. apply IH; [done|].
  unfold morning_candle. apply session_candle_window; [|done].
  intros Hle. apply Z.leb_le in Hle. by split.
Qed.

Lemma close_each_window self l p t r :
  Forall opened_in_window (Backtester.all_trades self) →
  Forall opened_in_window (Backtester.all_trades (close_each self l p t r)).
Proof.
  apply Forall_window_entries. by rewrite close_each_entries.
Qed.

Lemma afternoon_loop_window cs acc :
  Forall (λ c, (AFTERNOON_ENTRY_START ≤ Candle.time_only c)%Z) cs →
  Forall opened_in_window (Backtester.all_trades acc.1) →
  Forall opened_in_window (Backtester.all_trades (afternoon_loop cs acc).1).
Proof.
  revert acc.
  induction cs as [|c cs IH]; intros [self state] Hcs HF; simpl; [done|].
  apply Forall_cons in Hcs as [Hc Hcs].
  destruct (Z.leb_spec AFTERNOON_EXIT_TIME (Candle.time_only c)).
  - destruct (SessionState.open_trades state); [done|]. by apply close_each_window.
  - apply IH; [done|]. unfold afternoon_candle.
    apply session_candle_window; [|done]. intros _. by split.
Qed.

Lemma entry_candles_from_ge df start :
  Forall (λ c, (start ≤ Candle.time_only c)%Z) (entry_candles_from df start).
Proof.
  apply List.Forall_forall. intros c Hc. apply filter_In in Hc as [_ Hc].
  by apply Z.leb_le.
Qed.

Lemma process_morning_session_window self df date :
  Forall opened_in_window (Backtester.all_trades self) →
  Forall opened_in_window (Backtester.all_trades (process_morning_session self df date)).
Proof.
  intros HF. unfold process_morning_session.
  destruct (prepare_session _ _ _ _ _ _) as [state|]; [|done].
  pose proof (morning_loop_window (entry_candles_from df MORNING_ENTRY_START)
                (self, state) (entry_candles_from_ge _ _) HF) as H.
  destruct (morning_loop _ _) as [self1 state1]. by destruct (Qlt_bool _ _).
Qed.

Lemma process_afternoon_session_window self df date :
  Forall opened_in_window (Backtester.all_trades self) →
  Forall opened_in_window
    (Backtester.all_trades (process_afternoon_session self df date)).
Proof.
  intros HF. unfold process_afternoon_session.
  destruct (prepare_session _ _ _ _ _ _) as [state|]; [|done].
  pose proof (afternoon_loop_window (entry_candles_from df AFTERNOON_ENTRY_START)
                (self, state) (entry_candles_from_ge _ _) HF) as H.
  assert (H' : Forall opened_in_window
                 (Backtester.all_trades
                    (close_at_session_end (entry_candles_from df AFTERNOON_ENTRY_START)
                       (afternoon_loop (entry_candles_from df AFTERNOON_ENTRY_START)
                                       (self, state))).1)).
  { unfold close_at_session_end. destruct (SessionState.open_trades _); [done|].
    destruct (last _); [|done]. by apply close_each_window. }
  destruct (close_at_session_end _ _) as [self1 state1]. by destruct (Qlt_bool _ _).
Qed.

Lemma run_dates_window df dates self :
  Forall opened_in_window (Backtester.all_trades self) →
  Forall opened_in_window (Backtester.all_trades (run_dates df dates self)).
Proof.
  unfold run_dates. revert self.
  induction dates as [|d dates IH]; intros self HF; simpl; [done|].
  apply IH. unfold process_day. destruct (is_weekend d); [done|].
  destruct (List.filter _ df); [done|]. simpl.
  by apply process_afternoon_session_window, process_morning_session_window.
Qed.

(** X10.  Every trade of a run of a fresh engine is a scale entry (no
    INITIAL or REVERSAL trade is ever opened) made inside the entry window of
    its session: between the entry start and the entry cutoff in the
    morning, between the entry start and before the exit time in the
    afternoon. *)
Theorem trades_opened_in_window :
  ∀ (point b0 : Q) (df : list Candle.t) (i : nat) (tr : Trade.t),
    Backtester.all_trades (run (Backtester.init point b0) df) !! i = Some tr →
    Trade.trade_type tr = SCALE
    ∧ window_time (Trade.session tr) (Trade.entry_time tr).
Proof.
  intros point b0 df i tr Hl.
  assert (H : Forall opened_in_window
                (Backtester.all_trades (run (Backtester.init point b0) df)))
    by (apply run_dates_window; constructor).
  rewrite Forall_lookup in H. by apply (H i).
Qed.

Lemma trades_opened_in_window_witness :
  ∃ tr, Backtester.all_trades (run example_engine example_df) !! 0%nat = Some tr
        ∧ Trade.trade_type tr = SCALE
        ∧ window_time (Trade.session tr) (Trade.entry_time tr).
Proof.
  assert (H : ∃ tr, Backtester.all_trades (run example_engine example_df) !! 0%nat
                    = Some tr)
    by (eexists; vm_compute; reflexivity).
  destruct H as (tr & Hl). exists tr. split; [exact Hl|].
  exact (trades_opened_in_window (px 1) 10000 example_df 0%nat tr Hl).
Defined.

(** ** A day without breakout *)

Lemma session_candle_idle session gate can_enter candle self state hi lo :
  SessionState.range_high state = Some hi →
  SessionState.range_low state = Some lo →
  SessionState.breakout_direction state = None →
  SessionState.open_trades state = [] →
  (gate = true → lo <= Candle.close candle ∧ Candle.close candle <= hi) →
  session_candle session gate can_enter candle (self, state) = (self, state).
Proof.
  intros Hh Hl Hd Ho Hin. unfold session_candle.
  assert (Hi : check_initial_breakout gate candle self state = state).
  { unfold check_initial_breakout.
    destruct (negb _ && gate) eqn:E; [|done].
    apply andb_true_iff in E as [_ ->]. destruct (Hin eq_refl) as [H1 H2].
    rewrite Hh, Hl. simpl.
    destruct (Qlt_bool hi (Candle.close candle)) eqn:E1.
    { apply Qlt_bool_iff in E1. lra. }
    destruct (Qlt_bool (Candle.close candle) lo) eqn:E2; [|done].
    apply Qlt_bool_iff in E2. lra. }
  rewrite Hi, Hd. unfold track_drawdown. by rewrite Ho.
Qed.

(** X11.  When the range of a day is defined and no candle from the entry
    start to the entry cutoff closes outside it, the morning session of that
    day opens no trade and stays unarmed: the ledger is untouched and no
    drawdown is recorded.  The same holds for the afternoon session when no
    candle from its entry start to before the exit time closes outside its
    range. *)
Theorem no_breakout_no_trade :
  ∀ (self : Backtester.t) (df_day : list Candle.t) (date : Z) (hi lo : Q),
    (calculate_range df_day date MORNING_RANGE_START MORNING_RANGE_END
     = Some (hi, lo) →
     (∀ c, c ∈ df_day →
           (MORNING_ENTRY_START ≤ Candle.time_only c)%Z →
           (Candle.time_only c ≤ MORNING_ENTRY_CUTOFF)%Z →
           lo <= Candle.close c ∧ Candle.close c <= hi) →
     let r := process_morning_session (reset_daily_state self) df_day date in
     same_ledger self r
     ∧ SessionState.breakout_direction (Backtester.morning_state r) = None
     ∧ SessionState.initial_breakout_done (Backtester.morning_state r) = false
     ∧ Backtester.morning_session_drawdowns r
       = Backtester.morning_session_drawdowns self)
    ∧ (calculate_range df_day date AFTERNOON_RANGE_START AFTERNOON_RANGE_END
       = Some (hi, lo) →
       (∀ c, c ∈ df_day →
             (AFTERNOON_ENTRY_START ≤ Candle.time_only c)%Z →
             (Candle.time_only c < AFTERNOON_EXIT_TIME)%Z →
             lo <= Candle.close c ∧ Candle.close c <= hi) →
       let r := process_afternoon_session (reset_daily_state self) df_day date in
       same_ledger self r
       ∧ SessionState.breakout_direction (Backtester.afternoon_state r) = None
       ∧ SessionState.initial_breakout_done (Backtester.afternoon_state r) = false
       ∧ Backtester.afternoon_session_drawdowns r
         = Backtester.afternoon_session_drawdowns self).
Proof.
  intros self df_day date hi lo. split.
  - intros Hr Hin r. unfold r, process_morning_session, prepare_session. simpl.
    rewrite Hr. simpl.
    set (state := SessionState.set_range _ hi lo).
    assert (Hloop : ∀ cs, (∀ c, c ∈ cs → c ∈ df_day ∧
                                 (MORNING_ENTRY_START ≤ Candle.time_only c)%Z) →
                          morning_loop cs (reset_daily_state self, state)
                          = (reset_daily_state self, state)).
    { unfold morning_loop. induction cs as [|c cs IH]; intros Hcs;
        cbn [fold_left]; [done|].
      unfold morning_candle at 2.
      rewrite (session_candle_idle _ _ _ _ _ _ hi lo); try done.
      - apply IH. intros c' Hc'. apply Hcs. by right.
      - intros Hg. apply Z.leb_le in Hg.
        destruct (Hcs c) as [Hc Hs]; [by left|]. by apply Hin. }
    rewrite Hloop.
    2:{ intros c Hc. apply list_elem_of_In, filter_In in Hc as [Hc Hs].
        split; [by apply list_elem_of_In|by apply Z.leb_le]. }
    simpl. done.
  - intros Hr Hin r. unfold r, process_afternoon_session, prepare_session. simpl.
    rewrite Hr. simpl.
    set (state := SessionState.set_range _ hi lo).
    assert (Hloop : ∀ cs, (∀ c, c ∈ cs → c ∈ df_day ∧
                                 (AFTERNOON_ENTRY_START ≤ Candle.time_only c)%Z) →
                          afternoon_loop cs (reset_daily_state self, state)
                          = (reset_daily_state self, state)).
    { induction cs as [|c cs IH]; intros Hcs; cbn [afternoon_loop fst snd]; [done|].
      destruct (Z.leb_spec AFTERNOON_EXIT_TIME (Candle.time_only c)); [done|].
      unfold afternoon_candle.
      rewrite (session_candle_idle _ _ _ _ _ _ hi lo); try done.
      - apply IH. intros c' Hc'. apply Hcs. by right.
      - intros _. destruct (Hcs c) as [Hc Hs]; [by left|]. by apply Hin. }
    rewrite Hloop.
    2:{ intros c Hc. apply list_elem_of_In, filter_In in Hc as [Hc Hs].
        split; [by apply list_elem_of_In|by apply Z.leb_le]. }
    unfold close_at_session_end. simpl. done.
Qed.

Lemma no_breakout_no_trade_witness :
  let r := process_morning_session (reset_daily_state example_engine)
                                   (range_bars ++ [bar 10 15 110300 110400 110200 110300])
                                   example_day in
  same_ledger example_engine r
  ∧ SessionState.breakout_direction (Backtester.morning_state r) = None.
Proof.
  intros r.
  destruct (proj1 (no_breakout_no_trade example_engine
                     (range_bars ++ [bar 10 15 110300 110400 110200 110300])
                     example_day (px 110500) (px 110000)))
    as (H1 & H2 & _).
  - vm_compute. reflexivity.
  - intros c Hc Hs _. apply list_elem_of_In in Hc. vm_compute in Hc.
    repeat (destruct Hc as [<-|Hc];
            [first [vm_compute in Hs; exfalso; by apply Hs
                   |vm_compute; split; discriminate]|]).
    destruct Hc.
  - split; [exact H1|exact H2].
Defined.

(** ** Take-profit exits are winners *)

Lemma close_realized_pos (tr : Trade.t) (price : Q) (t : Z) (r : ExitReason)
    (point : Q) :
  0 < point → 0 < Trade.lot_size tr →
  match Trade.direction tr with
  | BUY => Trade.entry_price tr < price
  | SELL => price < Trade.entry_price tr
  end →
  0 < Trade.realized (Trade.close tr price t r point).
Proof.
  intros Hp Hl Hside.
  assert (Hne : ¬ point == 0) by (intros E; rewrite E in Hp; by apply Qlt_irrefl in Hp).
  rewrite (close_realized_formula tr price t r point Hne).
  assert (Hk : 0 < 10 * Trade.lot_size tr / point).
  { apply Qlt_shift_div_l; [done|]. lra. }
  set (k := 10 * Trade.lot_size tr / point) in *.
  rewrite Qmult_comm, <- (Qmult_0_r k).
  apply Qmult_lt_l; [done|]. destruct (Trade.direction tr); lra.
Qed.

Lemma OpenOK_entries st store store' i :
  entry_fields <$> store' = entry_fields <$> store →
  OpenOK st store i → OpenOK st store' i.
Proof.
  intros He (tr & Hl & H1 & H2 & H3 & H4).
  assert (Hx : (entry_fields <$> store') !! i = Some (entry_fields tr))
    by (by rewrite He, list_lookup_fmap, Hl).
  rewrite list_lookup_fmap in Hx.
  destruct (store' !! i) as [tr'|] eqn:Hl'; [|done].
  simpl in Hx. exists tr'. split; [done|].
  unfold entry_fields in Hx.
  assert (Hd : Trade.direction tr' = Trade.direction tr) by congruence.
  assert (He1 : Trade.entry_price tr' = Trade.entry_price tr) by congruence.
  assert (He2 : Trade.lot_size tr' = Trade.lot_size tr) by congruence.
  assert (He3 : Trade.tp_price tr' = Trade.tp_price tr) by congruence.
  by rewrite Hd, He1, He2, He3.
Qed.

Lemma OpenOK_control st st' store i :
  control_fields st' = control_fields st → OpenOK st store i → OpenOK st' store i.
Proof.
  unfold control_fields, OpenOK. by intros [= _ _ _ -> _ -> _ -> _ _].
Qed.

Lemma Geared_control st st' :
  control_fields st' = control_fields st →
  (SessionState.breakout_direction st = None →
   SessionState.open_trades st' = SessionState.open_trades st) →
  Geared st → Geared st'.
Proof.
  intros Hc Ho (HW & Hr & Ht). split; [by apply (Wired_transfer st)|].
  unfold control_fields in Hc. injection Hc as _ -> -> -> _ -> _ _ _ _. done.
Qed.

Lemma close_trade_win_tp self st ref t :
  0 < Backtester.point self → Geared st →
  OpenOK st (Backtester.all_trades self) ref →
  TPWin (Backtester.all_trades self) →
  TPWin (Backtester.all_trades
           (close_trade self ref (num (SessionState.tp_price st)) t TP)).
Proof.
  intros Hp (HW & Hr & Ht) (tr & Hl & H1 & H2 & H3 & H4) HT.
  unfold close_trade. rewrite Hl. simpl. intros j tr' Hj He.
  destruct (decide (j = ref)) as [->|Hne].
  2:{ rewrite list_lookup_insert_ne in Hj by done. by apply (HT j). }
  rewrite list_lookup_insert_eq in Hj by (by apply lookup_lt_Some in Hl).
  injection Hj as <-. split; [|simpl; by rewrite H2].
  apply close_realized_pos; [done|done|].
  destruct HW as (_ & _ & _ & _ & _ & _ & HL).
  specialize (HL _ H1). rewrite HL in H3.
  apply scale_levels_bounds in H3 as [Hlo Hhi]; [|done].
  specialize (Ht _ H1). destruct (Trade.direction tr); lra.
Qed.

Lemma close_trade_win_other self ref p t r :
  r ≠ TP →
  TPWin (Backtester.all_trades self) →
  TPWin (Backtester.all_trades (close_trade self ref p t r)).
Proof.
  intros Hr HT. unfold close_trade.
  destruct (Backtester.all_trades self !! ref) as [tr|] eqn:Hl; [|done].
  simpl. intros j tr' Hj He. destruct (decide (j = ref)) as [->|Hne].
  - rewrite list_lookup_insert_eq in Hj by (by apply lookup_lt_Some in Hl).
    injection Hj as <-. simpl in He. congruence.
  - rewrite list_lookup_insert_ne in Hj by done. by apply (HT j).
Qed.

Lemma close_each_win_other self l p t r :
  r ≠ TP →
  TPWin (Backtester.all_trades self) →
  TPWin (Backtester.all_trades (close_each self l p t r)).
Proof.
  intros Hr. unfold close_each. revert self.
  induction l as [|x l IH]; intros self HT; simpl; [done|].
  apply IH. by apply close_trade_win_other.
Qed.

Lemma close_each_win_tp self st l t :
  0 < Backtester.point self → Geared st →
  (∀ i, i ∈ l → OpenOK st (Backtester.all_trades self) i) →
  TPWin (Backtester.all_trades self) →
  TPWin (Backtester.all_trades
           (close_each self l (num (SessionState.tp_price st)) t TP)).
Proof.
  intros Hp HG. unfold close_each. revert self Hp.
  induction l as [|x l IH]; intros self Hp Ho HT; simpl; [done|].
  apply IH.
  - by rewrite close_trade_point.
  - intros i Hi. apply (OpenOK_entries st (Backtester.all_trades self)).
    + apply close_trade_entries.
    + apply Ho. by right.
  - apply close_trade_win_tp; try done. apply Ho. by left.
Qed.

Lemma tp_fold_win candle st l self live hit :
  0 < Backtester.point self → Geared st →
  (∀ i, i ∈ l → OpenOK st (Backtester.all_trades self) i) →
  (∀ i, i ∈ live → OpenOK st (Backtester.all_trades self) i) →
  TPWin (Backtester.all_trades self) →
  let r := fold_left (tp_iter candle (num (SessionState.tp_price st))) l
                     (self, live, hit) in
  0 < Backtester.point r.1.1
  ∧ (∀ i, i ∈ r.1.2 → OpenOK st (Backtester.all_trades r.1.1) i)
  ∧ TPWin (Backtester.all_trades r.1.1).
Proof.
  intros Hp HG. revert self live hit Hp.
  induction l as [|x l IH]; intros self live hit Hp Hl Hlive HT; simpl; [done|].
  assert (Hrest : ∀ i, i ∈ l → OpenOK st (Backtester.all_trades self) i)
    by (intros i Hi; apply Hl; by right).
  destruct (Backtester.all_trades self !! x) as [tr|] eqn:Hx; [|by apply IH].
  destruct (check_tp_hit tr candle); [|by apply IH].
  apply IH.
  - by rewrite close_trade_point.
  - intros i Hi. apply (OpenOK_entries st (Backtester.all_trades self));
      [apply close_trade_entries|by apply Hrest].
  - intros i Hi. apply list_remove_elem_of in Hi.
    apply (OpenOK_entries st (Backtester.all_trades self));
      [apply close_trade_entries|by apply Hlive].
  - apply close_trade_win_tp; try done. apply Hl. by left.
Qed.

Lemma check_take_profit_winning candle self state :
  Winning (self, state) → Winning (check_take_profit candle self state).
Proof.
  intros (Hp & HG & Ho & HT). simpl in *. unfold check_take_profit.
  destruct (SessionState.open_trades state) as [|x o] eqn:E.
  { split; [done|]. split; [done|]. split; [|done]. simpl. by rewrite E. }
  pose proof (tp_fold_win candle state (x :: o) self (x :: o) false Hp HG Ho Ho HT)
    as (Hp' & Ho' & HT').
  destruct (fold_left _ _ _) as [[self1 opens] tp_hit]. simpl in Hp', Ho', HT'.
  assert (HG' : ∀ l, Geared (SessionState.set_open_trades state l)).
  { intros l. apply (Geared_control state); [done| |done].
    intros Hn. destruct HG as ((_ & _ & _ & _ & _ & H6 & _) & _).
    specialize (H6 Hn). congruence. }
  destruct tp_hit.
  - split; [|split; [|split]]; simpl.
    + by rewrite close_each_point.
    + apply HG'.
    + intros i Hi. by apply elem_of_nil in Hi.
    + apply (close_each_win_tp self1 state opens); try done.
  - split; [done|]. split; [apply HG'|]. split; [|done]. simpl.
    intros i Hi. by apply (OpenOK_control state), Ho'.
Qed.

Lemma check_initial_breakout_winning gate candle self state :
  Winning (self, state) →
  Winning (self, check_initial_breakout gate candle self state).
Proof.
  intros HWin. pose proof HWin as (Hp & HG & Ho & HT). simpl in *.
  pose proof (check_initial_breakout_wired gate candle self state (proj1 HG)) as HW'.
  revert HW'. unfold check_initial_breakout.
  destruct (negb _ && gate) eqn:Hg; [|done].
  apply andb_true_iff in Hg as [Hg _]. apply negb_true_iff in Hg.
  destruct HG as (HW & Hr & Ht).
  destruct HW as (H1 & H2 & H3 & H4 & H5 & H6 & H7). destruct (H3 Hg) as [Hd Hc].
  specialize (H6 Hd).
  assert (Hu : 0 < TP_UNITS * Backtester.point self).
  { rewrite <- (Qmult_0_r TP_UNITS). by apply Qmult_lt_l. }
  destruct (Qlt_bool (num (SessionState.range_high state)) (Candle.close candle))
    eqn:E1;
    [|destruct (Qlt_bool (Candle.close candle) (num (SessionState.range_low state)))
        eqn:E2; [|done]]; intros HW'.
  - apply Qlt_bool_iff in E1.
    split; [done|]. split; [|split; [|done]]; simpl.
    + split; [done|]. split; [done|]. intros d [= <-]. simpl.
      unfold calculate_tp. simpl. lra.
    + rewrite H6. intros i Hi. by apply elem_of_nil in Hi.
  - apply Qlt_bool_iff in E2.
    split; [done|]. split; [|split; [|done]]; simpl.
    + split; [done|]. split; [done|]. intros d [= <-]. simpl.
      unfold calculate_tp. simpl. lra.
    + rewrite H6. intros i Hi. by apply elem_of_nil in Hi.
Qed.

Lemma scale_lot_size_pos state d idx level :
  Wired state → SessionState.breakout_direction state = Some d →
  SessionState.scale_levels state !! idx = Some level →
  0 < scale_lot_size state idx.
Proof.
  intros (_ & _ & _ & _ & _ & _ & H7) Hd Hl. unfold scale_lot_size.
  rewrite (H7 d Hd) in Hl.
  destruct (1 <=? SessionState.reversal_count state)%nat; [done|].
  apply lookup_lt_Some in Hl.
  assert (Hi : (idx < 3)%nat) by (destruct d; simpl in Hl; lia).
  destruct idx as [|[|[|idx]]]; [done|done|done|lia].
Qed.

Lemma scale_fold_winning session can_enter candle direction entries acc :
  Winning acc →
  SessionState.breakout_direction acc.2 = Some direction →
  (∀ il, il ∈ entries → SessionState.scale_levels acc.2 !! il.1 = Some il.2) →
  Winning (fold_left (scale_iter session can_enter candle direction) entries acc).
Proof.
  revert acc.
  induction entries as [|[idx level] entries IH]; intros [self state] HW Hd He;
    cbn [fold_left]; [done|].
  assert (Hrest : ∀ il, il ∈ entries →
                        SessionState.scale_levels state !! il.1 = Some il.2)
    by (intros il Hil; apply He; by right).
  assert (Hlv : SessionState.scale_levels state !! idx = Some level)
    by (apply (He (idx, level)); by left).
  unfold scale_iter at 2.
  destruct (existsb _ _); [by apply IH|].
  destruct (level_triggered _ _ _); [|by apply IH].
  destruct can_enter; simpl; [|by apply IH].
  apply IH; simpl; [|done|done].
  destruct HW as (Hp & HG & Ho & HT). simpl in *.
  split; [done|]. split; [|split]; simpl.
  - apply (Geared_control state); [done| |done].
    intros Hn. congruence.
  - intros i Hi. apply elem_of_app in Hi as [Hi|Hi].
    + destruct (Ho i Hi) as (tr & Hl & Hrest').
      exists tr. split; [|done]. by apply lookup_app_l_Some.
    + apply list_elem_of_singleton in Hi as ->.
      eexists. split; [apply list_lookup_middle; done|]. simpl.
      split; [done|]. split; [done|]. split.
      * by apply list_elem_of_lookup_2 in Hlv.
      * by apply (scale_lot_size_pos state direction idx level (proj1 HG)).
  - intros j tr Hj Hr. apply lookup_app_Some in Hj as [Hj|[_ Hj]].
    + by apply (HT j).
    + apply list_lookup_singleton_Some in Hj as [_ <-]. done.
Qed.

Lemma check_scaling_winning session can_enter candle direction self state :
  Winning (self, state) →
  SessionState.breakout_direction state = Some direction →
  Winning (check_scaling session can_enter candle direction self state).
Proof.
  intros HW Hd. unfold check_scaling. destruct (can_check_scales _ _); [|done].
  apply scale_fold_winning; [done|done|].
  intros [i l] Hil. by apply enumerate_lookup.
Qed.

Lemma track_drawdown_winning candle self state :
  Winning (self, state) → Winning (self, track_drawdown candle self state).
Proof.
  intros (Hp & HG & Ho & HT). simpl in *.
  pose proof (track_drawdown_control candle self state) as Hc.
  pose proof (track_drawdown_open_trades candle self state) as Hop.
  split; [done|]. split; [|split; [|done]]; simpl.
  - by apply (Geared_control state).
  - rewrite Hop. intros i Hi. by apply (OpenOK_control state), Ho.
Qed.

Lemma handle_reversal_winning can_enter candle direction new_direction self state :
  Winning (self, state) →
  SessionState.breakout_direction state = Some direction →
  reversal_direction candle direction state = Some new_direction →
  Winning (handle_reversal can_enter candle new_direction self state).
Proof.
  intros (Hp & HG & Ho & HT) Hd Hrev. simpl in *.
  pose proof (handle_reversal_wired can_enter candle new_direction self state
                (proj1 HG)) as HW'.
  destruct HG as (HW & Hr & Ht).
  assert (Hside : match new_direction with
                  | BUY => num (SessionState.range_high state) < Candle.close candle
                  | SELL => Candle.close candle < num (SessionState.range_low state)
                  end).
  { unfold reversal_direction in Hrev.
    destruct direction; destruct (Qlt_bool _ _) eqn:E; try done;
      injection Hrev as <-; by apply Qlt_bool_iff in E. }
  revert HW'. unfold handle_reversal.
  set (closed := match SessionState.open_trades state with
                 | [] => (self, state)
                 | _ :: _ => close_all_session_trades self state (Candle.close candle)
                               (Candle.time candle) REVERSAL
                 end).
  assert (Hcl : control_fields closed.2 = control_fields state
                ∧ SessionState.open_trades closed.2 = []
                ∧ Backtester.point closed.1 = Backtester.point self
                ∧ TPWin (Backtester.all_trades closed.1)).
  { unfold closed. destruct (SessionState.open_trades state) eqn:E; [done|].
    simpl. split; [done|]. split; [done|]. split; [apply close_each_point|].
    by apply close_each_win_other. }
  destruct closed as [self1 state1]. simpl in Hcl.
  destruct Hcl as (Hcf & Hop & Hpt & HT1).
  unfold control_fields in Hcf.
  injection Hcf as _ Hrh Hrl _ _ _ _ _ _ _.
  assert (Hu : 0 < TP_UNITS * Backtester.point self1).
  { rewrite Hpt, <- (Qmult_0_r TP_UNITS). by apply Qmult_lt_l. }
  intros HW'. specialize (HW' ltac:(by eexists)).
  assert (Hnil : ∀ st, SessionState.open_trades st = [] →
                       ∀ i, i ∈ SessionState.open_trades st →
                            OpenOK st (Backtester.all_trades self1) i).
  { intros st -> i Hi. by apply elem_of_nil in Hi. }
  destruct can_enter; simpl in *.
  - destruct (SessionState.reversal_count state1 =? 0)%nat.
    + split; [simpl; by rewrite Hpt|]. split; [|split; [by apply Hnil|done]]. simpl.
      split; [done|]. simpl. rewrite Hrh, Hrl. split; [done|].
      intros d [= <-]. unfold calculate_tp.
      destruct new_direction; simpl; lra.
    + split; [simpl; by rewrite Hpt|]. split; [|split; [by apply Hnil|done]]. simpl.
      split; [done|]. simpl. rewrite Hrh, Hrl. split; [done|]. done.
  - split; [simpl; by rewrite Hpt|]. split; [|split; [by apply Hnil|done]]. simpl.
    split; [done|]. simpl. rewrite Hrh, Hrl. split; [done|]. done.
Qed.

Lemma session_candle_winning session gate can_enter candle acc :
  Winning acc → Winning (session_candle session gate can_enter candle acc).
Proof.
  destruct acc as [self state0]. intros HW. unfold session_candle.
  apply (check_initial_breakout_winning gate candle) in HW.
  set (state := check_initial_breakout gate candle self state0) in *.
  destruct (SessionState.breakout_direction state) as [direction|] eqn:Hd.
  2:{ by apply track_drawdown_winning. }
  apply (check_take_profit_winning candle) in HW.
  destruct (check_take_profit_control candle self state) as [H1 _].
  destruct (check_take_profit candle self state) as [self1 state1]. simpl in H1.
  assert (Hd1 : SessionState.breakout_direction state1 = Some direction).
  { unfold control_fields in H1. injection H1 as _ _ _ H1 _ _ _ _ _ _. congruence. }
  apply (check_scaling_winning session can_enter candle direction) in HW; [|done].
  pose proof (check_scaling_control session can_enter candle direction self1 state1) as H2.
  destruct (check_scaling _ _ _ _ _ _) as [self2 state2]. simpl in H2.
  assert (Hd2 : SessionState.breakout_direction state2 = Some direction).
  { unfold control_fields in H2. injection H2 as _ _ _ H2 _ _ _ _ _ _. congruence. }
  destruct (reversal_direction candle direction state2) as [new_direction|] eqn:Hrev.
  - by apply (handle_reversal_winning can_enter candle direction).
  - by apply track_drawdown_winning.
Qed.

Lemma morning_loop_winning cs acc : Winning acc → Winning (morning_loop cs acc).
Proof.
  unfold morning_loop. revert acc.
  induction cs as [|c cs IH]; intros acc HW; simpl; [done|].
  apply IH. by apply session_candle_winning.
Qed.

Lemma close_all_winning self state p t r :
  r ≠ TP → Winning (self, state) →
  0 < Backtester.point (close_all_session_trades self state p t r).1
  ∧ TPWin (Backtester.all_trades (close_all_session_trades self state p t r).1).
Proof.
  intros Hr (Hp & _ & _ & HT). simpl in *.
  split; [by rewrite close_each_point|by apply close_each_win_other].
Qed.

Lemma afternoon_loop_winning cs acc :
  Winning acc →
  0 < Backtester.point (afternoon_loop cs acc).1
  ∧ TPWin (Backtester.all_trades (afternoon_loop cs acc).1)
  ∧ (SessionState.open_trades (afternoon_loop cs acc).2 ≠ [] →
     Winning (afternoon_loop cs acc)).
Proof.
  revert acc. induction cs as [|c cs IH]; intros [self state] HW;
    cbn [afternoon_loop fst snd].
  { split; [apply HW|]. split; [apply HW|done]. }
  destruct (_ <=? _)%Z.
  - destruct (SessionState.open_trades state) eqn:E.
    + split; [apply HW|]. split; [apply HW|done].
    + destruct (close_all_winning self state (Candle.close c) (Candle.time c)
                  TIME_EXIT) as [H1 H2]; [done|done|].
      split; [done|]. split; [done|]. simpl. done.
  - apply IH. by apply session_candle_winning.
Qed.

Lemma close_at_session_end_winning cs acc :
  0 < Backtester.point acc.1 →
  TPWin (Backtester.all_trades acc.1) →
  0 < Backtester.point (close_at_session_end cs acc).1
  ∧ TPWin (Backtester.all_trades (close_at_session_end cs acc).1).
Proof.
  intros Hp HT. unfold close_at_session_end.
  destruct (SessionState.open_trades acc.2); [done|].
  destruct (last cs); [|done]. simpl.
  split; [by rewrite close_each_point|by apply close_each_win_other].
Qed.

Lemma prepare_session_geared self state0 df date rs re state :
  (∀ c, c ∈ df → Candle.low c <= Candle.high c) →
  prepare_session self (SessionState.reset state0) df date rs re = Some state →
  Geared state ∧ SessionState.open_trades state = [].
Proof.
  intros Hwf Hp.
  destruct (prepare_session_wired _ _ _ _ _ _ _ Hp) as (HW & Ho & _).
  split; [|done]. split; [done|].
  revert Hp. unfold prepare_session. simpl.
  destruct (calculate_range df date rs re) as [[hi lo]|] eqn:Hr; simpl; [|done].
  intros [= <-]. simpl. split; [|done].
  apply (calculate_range_ordered df date rs re); [|done]. intros c Hc _. by apply Hwf.
Qed.

Lemma process_morning_session_winning self df date state0 :
  Backtester.morning_state self = SessionState.reset state0 →
  (∀ c, c ∈ df → Candle.low c <= Candle.high c) →
  0 < Backtester.point self → TPWin (Backtester.all_trades self) →
  0 < Backtester.point (process_morning_session self df date)
  ∧ TPWin (Backtester.all_trades (process_morning_session self df date)).
Proof.
  intros Hs Hwf Hp HT. unfold process_morning_session. rewrite Hs.
  destruct (prepare_session _ _ _ _ _ _) as [state|] eqn:Hprep; [|done].
  apply prepare_session_geared in Hprep as [HG Ho]; [|done].
  assert (HW : Winning (self, state)).
  { split; [done|]. split; [done|]. split; [|done]. simpl. rewrite Ho.
    intros i Hi. by apply elem_of_nil in Hi. }
  apply (morning_loop_winning (entry_candles_from df MORNING_ENTRY_START)) in HW.
  destruct (morning_loop _ _) as [self1 state1].
  destruct HW as (Hp1 & _ & _ & HT1). simpl in *. by destruct (Qlt_bool _ _).
Qed.

Lemma process_afternoon_session_winning self df date state0 :
  Backtester.afternoon_state self = SessionState.reset state0 →
  (∀ c, c ∈ df → Candle.low c <= Candle.high c) →
  0 < Backtester.point self → TPWin (Backtester.all_trades self) →
  0 < Backtester.point (process_afternoon_session self df date)
  ∧ TPWin (Backtester.all_trades (process_afternoon_session self df date)).
Proof.
  intros Hs Hwf Hp HT. unfold process_afternoon_session. rewrite Hs.
  destruct (prepare_session _ _ _ _ _ _) as [state|] eqn:Hprep; [|done].
  apply prepare_session_geared in Hprep as [HG Ho]; [|done].
  assert (HW : Winning (self, state)).
  { split; [done|]. split; [done|]. split; [|done]. simpl. rewrite Ho.
    intros i Hi. by apply elem_of_nil in Hi. }
  apply (afternoon_loop_winning (entry_candles_from df AFTERNOON_ENTRY_START)) in HW
    as (Hp1 & HT1 & _).
  destruct (close_at_session_end_winning
              (entry_candles_from df AFTERNOON_ENTRY_START) _ Hp1 HT1) as [Hp2 HT2].
  destruct (close_at_session_end _ _) as [self1 state1]. simpl in *.
  by destruct (Qlt_bool _ _).
Qed.

Lemma run_dates_winning df dates self :
  (∀ c, c ∈ df → Candle.low c <= Candle.high c) →
  0 < Backtester.point self → TPWin (Backtester.all_trades self) →
  TPWin (Backtester.all_trades (run_dates df dates self)).
Proof.
  intros Hwf. unfold run_dates. revert self.
  induction dates as [|d dates IH]; intros self Hp HT; simpl; [done|].
  assert (H : 0 < Backtester.point (process_day df self d)
              ∧ TPWin (Backtester.all_trades (process_day df self d))).
  { unfold process_day. destruct (is_weekend d); [done|].
    destruct (List.filter _ df) as [|c0 day] eqn:Hday; [done|]. simpl.
    assert (Hwf' : ∀ c, c ∈ c0 :: day → Candle.low c <= Candle.high c).
    { intros c Hc. apply Hwf. rewrite <- Hday in Hc.
      apply list_elem_of_In, filter_In in Hc as [Hc _]. by apply list_elem_of_In. }
    destruct (process_morning_session_winning (reset_daily_state self) (c0 :: day) d
                (Backtester.morning_state self)) as [Hp1 HT1]; try done.
    apply (process_afternoon_session_winning _ _ _ (Backtester.afternoon_state self));
      try done.
    by rewrite process_morning_session_afternoon_state. }
  destruct H. by apply IH.
Qed.

(** X12.  With a positive point and well-formed candles (low at or below
    high), every trade that a run of a fresh engine closes by take-profit
    exits at the take-profit price it was opened with and realizes a positive
    profit. *)
Theorem take_profit_exits_win :
  ∀ (point b0 : Q) (df : list Candle.t) (i : nat) (tr : Trade.t),
    0 < point →
    (∀ c, c ∈ df → Candle.low c <= Candle.high c) →
    Backtester.all_trades (run (Backtester.init point b0) df) !! i = Some tr →
    Trade.exit_reason tr = Some TP →
    0 < Trade.realized tr ∧ Trade.exit_price tr = Some (Trade.tp_price tr).
Proof.
  intros point b0 df i tr Hp Hwf Hl Hr.
  apply (run_dates_winning df (unique_dates df) (Backtester.init point b0) Hwf Hp)
    with (j := i); try done.
Qed.

Lemma take_profit_exits_win_witness :
  ∃ tr, Backtester.all_trades (run example_engine take_profit_df) !! 0%nat = Some tr
        ∧ Trade.exit_reason tr = Some TP
        ∧ 0 < Trade.realized tr
        ∧ Trade.exit_price tr = Some (Trade.tp_price tr).
Proof.
  assert (Hl : ∃ tr, Backtester.all_trades (run example_engine take_profit_df) !! 0%nat
                     = Some tr ∧ Trade.exit_reason tr = Some TP).
  { eexists. split; [vm_compute; reflexivity|reflexivity]. }
  destruct Hl as (tr & Hl & Hr). exists tr. split; [exact Hl|]. split; [exact Hr|].
  apply (take_profit_exits_win (px 1) 10000 take_profit_df 0%nat tr).
  - reflexivity.
  - intros c Hc. apply list_elem_of_In in Hc. vm_compute in Hc.
    repeat (destruct Hc as [<-|Hc]; [vm_compute; discriminate|]). destruct Hc.
  - exact Hl.
  - exact Hr.
Defined.

(** ** The statistics report *)

Lemma Qlt_bool_false (x y : Q) : Qlt_bool x y = false ↔ y <= x.
Proof.
  split.
  - intros E. apply Qnot_lt_le. intros H. apply Qlt_bool_iff in H. congruence.
  - intros H. destruct (Qlt_bool x y) eqn:E; [|done].
    apply Qlt_bool_iff in E. lra.
Qed.

Lemma sign_cases (x : Q) :
  (0 < x ∧ Statistics.is_win x = true ∧ Statistics.is_loss x = false
   ∧ Statistics.is_breakeven x = false)
  ∨ (x < 0 ∧ Statistics.is_win x = false ∧ Statistics.is_loss x = true
     ∧ Statistics.is_breakeven x = false)
  ∨ (x == 0 ∧ Statistics.is_win x = false ∧ Statistics.is_loss x = false
     ∧ Statistics.is_breakeven x = true).
Proof.
  unfold Statistics.is_win, Statistics.is_loss, Statistics.is_breakeven.
  assert (Heq : ∀ b, (b = true ↔ x == 0) → ¬ x == 0 → b = false).
  { intros [|] Hb Hn; [|done]. exfalso. by apply Hn, Hb. }
  destruct (Q_dec x 0) as [[Hlt|Hgt]|Hz].
  - right. left. split; [done|]. split; [apply Qlt_bool_false; lra|].
    split; [by apply Qlt_bool_iff|].
    apply Heq; [apply Qeq_bool_iff|]. lra.
  - left. split; [done|]. split; [by apply Qlt_bool_iff|].
    split; [apply Qlt_bool_false; lra|].
    apply Heq; [apply Qeq_bool_iff|]. lra.
  - right. right. split; [done|]. split; [apply Qlt_bool_false; lra|].
    split; [apply Qlt_bool_false; lra|]. by apply Qeq_bool_iff.
Qed.

Lemma sign_partition (l : list Q) :
  (length (List.filter Statistics.is_win l)
   + length (List.filter Statistics.is_loss l)
   + length (List.filter Statistics.is_breakeven l) = length l)%nat.
Proof.
  induction l as [|x l IH]; simpl; [done|].
  destruct (sign_cases x) as [(_ & -> & -> & ->)|[(_ & -> & -> & ->)|(_ & -> & -> & ->)]];
    simpl; lia.
Qed.

Lemma total_wins (l : list Q) :
  0 <= Statistics.total (List.filter Statistics.is_win l)
  ∧ (0 < Statistics.total (List.filter Statistics.is_win l)
     ↔ List.filter Statistics.is_win l ≠ []).
Proof.
  unfold Statistics.total. induction l as [|x l [IH1 IH2]]; simpl.
  - split; [lra|]. split; [intros H; lra|done].
  - destruct (Statistics.is_win x) eqn:E; [|done]. simpl.
    apply Qlt_bool_iff in E. split; [lra|]. split; [done|]. intros _. lra.
Qed.

Lemma total_losses (l : list Q) :
  Statistics.total (List.filter Statistics.is_loss l) <= 0
  ∧ (Statistics.total (List.filter Statistics.is_loss l) < 0
     ↔ List.filter Statistics.is_loss l ≠ []).
Proof.
  unfold Statistics.total. induction l as [|x l [IH1 IH2]]; simpl.
  - split; [lra|]. split; [intros H; lra|done].
  - destruct (Statistics.is_loss x) eqn:E; [|done]. simpl.
    apply Qlt_bool_iff in E. split; [lra|]. split; [done|]. intros _. lra.
Qed.

Lemma Qabs_nonpos (x : Q) : x <= 0 → Qabs x == - x.
Proof. intros H. by apply Qabs_neg. Qed.

(** X13.  In the summary of the report, the winning, losing and breakeven
    trades partition the closed trades, of which there is at least one; the
    gross profit and the gross loss are non-negative; and the profit factor
    is infinite exactly when no trade lost. *)
Theorem summary_counts_and_totals :
  ∀ (self : Backtester.t) (s : Statistics.Summary),
    Statistics.generate_statistics self = Statistics.summary s →
    (Statistics.winning_trades s + Statistics.losing_trades s
     + Statistics.breakeven_trades s = Statistics.total_trades s)%nat
    ∧ Statistics.total_trades s = length (Backtester.closed_trades self)
    ∧ (0 < Statistics.total_trades s)%nat
    ∧ 0 <= Statistics.gross_profit s
    ∧ 0 <= Statistics.gross_loss s
    ∧ (Statistics.profit_factor s = None ↔ Statistics.losing_trades s = 0%nat).
Proof.
  intros self s. unfold Statistics.generate_statistics.
  destruct (Backtester.closed_trades self) as [|r closed] eqn:Hc; [done|].
  destruct (Backtester.daily_equity self); [done|].
  intros [= <-]. cbn [Statistics.winning_trades Statistics.losing_trades
                       Statistics.breakeven_trades Statistics.total_trades
                       Statistics.total_profit Statistics.gross_profit
                       Statistics.gross_loss Statistics.profit_factor].
  set (profit := Statistics.profits self).
  assert (Hlen : length profit = length (r :: closed)).
  { unfold profit, Statistics.profits. by rewrite Hc, length_map. }
  destruct (total_wins profit) as [Hw _].
  destruct (total_losses profit) as [Hl1 Hl2].
  pose proof (Qabs_nonpos _ Hl1) as Habs.
  split; [rewrite sign_partition; exact Hlen|]. split; [done|].
  split; [simpl; lia|].
  split; [done|]. split; [rewrite Habs; lra|].
  destruct (Qlt_bool 0 _) eqn:E.
  - apply Qlt_bool_iff in E. rewrite Habs in E. split; [done|]. intros Hn.
    apply length_zero_iff_nil in Hn.
    assert (Hlt : Statistics.total (List.filter Statistics.is_loss profit) < 0) by lra.
    by apply Hl2 in Hlt.
  - apply Qlt_bool_false in E. rewrite Habs in E. split; [|done]. intros _.
    destruct (List.filter Statistics.is_loss profit) as [|q l0] eqn:Ef; [done|].
    assert (Hlt : Statistics.total (q :: l0) < 0) by (by apply Hl2).
    lra.
Qed.

Lemma summary_counts_and_totals_witness :
  ∃ s, Statistics.generate_statistics (run example_engine example_df)
       = Statistics.summary s
       ∧ (Statistics.winning_trades s + Statistics.losing_trades s
          + Statistics.breakeven_trades s = Statistics.total_trades s)%nat
       ∧ Statistics.total_trades s
         = length (Backtester.closed_trades (run example_engine example_df))
       ∧ 0 <= Statistics.gross_loss s.
Proof.
  assert (Hs : ∃ s, Statistics.generate_statistics (run example_engine example_df)
                    = Statistics.summary s)
    by (eexists; vm_compute; reflexivity).
  destruct Hs as [s Hs]. exists s. split; [exact Hs|].
  destruct (summary_counts_and_totals (run example_engine example_df) s Hs)
    as (H1 & H2 & _ & _ & H5 & _).
  split; [exact H1|]. split; [exact H2|exact H5].
Defined.

Lemma Qmax_cases (x y : Q) : (Qmax x y = x ∨ Qmax x y = y) ∧ x <= Qmax x y ∧ y <= Qmax x y.
Proof.
  split; [|split; [apply Q.le_max_l|apply Q.le_max_r]].
  unfold Qmax, GenericMinMax.gmax. destruct (x ?= y); auto.
Qed.

Lemma drawdowns_from_lookup (m : Q) (l : list Q) (i : nat) (d : Q) :
  map (λ bm, bm.1 - bm.2) (combine l (Statistics.cummax_from m l)) !! i = Some d →
  ∃ b c, l !! i = Some b ∧ is_maximum c (m :: take (S i) l) ∧ d = b - c ∧ b <= c.
Proof.
  revert m i. induction l as [|x l IH]; intros m i; [done|]. simpl.
  destruct (Qmax_cases m x) as (Hc & Hm & Hx).
  destruct i as [|i]; simpl.
  - intros [= <-]. exists x, (Qmax m x). split; [done|]. split; [|done].
    split.
    + destruct Hc as [-> | ->]; [by left|right; by left].
    + intros z Hz. apply elem_of_cons in Hz as [->|Hz]; [done|].
      apply list_elem_of_singleton in Hz as ->. done.
  - intros H. apply IH in H as (b & c & Hb & [Hin Hub] & Hd & Hle).
    exists b, c. split; [done|]. split; [|done]. split.
    + apply elem_of_cons in Hin as [->|Hin]; [|by do 2 right].
      destruct Hc as [-> | ->]; [by left|right; by left].
    + assert (Hq : Qmax m x <= c) by (apply Hub; by left).
      intros z Hz. apply elem_of_cons in Hz as [->|Hz]; [lra|].
      apply elem_of_cons in Hz as [->|Hz]; [lra|]. apply Hub. by right.
Qed.

Lemma equity_drawdowns_lookup (l : list Q) (i : nat) (d : Q) :
  Statistics.equity_drawdowns l !! i = Some d →
  ∃ b c, l !! i = Some b ∧ is_maximum c (take (S i) l) ∧ d = b - c ∧ b <= c.
Proof.
  unfold Statistics.equity_drawdowns, Statistics.cummax.
  destruct l as [|x l]; [done|]. destruct i as [|i]; simpl.
  - intros [= <-]. exists x, x. split; [done|]. split; [|split; [done|lra]].
    rewrite take_0. split; [by left|]. intros z Hz.
    apply list_elem_of_singleton in Hz as ->. lra.
  - apply drawdowns_from_lookup.
Qed.

Lemma equity_drawdowns_length (l : list Q) :
  length (Statistics.equity_drawdowns l) = length l.
Proof.
  unfold Statistics.equity_drawdowns, Statistics.cummax.
  destruct l as [|x l]; [done|]. simpl. f_equal.
  generalize x. induction l as [|y l IH]; intros m; simpl; [done|]. by rewrite IH.
Qed.

(** X14.  The maximum drawdown of the report is the largest drop of a daily
    balance below the running peak of the daily balances: it is the balance
    of some day minus the highest balance up to that day, no day has a
    greater drop, and it is never positive. *)
Theorem max_drawdown_is_largest_drop :
  ∀ (self : Backtester.t) (s : Statistics.Summary),
    Statistics.generate_statistics self = Statistics.summary s →
    let balances := map DailyEquity.balance (Backtester.daily_equity self) in
    Statistics.max_drawdown s <= 0
    ∧ (∃ i b peak, balances !! i = Some b
                   ∧ is_maximum peak (take (S i) balances)
                   ∧ Statistics.max_drawdown s = b - peak)
    ∧ (∀ j b peak, balances !! j = Some b →
                   is_maximum peak (take (S j) balances) →
                   Statistics.max_drawdown s <= b - peak).
Proof.
  intros self s. unfold Statistics.generate_statistics.
  destruct (Backtester.closed_trades self) as [|r closed]; [done|].
  destruct (Backtester.daily_equity self) as [|e eq] eqn:He; [done|].
  set (balances := map DailyEquity.balance (e :: eq)).
  intros Hs.
  assert (Hm : Statistics.max_drawdown s
               = series_min (Statistics.equity_drawdowns balances))
    by (by injection Hs as <-).
  rewrite Hm. clear Hs Hm.
  assert (Hne : ∃ d ds, Statistics.equity_drawdowns balances = d :: ds).
  { pose proof (equity_drawdowns_length balances) as Hl.
    destruct (Statistics.equity_drawdowns balances) as [|d ds]; [done|].
    by exists d, ds. }
  destruct Hne as (d0 & ds & Hds).
  assert (Hmin : is_minimum (series_min (Statistics.equity_drawdowns balances))
                            (Statistics.equity_drawdowns balances)).
  { rewrite Hds. apply fold_min_is_minimum. }
  destruct Hmin as [Hin Hlb].
  apply list_elem_of_lookup_1 in Hin as [i Hi].
  destruct (equity_drawdowns_lookup _ _ _ Hi) as (b & c & Hb & Hc & Hd & Hle).
  split; [rewrite Hd; lra|]. split; [by exists i, b, c|].
  intros j b' peak Hj [Hpin Hpub].
  assert (Hjd : is_Some (Statistics.equity_drawdowns balances !! j)).
  { apply lookup_lt_is_Some. rewrite equity_drawdowns_length.
    by apply lookup_lt_Some in Hj. }
  destruct Hjd as [d Hjd].
  destruct (equity_drawdowns_lookup _ _ _ Hjd) as (b2 & c2 & Hb2 & [Hc2in Hc2ub] & Hd2 & _).
  assert (b2 = b') as -> by congruence.
  assert (Hpc : peak <= c2) by (by apply Hc2ub).
  assert (Hmd : series_min (Statistics.equity_drawdowns balances) <= d).
  { apply Hlb. by apply list_elem_of_lookup_2 in Hjd. }
  assert (Hcp : c2 <= peak) by (by apply Hpub).
  rewrite Hd2 in Hmd. lra.
Qed.

Lemma max_drawdown_is_largest_drop_witness :
  ∃ s, Statistics.generate_statistics (run example_engine example_df)
       = Statistics.summary s
       ∧ Statistics.max_drawdown s <= 0.
Proof.
  assert (Hs : ∃ s, Statistics.generate_statistics (run example_engine example_df)
                    = Statistics.summary s)
    by (eexists; vm_compute; reflexivity).
  destruct Hs as [s Hs]. exists s. split; [exact Hs|].
  exact (proj1 (max_drawdown_is_largest_drop (run example_engine example_df) s Hs)).
Defined.

(** X15.  The recommended starting balance of the report is positive: three
    times the size of the worst session drawdown when that is negative, the
    configured initial balance otherwise.  The safe lot size is the
    configured lot size times the configured initial balance over the
    recommended one; it is positive, it is the configured lot size when no
    session had a drawdown, and it never exceeds the configured lot size
    when the recommended balance is at least the configured one. *)
Theorem recommended_balance_safe :
  ∀ (self : Backtester.t) (s : Statistics.Summary),
    Statistics.generate_statistics self = Statistics.summary s →
    0 < Statistics.recommended_starting_balance s
    ∧ 0 < Statistics.safe_lot_size s
    ∧ Statistics.safe_lot_size s
      = LOT_SIZE * (INITIAL_BALANCE / Statistics.recommended_starting_balance s)
    ∧ (Statistics.worst_session_dd s < 0 →
       Statistics.recommended_starting_balance s
       = Qabs (Statistics.worst_session_dd s) * 3)
    ∧ (0 <= Statistics.worst_session_dd s →
       Statistics.recommended_starting_balance s = INITIAL_BALANCE
       ∧ Statistics.safe_lot_size s == LOT_SIZE)
    ∧ (INITIAL_BALANCE <= Statistics.recommended_starting_balance s →
       Statistics.safe_lot_size s <= LOT_SIZE).
Proof.
  intros self s. unfold Statistics.generate_statistics.
  destruct (Backtester.closed_trades self) as [|r closed]; [done|].
  destruct (Backtester.daily_equity self) as [|e eq]; [done|].
  intros [= <-]. cbn [Statistics.recommended_starting_balance
                       Statistics.safe_lot_size Statistics.worst_session_dd].
  set (worst := Qmin _ _).
  assert (Hrec : 0 < Statistics.recommended_balance worst).
  { unfold Statistics.recommended_balance.
    destruct (Qlt_bool worst 0) eqn:E; [|done].
    apply Qlt_bool_iff in E.
    assert (Habs : Qabs worst == - worst) by (apply Qabs_neg; lra).
    rewrite Habs. lra. }
  assert (Hmul : Statistics.safe_lot_multiplier (Statistics.recommended_balance worst)
                 = INITIAL_BALANCE / Statistics.recommended_balance worst).
  { unfold Statistics.safe_lot_multiplier.
    apply Qlt_bool_iff in Hrec as Hb. by rewrite Hb. }
  assert (Hq : 0 < INITIAL_BALANCE / Statistics.recommended_balance worst).
  { apply Qlt_shift_div_l; [done|]. rewrite Qmult_0_l. done. }
  split; [done|]. rewrite Hmul.
  split; [unfold LOT_SIZE; lra|]. split; [done|].
  split; [|split].
  - intros Hneg. unfold Statistics.recommended_balance.
    apply Qlt_bool_iff in Hneg. by rewrite Hneg.
  - intros Hpos. unfold Statistics.recommended_balance.
    destruct (Qlt_bool worst 0) eqn:E; [apply Qlt_bool_iff in E; lra|].
    split; [done|]. reflexivity.
  - intros Hge.
    assert (H1 : INITIAL_BALANCE / Statistics.recommended_balance worst <= 1).
    { apply Qle_shift_div_r; [done|]. by rewrite Qmult_1_l. }
    unfold LOT_SIZE in *. lra.
Qed.

Lemma recommended_balance_safe_witness :
  ∃ s, Statistics.generate_statistics (run example_engine example_df)
       = Statistics.summary s
       ∧ 0 < Statistics.recommended_starting_balance s
       ∧ 0 < Statistics.safe_lot_size s.
Proof.
  assert (Hs : ∃ s, Statistics.generate_statistics (run example_engine example_df)
                    = Statistics.summary s)
    by (eexists; vm_compute; reflexivity).
  destruct Hs as [s Hs]. exists s. split; [exact Hs|].
  destruct (recommended_balance_safe (run example_engine example_df) s Hs)
    as (H1 & H2 & _).
  split; [exact H1|exact H2].
Defined.

(** ** Session drawdowns and the report of a run *)

Lemma process_morning_session_drawn self df date :
  Drawn self → Drawn (process_morning_session self df date).
Proof.
  intros [Hm Ha]. unfold process_morning_session.
  destruct (prepare_session _ _ _ _ _ _) as [state|]; [|done].
  pose proof (morning_loop_fields (entry_candles_from df MORNING_ENTRY_START)
                (self, state)) as H.
  destruct (morning_loop _ _) as [self1 state1]. simpl in H.
  injection H as _ _ _ _ H1 H2.
  destruct (Qlt_bool _ _) eqn:E; split; simpl; rewrite ?H1, ?H2; try done.
  apply Forall_app. split; [done|]. constructor; [|done]. by apply Qlt_bool_iff.
Qed.

Lemma process_afternoon_session_drawn self df date :
  Drawn self → Drawn (process_afternoon_session self df date).
Proof.
  intros [Hm Ha]. unfold process_afternoon_session.
  destruct (prepare_session _ _ _ _ _ _) as [state|]; [|done].
  pose proof (close_at_session_end_fields
                (entry_candles_from df AFTERNOON_ENTRY_START)
                (afternoon_loop (entry_candles_from df AFTERNOON_ENTRY_START)
                                (self, state))) as H.
  rewrite afternoon_loop_fields in H.
  destruct (close_at_session_end _ _) as [self1 state1]. simpl in H.
  injection H as _ _ _ _ H1 H2.
  destruct (Qlt_bool _ _) eqn:E; split; simpl; rewrite ?H1, ?H2; try done.
  apply Forall_app. split; [done|]. constructor; [|done]. by apply Qlt_bool_iff.
Qed.

Lemma run_dates_drawn df dates self : Drawn self → Drawn (run_dates df dates self).
Proof.
  unfold run_dates. revert self.
  induction dates as [|d dates IH]; intros self HD; simpl; [done|].
  apply IH. unfold process_day. destruct (is_weekend d); [done|].
  destruct (List.filter _ df) as [|c day]; [done|].
  by apply (process_afternoon_session_drawn _ (c :: day) d),
           (process_morning_session_drawn _ (c :: day) d).
Qed.

(** X16.  Every session drawdown that a run of a fresh engine records is
    negative: a session whose balance with floating profit never fell below
    its peak records nothing. *)
Theorem session_drawdowns_negative :
  ∀ (point b0 : Q) (df : list Candle.t) (x : Q),
    x ∈ Backtester.morning_session_drawdowns (run (Backtester.init point b0) df)
    ∨ x ∈ Backtester.afternoon_session_drawdowns (run (Backtester.init point b0) df) →
    x < 0.
Proof.
  intros point b0 df x Hx.
  destruct (run_dates_drawn df (unique_dates df) (Backtester.init point b0))
    as [Hm Ha]; [by split; constructor|].
  fold (run (Backtester.init point b0) df) in Hm, Ha.
  rewrite Forall_forall in Hm, Ha. destruct Hx as [Hx|Hx]; [by apply Hm|by apply Ha].
Qed.

Lemma closed_needs_equity df dates self :
  (Backtester.closed_trades self ≠ [] → Backtester.daily_equity self ≠ []) →
  Backtester.closed_trades (run_dates df dates self) ≠ [] →
  Backtester.daily_equity (run_dates df dates self) ≠ [].
Proof.
  unfold run_dates. revert self.
  induction dates as [|d dates IH]; intros self H; simpl; [done|].
  apply IH. unfold process_day. destruct (is_weekend d); [done|].
  destruct (List.filter _ df); [done|]. simpl. intros _ Hnil.
  by apply app_eq_nil in Hnil as [_ Hnil].
Qed.

(** X17.  The report of a run of a fresh engine never fails on a missing
    equity column: it is the no-trades report exactly when the run closed no
    trade, and a summary otherwise. *)
Theorem report_of_run_defined :
  ∀ (point b0 : Q) (df : list Candle.t),
    let final := run (Backtester.init point b0) df in
    Statistics.generate_statistics final ≠ Statistics.key_error
    ∧ (Statistics.generate_statistics final = Statistics.no_trades
       ↔ Backtester.closed_trades final = []).
Proof.
  intros point b0 df final.
  pose proof (closed_needs_equity df (unique_dates df) (Backtester.init point b0)) as H.
  fold (run (Backtester.init point b0) df) in H. fold final in H.
  unfold Statistics.generate_statistics.
  destruct (Backtester.closed_trades final) as [|r closed]; [done|].
  destruct (Backtester.daily_equity final) as [|e eq].
  - exfalso. by apply H.
  - done.
Qed.

Lemma session_drawdowns_negative_witness :
  ∃ x, Backtester.morning_session_drawdowns (run example_engine example_df) = [x]
       ∧ x < 0.
Proof.
  assert (H : ∃ x, Backtester.morning_session_drawdowns (run example_engine example_df)
                   = [x])
    by (eexists; vm_compute; reflexivity).
  destruct H as [x H]. exists x. split; [exact H|].
  apply (session_drawdowns_negative (px 1) 10000 example_df x).
  left. fold example_engine. rewrite H. by left.
Defined.

(** ** The live poller *)

Lemma live_mask_range_mask (date s e : Z) (c : Candle.t) :
  (0 ≤ s)%Z → (e ≤ 86400)%Z →
  range_mask date s e c
  = (Poller.combine_dt date s <=? Candle.time c)%Z
    && (Candle.time c <? Poller.combine_dt date e)%Z.
Proof.
  intros Hs He. apply eq_true_iff_eq.
  rewrite range_mask_in_window, andb_true_iff, Z.leb_le, Z.ltb_lt.
  unfold in_window, Candle.date, Candle.time_only, Poller.combine_dt.
  pose proof (Z.div_mod (Candle.time c) 86400 ltac:(lia)) as Hdm.
  pose proof (Z.mod_pos_bound (Candle.time c) 86400 ltac:(lia)) as Hb.
  split; intros H; [lia|].
  assert (Hq : (Candle.time c / 86400 = date)%Z) by lia.
  lia.
Qed.

(** X18.  For a window given by times of day (start not negative, end at
    most 24 hours), the live poller and the backtester compute the same
    range from the same candles: both are undefined on fewer than three
    candles in the window, and otherwise have the same high and low. *)
Theorem live_range_matches_backtest :
  ∀ (candles : list Candle.t) (start_time end_time current_date : Z),
    (0 ≤ start_time)%Z → (end_time ≤ 86400)%Z →
    calculate_range candles current_date start_time end_time
    = (λ r, (Live.range_high r, Live.range_low r))
        <$> Poller.get_range candles start_time end_time current_date
    ∧ (∀ r, Poller.get_range candles start_time end_time current_date = Some r →
            (3 ≤ Live.candles r)%nat).
Proof.
  intros candles s e date Hs He. unfold calculate_range, Poller.get_range.
  rewrite (filter_ext (range_mask date s e)
             (λ c, (Poller.combine_dt date s <=? Candle.time c)%Z
                   && (Candle.time c <? Poller.combine_dt date e)%Z))
    by (intros c; by apply live_mask_range_mask).
  destruct (Nat.ltb_spec (length (List.filter
              (λ c, (Poller.combine_dt date s <=? Candle.time c)%Z
                    && (Candle.time c <? Poller.combine_dt date e)%Z) candles)) 3).
  - done.
  - split; [done|]. intros r [= <-]. done.
Qed.

Lemma live_range_matches_backtest_witness :
  ∃ r, Poller.get_range example_df MORNING_RANGE_START MORNING_RANGE_END example_day
       = Some r
       ∧ calculate_range example_df example_day MORNING_RANGE_START MORNING_RANGE_END
         = Some (Live.range_high r, Live.range_low r).
Proof.
  assert (H : ∃ r, Poller.get_range example_df MORNING_RANGE_START MORNING_RANGE_END
                                    example_day = Some r)
    by (eexists; vm_compute; reflexivity).
  destruct H as [r H]. exists r. split; [exact H|].
  destruct (live_range_matches_backtest example_df MORNING_RANGE_START
              MORNING_RANGE_END example_day) as [H1 _].
  - vm_compute. discriminate.
  - vm_compute. discriminate.
  - rewrite H1, H. reflexivity.
Defined.

Lemma head_filter_None {A} (p : A → bool) (l : list A) :
  head (List.filter p l) = None ↔ ∀ x, x ∈ l → p x = false.
Proof.
  induction l as [|y l IH]; simpl.
  - split; [|done]. intros _ x Hx. by apply elem_of_nil in Hx.
  - destruct (p y) eqn:E; simpl.
    + split; [done|]. intros H. specialize (H y ltac:(by left)). congruence.
    + rewrite IH. split.
      * intros H x Hx. apply elem_of_cons in Hx as [->|Hx]; [done|by apply H].
      * intros H x Hx. apply H. by right.
Qed.

Lemma head_filter_Some {A} (p : A → bool) (l : list A) (c : A) :
  head (List.filter p l) = Some c →
  ∃ before after, l = before ++ c :: after ∧ p c = true
                  ∧ ∀ x, x ∈ before → p x = false.
Proof.
  induction l as [|y l IH]; simpl; [done|].
  destruct (p y) eqn:E; simpl.
  - intros [= <-]. exists [], l. split; [done|]. split; [done|].
    intros x Hx. by apply elem_of_nil in Hx.
  - intros H. destruct (IH H) as (before & after & -> & Hc & Hb).
    exists (y :: before), after. split; [done|]. split; [done|].
    intros x Hx. apply elem_of_cons in Hx as [->|Hx]; [done|by apply Hb].
Qed.

Lemma filter_filter {A} (p q : A → bool) (l : list A) :
  List.filter q (List.filter p l) = List.filter (λ x, p x && q x) l.
Proof.
  induction l as [|y l IH]; simpl; [done|].
  destruct (p y); simpl; [|done]. destruct (q y); by rewrite IH.
Qed.

(** X19.  The live breakout detection reports nothing exactly when no candle
    from the entry start on closes outside the range.  A reported breakout
    carries the close, time, high and low of a candle from the entry start
    on that closes beyond the range on the reported side, and no candle
    before it in the frame does so on that side. *)
Theorem live_breakout_spec :
  ∀ (candles : list Candle.t) (range_info : Live.RangeInfo)
    (entry_start_time current_date : Z),
    let entry_dt := Poller.combine_dt current_date entry_start_time in
    let beyond (d : Direction) (c : Candle.t) : Prop :=
      match d with
      | BUY => Live.range_high range_info < Candle.close c
      | SELL => Candle.close c < Live.range_low range_info
      end in
    (Poller.check_breakout candles range_info entry_start_time current_date = None
     ↔ ∀ c, c ∈ candles → (entry_dt ≤ Candle.time c)%Z →
            Live.range_low range_info <= Candle.close c
            ∧ Candle.close c <= Live.range_high range_info)
    ∧ (∀ b, Poller.check_breakout candles range_info entry_start_time current_date
            = Some b →
            ∃ before c after,
              candles = before ++ c :: after
              ∧ (entry_dt ≤ Candle.time c)%Z
              ∧ b = Poller.breakout_of (Live.direction b) c
              ∧ beyond (Live.direction b) c
              ∧ ∀ x, x ∈ before → (entry_dt ≤ Candle.time x)%Z →
                     ¬ beyond (Live.direction b) x).
Proof.
  intros candles r entry date entry_dt beyond.
  unfold Poller.check_breakout. fold entry_dt.
  set (pe := λ c : Candle.t, (entry_dt <=? Candle.time c)%Z).
  set (pb := λ c : Candle.t, Qlt_bool (Live.range_high r) (Candle.close c)).
  set (ps := λ c : Candle.t, Qlt_bool (Candle.close c) (Live.range_low r)).
  assert (Hbuy : ∀ c, head (List.filter pb (List.filter pe candles)) = Some c →
                      ∃ before after, candles = before ++ c :: after
                        ∧ (entry_dt ≤ Candle.time c)%Z ∧ beyond BUY c
                        ∧ ∀ x, x ∈ before → (entry_dt ≤ Candle.time x)%Z →
                               ¬ beyond BUY x).
  { intros c Hc. rewrite filter_filter in Hc.
    apply head_filter_Some in Hc as (before & after & -> & Hp & Hb).
    apply andb_true_iff in Hp as [Hp1 Hp2].
    exists before, after. split; [done|]. split; [by apply Z.leb_le|].
    split; [by apply Qlt_bool_iff|]. intros x Hx Hxe Hxb.
    specialize (Hb x Hx). apply andb_false_iff in Hb as [Hb|Hb].
    - apply Z.leb_le in Hxe. unfold pe in Hb. congruence.
    - apply Qlt_bool_iff in Hxb. unfold pb in Hb. congruence. }
  assert (Hsell : ∀ c, head (List.filter ps (List.filter pe candles)) = Some c →
                       ∃ before after, candles = before ++ c :: after
                         ∧ (entry_dt ≤ Candle.time c)%Z ∧ beyond SELL c
                         ∧ ∀ x, x ∈ before → (entry_dt ≤ Candle.time x)%Z →
                                ¬ beyond SELL x).
  { intros c Hc. rewrite filter_filter in Hc.
    apply head_filter_Some in Hc as (before & after & -> & Hp & Hb).
    apply andb_true_iff in Hp as [Hp1 Hp2].
    exists before, after. split; [done|]. split; [by apply Z.leb_le|].
    split; [by apply Qlt_bool_iff|]. intros x Hx Hxe Hxb.
    specialize (Hb x Hx). apply andb_false_iff in Hb as [Hb|Hb].
    - apply Z.leb_le in Hxe. unfold pe in Hb. congruence.
    - apply Qlt_bool_iff in Hxb. unfold ps in Hb. congruence. }
  assert (Hnone : head (List.filter pb (List.filter pe candles)) = None
                  ∧ head (List.filter ps (List.filter pe candles)) = None
                  ↔ ∀ c, c ∈ candles → (entry_dt ≤ Candle.time c)%Z →
                         Live.range_low r <= Candle.close c
                         ∧ Candle.close c <= Live.range_high r).
  { rewrite !filter_filter, !head_filter_None. split.
    - intros [H1 H2] c Hc Hce. apply Z.leb_le in Hce.
      specialize (H1 c Hc). specialize (H2 c Hc). unfold pe, pb, ps in *.
      rewrite Hce in H1, H2. simpl in H1, H2.
      apply Qlt_bool_false in H1, H2. done.
    - intros H. split; intros c Hc; unfold pe, pb, ps;
        destruct (Z.leb_spec entry_dt (Candle.time c)) as [Hle|Hgt]; simpl; try done;
        destruct (H c Hc Hle); by apply Qlt_bool_false. }
  destruct (List.filter pe candles) as [|c0 entry_candles] eqn:Hentry.
  { split; [|done]. split; [|done]. intros _. by apply Hnone. }
  rewrite <- Hentry in *. clear Hentry c0 entry_candles.
  destruct (head (List.filter pb (List.filter pe candles))) as [first_buy|] eqn:Eb;
    destruct (head (List.filter ps (List.filter pe candles))) as [first_sell|] eqn:Es.
  - split.
    + split; [by destruct (_ <? _)%Z|]. intros H. apply Hnone in H as [H _]. done.
    + intros b Hb. destruct (Candle.time first_buy <? Candle.time first_sell)%Z;
        injection Hb as <-; simpl.
      * destruct (Hbuy _ eq_refl) as (before & after & H1 & H2 & H3 & H4).
        by exists before, first_buy, after.
      * destruct (Hsell _ eq_refl) as (before & after & H1 & H2 & H3 & H4).
        by exists before, first_sell, after.
  - split.
    + split; [done|]. intros H. apply Hnone in H as [H _]. done.
    + intros b [= <-]. simpl.
      destruct (Hbuy _ eq_refl) as (before & after & H1 & H2 & H3 & H4).
      by exists before, first_buy, after.
  - split.
    + split; [done|]. intros H. apply Hnone in H as [_ H]. done.
    + intros b [= <-]. simpl.
      destruct (Hsell _ eq_refl) as (before & after & H1 & H2 & H3 & H4).
      by exists before, first_sell, after.
  - split; [|done]. split; [|done]. intros _. by apply Hnone.
Qed.

Lemma live_breakout_spec_witness :
  ∃ b, Poller.check_breakout example_df
         (Live.mkRange (px 110500) (px 110000) 0 0 3) MORNING_ENTRY_START example_day
       = Some b
       ∧ ∃ before c after,
           example_df = before ++ c :: after
           ∧ b = Poller.breakout_of (Live.direction b) c
           ∧ px 110500 < Candle.close c.
Proof.
  assert (H : ∃ b, Poller.check_breakout example_df
                     (Live.mkRange (px 110500) (px 110000) 0 0 3)
                     MORNING_ENTRY_START example_day = Some b
                   ∧ Live.direction b = BUY)
    by (eexists; split; vm_compute; reflexivity).
  destruct H as (b & H & Hd). exists b. split; [exact H|].
  destruct (proj2 (live_breakout_spec example_df
                     (Live.mkRange (px 110500) (px 110000) 0 0 3)
                     MORNING_ENTRY_START example_day) b H)
    as (before & c & after & H1 & _ & H3 & H4 & _).
  exists before, c, after. split; [exact H1|]. split; [exact H3|].
  rewrite Hd in H4. exact H4.
Defined.

(** X20.  The live reversal test looks at the latest candle only and agrees
    with the reversal test of the backtester on that candle for the same
    range: it signals the opposite direction when the close is beyond the
    opposite edge of the range, and nothing otherwise; so it never signals
    the direction already held. *)
Theorem live_reversal_matches_backtest :
  ∀ (candles : list Candle.t) (range_info : Live.RangeInfo)
    (breakout_info : Live.BreakoutInfo) (latest : Candle.t) (state : SessionState.t),
    last candles = Some latest →
    SessionState.range_high state = Some (Live.range_high range_info) →
    SessionState.range_low state = Some (Live.range_low range_info) →
    Poller.check_reversal candles range_info breakout_info
    = reversal_direction latest (Live.direction breakout_info) state
    ∧ Poller.check_reversal candles range_info breakout_info
      ≠ Some (Live.direction breakout_info)
    ∧ (Live.range_low range_info <= Candle.close latest
       ∧ Candle.close latest <= Live.range_high range_info →
       Poller.check_reversal candles range_info breakout_info = None).
Proof.
  intros candles r b latest state Hl Hh Hlo.
  unfold Poller.check_reversal, reversal_direction. rewrite Hl, Hh, Hlo. simpl.
  split; [done|]. destruct (Live.direction b).
  - destruct (Qlt_bool _ _) eqn:E; (split; [done|]); [|done].
    apply Qlt_bool_iff in E. intros H. lra.
  - destruct (Qlt_bool _ _) eqn:E; (split; [done|]); [|done].
    apply Qlt_bool_iff in E. intros H. lra.
Qed.

Lemma live_reversal_matches_backtest_witness :
  Poller.check_reversal (range_bars ++ [breakout_bar; pullback_bar; reversal_bar])
    (Live.mkRange (px 110500) (px 110000) 0 0 3) (Poller.breakout_of BUY breakout_bar)
  = reversal_direction reversal_bar BUY example_armed
  ∧ reversal_direction reversal_bar BUY example_armed = Some SELL.
Proof.
  split; [|vm_compute; reflexivity].
  apply (live_reversal_matches_backtest
           (range_bars ++ [breakout_bar; pullback_bar; reversal_bar])
           (Live.mkRange (px 110500) (px 110000) 0 0 3)
           (Poller.breakout_of BUY breakout_bar) reversal_bar example_armed);
    vm_compute; reflexivity.
Defined.

(** ** The live session procedures *)

Section LivePlatform.
Context (Broker : Type).
Context (open_position :
           Broker → Direction → Q → Q → LiveSession.Comment → option Z * Broker).
Context (close_all_positions : Broker → SessionType → list Z → Broker).
Context (point_value : Q).

(** X21.  The live reversal handler counts every call.  It closes the
    positions of the session and empties their list; a breakout is returned
    only at the first reversal, for the latest candle, when the broker
    accepts the order of twice the lot size placed for it, and the list then
    holds that one ticket; from the second reversal on nothing is ordered. *)
Theorem live_reversal_orders :
  ∀ (new_direction : Direction) (candles : list Candle.t) (session : SessionType)
    (state : Live.TradingState) (broker : Broker),
    let r := LiveSession.handle_reversal Broker open_position close_all_positions
               point_value new_direction candles session state broker in
    let closed :=
      close_all_positions broker session (Live.positions session state) in
    Live.reversal_count session r.1.2 = S (Live.reversal_count session state)
    ∧ (r.1.1 = None → Live.positions session r.1.2 = [])
    ∧ (∀ nb, r.1.1 = Some nb →
             Live.reversal_count session state = 0%nat
             ∧ ∃ latest ticket,
                 last candles = Some latest
                 ∧ nb = Poller.breakout_of new_direction latest
                 ∧ open_position closed new_direction (Live.LOT_SIZE * 2)
                     (Live.calculate_tp point_value nb)
                     (LiveSession.REVERSAL_ORDER session new_direction)
                   = (Some ticket, r.2)
                 ∧ ticket ≠ 0%Z
                 ∧ Live.positions session r.1.2 = [ticket])
    ∧ ((1 ≤ Live.reversal_count session state)%nat →
       r.1.1 = None ∧ r.2 = closed).
Proof.
  intros nd candles session state broker r closed. subst r closed.
  unfold LiveSession.handle_reversal.
  assert (Hpos : Live.positions session
                   (LiveSession.set_reversal_count session
                      (S (Live.reversal_count session state)) state)
                 = Live.positions session state) by (by destruct session).
  rewrite Hpos.
  set (closed := close_all_positions broker session _).
  assert (Hc : Live.reversal_count session
                 (LiveSession.set_reversal_count session
                    (S (Live.reversal_count session state)) state)
               = S (Live.reversal_count session state)) by (by destruct session).
  rewrite Hc.
  set (state1 := LiveSession.set_positions session [] _).
  assert (Hc1 : Live.reversal_count session state1
                = S (Live.reversal_count session state)) by (by destruct session).
  assert (Hp1 : Live.positions session state1 = []) by (by destruct session).
  destruct (Nat.leb_spec 2 (S (Live.reversal_count session state))) as [Hge|Hlt].
  { simpl. split; [done|]. split; [done|]. split; [done|]. done. }
  assert (H0 : Live.reversal_count session state = 0%nat) by lia.
  destruct (last candles) as [latest|] eqn:Hl.
  2:{ simpl. split; [done|]. split; [done|]. split; [done|]. lia. }
  destruct (open_position closed nd (Live.LOT_SIZE * 2) _ _) as [ticket broker1] eqn:Ho.
  destruct ticket as [t|]; simpl.
  2:{ split; [done|]. split; [done|]. split; [done|]. lia. }
  destruct (Z.eqb_spec t 0) as [->|Hne]; simpl.
  { split; [done|]. split; [done|]. split; [done|]. lia. }
  split; [by destruct session|]. split; [done|]. split; [|lia].
  intros nb [= <-]. split; [done|]. exists latest, t.
  split; [done|]. split; [done|]. split; [exact Ho|]. split; [done|].
  by destruct session.
Qed.

(** X22.  Once a reversal has been counted in the live morning session,
    every further poll whose latest candle closes beyond the edge of the
    range opposite to the recorded breakout counts one more reversal: the
    count has no bound.  Such polls keep the recorded breakout and range,
    empty the list of positions, and place no order (the result does not
    depend on the order collaborator). *)
Theorem live_reversals_keep_counting :
  ∀ (polls : list (list Candle.t * Z * Q * Q)) (state : Live.TradingState)
    (broker : Broker) (r : Live.RangeInfo) (b : Live.BreakoutInfo),
    Live.morning_range state = Some r →
    Live.morning_breakout state = Some b →
    (1 ≤ Live.morning_reversal_count state)%nat →
    Forall (λ poll : list Candle.t * Z * Q * Q,
              ∃ latest, last poll.1.1.1 = Some latest
                        ∧ match Live.direction b with
                          | BUY => Candle.close latest < Live.range_low r
                          | SELL => Live.range_high r < Candle.close latest
                          end) polls →
    let final :=
      LiveSession.morning_polls Broker open_position close_all_positions
        point_value polls (state, broker) in
    Live.morning_reversal_count final.1
    = (Live.morning_reversal_count state + length polls)%nat
    ∧ Live.morning_breakout final.1 = Some b
    ∧ Live.morning_range final.1 = Some r
    ∧ (polls ≠ [] → Live.morning_positions final.1 = [])
    ∧ ∀ other_orders,
        LiveSession.morning_polls Broker other_orders close_all_positions
          point_value polls (state, broker)
        = final.
Proof.
  intros polls. unfold LiveSession.morning_polls.
  induction polls as [|[[[candles date] rc] ec] polls IH];
    intros state broker r b Hr Hb Hc Hall.
  { simpl. split; [lia|]. done. }
  apply Forall_cons in Hall as [(latest & Hl & Hside) Hall]. simpl in Hl.
  cbn [fold_left fst snd].
  assert (Hstep : ∀ orders,
            LiveSession.process_morning_session Broker orders close_all_positions
              point_value candles date rc ec state broker
            = (LiveSession.set_positions MORNING []
                 (LiveSession.set_reversal_count MORNING
                    (S (Live.morning_reversal_count state)) state),
               close_all_positions broker MORNING (Live.morning_positions state))).
  { intros orders. unfold LiveSession.process_morning_session,
      LiveSession.session_poll.
    rewrite Hr. rewrite bool_decide_eq_true_2 by (by eexists).
    cbn [negb andb LiveSession.range LiveSession.breakout]. rewrite Hr, Hb.
    cbn [LiveSession.range LiveSession.breakout]. rewrite ?Hr, ?Hb.
    assert (Hrev : ∃ nd, Poller.check_reversal candles r b = Some nd).
    { unfold Poller.check_reversal. rewrite Hl.
      destruct (Live.direction b); apply Qlt_bool_iff in Hside; rewrite Hside;
        by eexists. }
    destruct Hrev as [nd ->].
    unfold LiveSession.handle_reversal. cbn [Live.reversal_count Live.positions].
    cbn [LiveSession.set_reversal_count Live.morning_reversal_count
         Live.morning_positions].
    destruct (Nat.leb_spec 2 (S (Live.morning_reversal_count state))); [done|lia]. }
  rewrite Hstep.
  set (state1 := LiveSession.set_positions MORNING [] _).
  set (broker1 := close_all_positions broker MORNING _).
  destruct (IH state1 broker1 r b) as (H1 & H2 & H3 & H4 & H5); try done.
  { simpl. lia. }
  cbv zeta in *. split; [rewrite H1; simpl; lia|]. split; [done|]. split; [done|].
  split.
  - intros _. destruct polls as [|p polls]; [done|]. by apply H4.
  - intros other. rewrite Hstep. apply H5.
Qed.

Lemma session_poll_flat (session : SessionType) (rs re es : Z) (calc : bool)
    (candles : list Candle.t) (date : Z) (state : Live.TradingState)
    (broker : Broker) :
  LiveSession.breakout session state = None →
  LiveSession.session_poll Broker open_position close_all_positions point_value
    session rs re es calc false candles date state broker
  = (if calc
     then LiveSession.set_range session (Poller.get_range candles rs re date) state
     else state,
     broker).
Proof.
  intros Hb. unfold LiveSession.session_poll.
  set (state1 := if calc then _ else state).
  assert (Hb1 : LiveSession.breakout session state1 = None).
  { unfold state1. destruct calc; [|done]. by destruct session. }
  rewrite Hb1. destruct (LiveSession.range session state1); by rewrite ?Hb1.
Qed.

(** X23.  While no breakout is recorded for a session, a live poll outside
    its entry window, or with two reversals counted, places no order: it
    leaves the broker alone, records no breakout and keeps the positions of
    the session (the morning poll), or at most closes and forgets them at
    the exit time (the afternoon poll). *)
Theorem live_flat_poll_outside_window :
  ∀ (candles : list Candle.t) (current_date : Z)
    (exit_clock range_clock entry_clock : Q)
    (state : Live.TradingState) (broker : Broker),
    (Live.morning_breakout state = None →
     entry_clock < inject_Z LiveSession.MORNING_ENTRY_START
     ∨ inject_Z LiveSession.MORNING_ENTRY_CUTOFF < entry_clock
     ∨ (2 ≤ Live.morning_reversal_count state)%nat →
     let r := LiveSession.process_morning_session Broker open_position
                close_all_positions point_value candles current_date
                range_clock entry_clock state broker in
     r.2 = broker
     ∧ Live.morning_breakout r.1 = None
     ∧ Live.morning_positions r.1 = Live.morning_positions state)
    ∧ (Live.afternoon_breakout state = None →
       entry_clock < inject_Z LiveSession.AFTERNOON_ENTRY_START
       ∨ inject_Z LiveSession.AFTERNOON_EXIT_TIME <= entry_clock
       ∨ (2 ≤ Live.afternoon_reversal_count state)%nat →
       let r := LiveSession.process_afternoon_session Broker open_position
                  close_all_positions point_value candles current_date
                  exit_clock range_clock entry_clock state broker in
       Live.afternoon_breakout r.1 = None
       ∧ ((r.2 = broker
           ∧ Live.afternoon_positions r.1 = Live.afternoon_positions state)
          ∨ (inject_Z LiveSession.AFTERNOON_EXIT_TIME <= exit_clock
             ∧ r.2 = close_all_positions broker AFTERNOON
                       (Live.afternoon_positions state)
             ∧ Live.afternoon_positions r.1 = []))).
Proof.
  intros candles date xc rc ec state broker. split.
  - intros Hb Hout r. subst r. unfold LiveSession.process_morning_session.
    assert (Hce : LiveSession.can_enter_morning_trade ec state = false).
    { unfold LiveSession.can_enter_morning_trade.
      destruct Hout as [H|[H|H]].
      - destruct (Qle_bool _ ec) eqn:E; [|done]. apply Qle_bool_iff in E. lra.
      - destruct (Qle_bool ec _) eqn:E; [|by rewrite andb_false_r].
        apply Qle_bool_iff in E. lra.
      - destruct (Nat.ltb_spec (Live.morning_reversal_count state) 2); [lia|].
        by rewrite andb_false_r. }
    rewrite Hce, session_poll_flat by done. simpl.
    split; [done|]. by destruct (_ && _).
  - intros Hb Hout r. subst r. unfold LiveSession.process_afternoon_session.
    destruct (LiveSession.should_force_close_afternoon xc) eqn:Hx.
    { apply Qle_bool_iff in Hx.
      destruct (Live.afternoon_positions state) as [|t ts] eqn:Hp; simpl.
      - split; [done|]. left. done.
      - split; [done|]. right. done. }
    assert (Hce : LiveSession.can_enter_afternoon_trade ec state = false).
    { unfold LiveSession.can_enter_afternoon_trade.
      destruct Hout as [H|[H|H]].
      - destruct (Qle_bool _ ec) eqn:E; [|done]. apply Qle_bool_iff in E. lra.
      - destruct (Qlt_bool ec _) eqn:E; [|by rewrite andb_false_r].
        apply Qlt_bool_iff in E. lra.
      - destruct (Nat.ltb_spec (Live.afternoon_reversal_count state) 2); [lia|].
        by rewrite andb_false_r. }
    rewrite Hce, session_poll_flat by done. simpl.
    split; [by destruct (_ && _)|]. left. split; [done|]. by destruct (_ && _).
Qed.
End LivePlatform.

Lemma live_reversal_orders_witness :
  let state := Live.mkState (Some example_range) None
                 (Some (Poller.breakout_of BUY breakout_bar)) None 0 0 [] []
                 [7%Z] [] in
  let r := LiveSession.handle_reversal nat ticket_broker idle_close (px 1) SELL
             [breakout_bar; reversal_bar] MORNING state 0%nat in
  r.1.1 = Some (Poller.breakout_of SELL reversal_bar)
  ∧ Live.reversal_count MORNING r.1.2 = 1%nat
  ∧ ∃ ticket, Live.positions MORNING r.1.2 = [ticket] ∧ ticket ≠ 0%Z.
Proof.
  intros state r.
  destruct (live_reversal_orders nat ticket_broker idle_close (px 1) SELL
              [breakout_bar; reversal_bar] MORNING state 0%nat) as (H1 & _ & H & _).
  fold r in H1, H. split; [reflexivity|]. split; [exact H1|].
  destruct (H (Poller.breakout_of SELL reversal_bar) eq_refl)
    as (_ & latest & ticket & _ & _ & _ & Hne & Hp).
  exists ticket. split; [exact Hp|exact Hne].
Defined.

Lemma live_reversals_keep_counting_witness :
  Live.morning_reversal_count
    (LiveSession.morning_polls nat ticket_broker idle_close (px 1)
       [([second_reversal_bar], example_day, 0, 0);
        ([second_reversal_bar; quiet_bar], example_day, 0, 0)]
       (example_reversed_state, 0%nat)).1
  = 3%nat.
Proof.
  apply (live_reversals_keep_counting nat ticket_broker idle_close (px 1)
           [([second_reversal_bar], example_day, 0, 0);
            ([second_reversal_bar; quiet_bar], example_day, 0, 0)]
           example_reversed_state 0%nat example_range
           (Poller.breakout_of SELL reversal_bar)).
  - reflexivity.
  - reflexivity.
  - simpl. lia.
  - repeat constructor.
    + exists second_reversal_bar. split; [reflexivity|]. vm_compute. reflexivity.
    + exists quiet_bar. split; [reflexivity|]. vm_compute. reflexivity.
Defined.

Lemma live_flat_poll_outside_window_witness :
  let state := Live.mkState (Some example_range) None None None 0 0 [] [] [] [] in
  let r := LiveSession.process_morning_session nat ticket_broker idle_close (px 1)
             example_df example_day 0 (inject_Z (time_hm 19 0)) state 0%nat in
  r.2 = 0%nat ∧ Live.morning_breakout r.1 = None.
Proof.
  intros state r.
  destruct (proj1 (live_flat_poll_outside_window nat ticket_broker idle_close (px 1)
                     example_df example_day 0 0 (inject_Z (time_hm 19 0))
                     state 0%nat)) as (H1 & H2 & _).
  - reflexivity.
  - right. left. vm_compute. reflexivity.
  - split; [exact H1|exact H2].
Defined.
